(** * nntrainer: the tensor Manager, layer nodes and the input layer

    A shallow embedding of
      - [Manager] (nntrainer/tensor/manager.h, manager.cpp),
      - [Var_Grad] (nntrainer/tensor/var_grad.cpp),
      - [LayerNode] (nntrainer/layers/layer_node.cpp),
      - [InputLayer] (input_layer.cpp),
      - [DataBuffer_v2] (nntrainer/include/databuffer_v2.h),
      - [TimeDistLayer] (nntrainer/layers/time_dist.cpp),
      - [DynamicTrainingOptimization]
        (nntrainer/models/dynamic_training_optimization.h),
    and the properties of the memory-planning scheme stated about them.

    Conventions.  A [size_t] is an [N] below [2^64]; every [size_t] addition
    and multiplication of the source is followed by [size_t_wrap].  Objects
    mutated in place are passed and returned; a call that can throw returns
    an [outcome] holding the state the object is left in.  Weights are held
    by the Manager by reference ([std::reference_wrapper<Weight>]): they live
    in a [WeightStore] and the Manager keeps their addresses. *)

From Stdlib Require Import NArith ZArith Lia Ascii.
From stdpp Require Import base tactics option list strings pretty.

Local Open Scope N_scope.

(** ** Machine integers *)

Definition size_t_modulus : N := 2 ^ 64.

Definition size_t_wrap (x : N) : N := x mod size_t_modulus.

Definition fits_size_t (x : N) : Prop := x < size_t_modulus.

Definition uint_modulus : N := 2 ^ 32.

(** An [unsigned int] result: reduced modulo 2^32. *)
Definition uint_wrap (x : N) : N := x mod uint_modulus.

(** ** Exceptions and outcomes of calls *)

Inductive exception : Type :=
| invalid_argument (what : string)
| not_supported (what : string)
| out_of_range (what : string)
| runtime_error (what : string).

(** The result of calling a member function on an object of state [S]:
    it returns a value, or an exception leaves it with the object in state
    [s], or the behaviour is undefined (integer division by zero, a vector
    read out of range). *)
Inductive outcome (A S : Type) : Type :=
| Normal (a : A) (s : S)
| Thrown (e : exception) (s : S)
| Undefined.
Arguments Normal {A S} a s.
Arguments Thrown {A S} e s.
Arguments Undefined {A S}.

(** Two calls in succession: the second is made when the first returned. *)
Definition and_then {A B S : Type} (o : outcome A S) (f : S -> outcome B S)
  : outcome B S :=
  match o with
  | Normal _ s => f s
  | Thrown e s => Thrown e s
  | Undefined => Undefined
  end.

Definition outcome_map {A S T : Type} (f : S -> T) (o : outcome A S)
  : outcome A T :=
  match o with
  | Normal a s => Normal a (f s)
  | Thrown e s => Thrown e (f s)
  | Undefined => Undefined
  end.

(** ** Tensor dimensions *)

Module TensorDim.

(** Modelled from the spec: tensor_dim.h is missing.  A shape is a rank-4
    dimension vector (batch, channel, height, width); its element count
    is the product of the four; a zero-sized dimension is an
    invalid-argument failure raised at the call that sets it. *)
Record t : Type := Build {
  batch : N;
  channel : N;
  height : N;
  width : N
}.

(** Modelled from the spec: [TensorDim()] of tensor_dim.h, the shape of the
    empty sentinel tensor. *)
Definition empty : t := Build 0 0 0 0.

(** Modelled from the spec: [getDataLen()] of tensor_dim.h, the element
    count of a shape. *)
Definition getDataLen (d : t) : N :=
  batch d * channel d * height d * width d.

(** Modelled from the spec: [d.batch(b)] of tensor_dim.h rewrites the batch
    dimension; a zero-sized dimension is refused. *)
Definition set_batch (b : N) (d : t) : outcome unit t :=
  if b =? 0
  then Thrown (invalid_argument "zero-sized dimension") d
  else Normal tt (Build b (channel d) (height d) (width d)).

(** Modelled from the spec: [d.setTensorDim(idx, value)] of tensor_dim.h
    rewrites one dimension, [idx] counting from the batch; a zero-sized
    dimension is refused. *)
Definition set_dim (idx : nat) (value : N) (d : t) : outcome unit t :=
  if value =? 0
  then Thrown (invalid_argument "zero-sized dimension") d
  else
    match idx with
    | 0%nat => Normal tt (Build value (channel d) (height d) (width d))
    | 1%nat => Normal tt (Build (batch d) value (height d) (width d))
    | 2%nat => Normal tt (Build (batch d) (channel d) value (width d))
    | 3%nat => Normal tt (Build (batch d) (channel d) (height d) value)
    | _ => Thrown (out_of_range "dimension index") d
    end.

(** Modelled from the spec: the shape [{b, c, h, w}] built from four
    sizes; a zero-sized dimension is refused. *)
Definition of_sizes (b c h w : N) : option t :=
  if (b =? 0) || (c =? 0) || (h =? 0) || (w =? 0)
  then None
  else Some (Build b c h w).

#[global] Instance eq_dec : EqDecision t.
Proof. solve_decision. Defined.

End TensorDim.

(** ** Tensors *)

Module Tensor.

(** Modelled from the spec: tensor.h is missing.  A tensor is a shape and
    an allocation state: unallocated, owning a buffer, or aliasing a
    parent buffer at an offset.  Element values are not modelled. *)
Inductive alloc : Type :=
| Unallocated
| OwnsBuffer (len : N)
| AliasesBufferAt (parent_len : N) (offset : N).

Record t : Type := Build {
  dim : TensorDim.t;
  data : alloc
}.

(** Modelled from the spec: [Tensor()] of tensor.h, the canonical empty
    sentinel. *)
Definition empty : t := Build TensorDim.empty Unallocated.

(** Modelled from the spec: [Tensor(dim)] of tensor.h, a tensor owning a
    buffer of its own shape. *)
Definition of_dim (d : TensorDim.t) : t :=
  Build d (OwnsBuffer (TensorDim.getDataLen d)).

(** Modelled from the spec: [Tensor(len)] of tensor.h, one contiguous
    buffer of [len] elements. *)
Definition of_len (len : N) : t :=
  Build (TensorDim.Build 1 1 1 len) (OwnsBuffer len).

(** Modelled from the spec: [uninitialized()] of tensor.h holds of the
    sentinel. *)
Definition uninitialized (x : t) : bool :=
  match data x with Unallocated => true | _ => false end.

(** Number of elements of the buffer a tensor reads and writes. *)
Definition buffer_len (x : t) : N :=
  match data x with
  | Unallocated => 0
  | OwnsBuffer len => len
  | AliasesBufferAt parent_len offset => parent_len - offset
  end.

(** Modelled from the spec: [parent.getSharedDataTensor(d, offset)] of
    tensor.h returns a tensor of shape [d] that reads and writes the
    parent's storage starting at [offset]; no check is performed. *)
Definition getSharedDataTensor (parent : t) (d : TensorDim.t) (offset : N) : t :=
  Build d (AliasesBufferAt (buffer_len parent) offset).

(** Modelled from the spec: [x.setBatchSize(b)] of tensor.h; only the
    dimension metadata changes. *)
Definition setBatchSize (b : N) (x : t) : outcome unit t :=
  match TensorDim.set_batch b (dim x) with
  | Normal _ d => Normal tt (Build d (data x))
  | Thrown e _ => Thrown e x
  | Undefined => Undefined
  end.

(** The elements [offset, offset + len) of the parent buffer that an
    aliasing tensor covers. *)
Definition region (x : t) : option (N * N) :=
  match data x with
  | AliasesBufferAt _ offset => Some (offset, TensorDim.getDataLen (dim x))
  | _ => None
  end.

(** An aliasing tensor is valid when its region lies inside the parent. *)
Definition valid_alias (x : t) : Prop :=
  match data x with
  | AliasesBufferAt parent_len offset =>
      offset + TensorDim.getDataLen (dim x) <= parent_len
  | _ => False
  end.

#[global] Instance alloc_eq_dec : EqDecision alloc.
Proof. solve_decision. Defined.
#[global] Instance eq_dec : EqDecision t.
Proof. solve_decision. Defined.

End Tensor.

(** Two regions of one buffer share no element. *)
Definition regions_disjoint (r1 r2 : N * N) : Prop :=
  r1.1 + r1.2 <= r2.1 \/ r2.1 + r2.2 <= r1.1.

(** Two regions of one buffer share the element [i]. *)
Definition regions_share (i : N) (r1 r2 : N * N) : Prop :=
  (r1.1 <= i < r1.1 + r1.2) /\ (r2.1 <= i < r2.1 + r2.2).

(** ** Variable-gradient pairs *)

Module Var_Grad.

Record t : Type := Build {
  var : Tensor.t;
  grad : Tensor.t;
  trainable : bool;
  name : string
}.

(** [Var_Grad::Var_Grad(dim, train, name)] (var_grad.cpp); the values that
    [resetGradient()] clears are not modelled. *)
Definition make (d : TensorDim.t) (train : bool) (n : string) : t :=
  Build (Tensor.of_dim d)
        (if train then Tensor.of_dim d else Tensor.empty)
        train n.

(** Modelled from the spec: the accessors of var_grad.h, which is missing;
    the shape of a pair is the shape of its variable. *)
Definition getDim (vg : t) : TensorDim.t := Tensor.dim (var vg).
Definition getName (vg : t) : string := name vg.
Definition getTrainable (vg : t) : bool := trainable vg.

(** Modelled from the spec: var_grad.h is missing.  [initialize(grad_shared,
    gtrain)] binds the tensors: the variable gets a private allocation of
    its own shape; the gradient is the given shared tensor, a private
    allocation when none is given, and stays the empty sentinel when the
    pair is not trainable or derivatives are not initialised. *)
Definition initialize (grad_shared : Tensor.t) (gtrain : bool) (vg : t) : t :=
  let d := getDim vg in
  Build (Tensor.of_dim d)
        (if trainable vg && gtrain
         then (if Tensor.uninitialized grad_shared then Tensor.of_dim d
               else grad_shared)
         else Tensor.empty)
        (trainable vg) (name vg).

(** Modelled from the spec: var_grad.h is missing.  [setBatchSize(n)]
    rewrites the batch dimension of both tensors in place. *)
Definition setBatchSize (b : N) (vg : t) : outcome unit t :=
  match Tensor.setBatchSize b (var vg) with
  | Normal _ v =>
      match Tensor.setBatchSize b (grad vg) with
      | Normal _ g => Normal tt (Build v g (trainable vg) (name vg))
      | Thrown e _ => Thrown e (Build v (grad vg) (trainable vg) (name vg))
      | Undefined => Undefined
      end
  | Thrown e _ => Thrown e vg
  | Undefined => Undefined
  end.

(** The shapes of the variable and of the gradient tensor. *)
Definition shapes (vg : t) : TensorDim.t * TensorDim.t :=
  (Tensor.dim (var vg), Tensor.dim (grad vg)).

End Var_Grad.

(** ** Weights *)

Module Weight.

(** Modelled from the spec: weight.h is missing.  A weight is a
    variable-gradient pair with its own shape record; when it is not
    trainable no gradient buffer is ever materialised. *)
Record t : Type := Build {
  dim : TensorDim.t;
  trainable : bool;
  name : string;
  var : Tensor.t;
  grad : Tensor.t
}.

(** Modelled from the spec: a weight before [initialize] has no buffer. *)
Definition make (d : TensorDim.t) (train : bool) (n : string) : t :=
  Build d train n Tensor.empty Tensor.empty.

(** Modelled from the spec: the accessors of weight.h. *)
Definition getDim (w : t) : TensorDim.t := dim w.
Definition getTrainable (w : t) : bool := trainable w.

(** Modelled from the spec: [w.initialize(grad_shared)] of weight.h gives
    the variable a private allocation of its own shape and binds the
    gradient of a trainable weight to the shared tensor, or to a private
    allocation when none is given; [w.initialize()] passes [Tensor()]. *)
Definition initialize (grad_shared : Tensor.t) (w : t) : t :=
  Build (dim w) (trainable w) (name w)
        (Tensor.of_dim (dim w))
        (if trainable w
         then (if Tensor.uninitialized grad_shared then Tensor.of_dim (dim w)
               else grad_shared)
         else Tensor.empty).

End Weight.

(** Addresses of [Weight] objects and the memory they live in. *)
Definition WeightRef : Type := nat.
Definition WeightStore : Type := WeightRef -> Weight.t.

Definition store_set (r : WeightRef) (w : Weight.t) (st : WeightStore) : WeightStore :=
  fun r' => if decide (r' = r) then w else st r'.

(** ** Loops over vectors of objects mutated in place *)

(** [for (auto &x : l) f(x);] where [f] can throw: the elements before the
    throwing one are updated, the rest of the vector is left as it was. *)
Fixpoint for_each {A : Type} (f : A -> outcome unit A) (l : list A)
  : outcome unit (list A) :=
  match l with
  | [] => Normal tt []
  | x :: rest =>
      match f x with
      | Normal _ x' =>
          match for_each f rest with
          | Normal _ rest' => Normal tt (x' :: rest')
          | Thrown e rest' => Thrown e (x' :: rest')
          | Undefined => Undefined
          end
      | Thrown e x' => Thrown e (x' :: rest)
      | Undefined => Undefined
      end
  end.

(** ** The Manager *)

Module Manager.

Record t : Type := Build {
  weights : list (list WeightRef);
  in_outs : list (list Var_Grad.t);
  max_weight_size : N;
  max_derivative_size : N;
  enable_gradient_memory_opt : bool;
  enable_derivative_memory_opt : bool
}.

(** [Manager::Manager()] *)
Definition make : t := Build [] [] 0 0 true true.

Definition setGradientMemoryOptimization (opt : bool) (m : t) : t :=
  Build (weights m) (in_outs m) (max_weight_size m) (max_derivative_size m)
        opt (enable_derivative_memory_opt m).

Definition setDerivativeMemoryOptimization (opt : bool) (m : t) : t :=
  Build (weights m) (in_outs m) (max_weight_size m) (max_derivative_size m)
        (enable_gradient_memory_opt m) opt.

(** [Manager::trackWeight(w)] *)
Definition trackWeight (w : WeightRef) (m : t) : t :=
  let temp := [w] in
  Build (weights m ++ [temp]) (in_outs m) (max_weight_size m)
        (max_derivative_size m) (enable_gradient_memory_opt m)
        (enable_derivative_memory_opt m).

(** The loop of [Manager::trackWeights] over [ws]. *)
Fixpoint trackWeights_loop (st : WeightStore) (ws : list WeightRef)
    (layer_weights : list WeightRef) (weight_size : N)
  : list WeightRef * N :=
  match ws with
  | [] => (layer_weights, weight_size)
  | w :: ws' =>
      let layer_weights := layer_weights ++ [w] in
      let weight_size :=
        if Weight.getTrainable (st w)
        then size_t_wrap (weight_size + TensorDim.getDataLen (Weight.getDim (st w)))
        else weight_size in
      trackWeights_loop st ws' layer_weights weight_size
  end.

(** [Manager::trackWeights(ws)]; [ws] holds the addresses of the elements
    of the vector. *)
Definition trackWeights (st : WeightStore) (ws : list WeightRef) (m : t) : t :=
  let '(layer_weights, weight_size) := trackWeights_loop st ws [] 0 in
  Build (weights m ++ [layer_weights]) (in_outs m)
        (N.max (max_weight_size m) weight_size)
        (max_derivative_size m) (enable_gradient_memory_opt m)
        (enable_derivative_memory_opt m).

(** The local [shared_grad] of [Manager::initialize]. *)
Definition shared_grad (m : t) : Tensor.t :=
  if (0 <? max_weight_size m) && enable_gradient_memory_opt m
  then Tensor.of_len (max_weight_size m)
  else Tensor.empty.

(** The inner loop of [Manager::initialize] over the weights of a layer. *)
Fixpoint initialize_layer (opt : bool) (shared : Tensor.t)
    (l_w : list WeightRef) (offset : N) (st : WeightStore) : WeightStore :=
  match l_w with
  | [] => st
  | w :: l_w' =>
      let weight := st w in
      if Weight.getTrainable weight && opt
      then
        let weight' :=
          Weight.initialize
            (Tensor.getSharedDataTensor shared (Weight.getDim weight) offset)
            weight in
        initialize_layer opt shared l_w'
          (size_t_wrap (offset + TensorDim.getDataLen (Weight.getDim weight')))
          (store_set w weight' st)
      else
        initialize_layer opt shared l_w' offset
          (store_set w (Weight.initialize Tensor.empty weight) st)
  end.

(** The outer loop: the offset starts at zero for every layer. *)
Fixpoint initialize_loop (opt : bool) (shared : Tensor.t)
    (ws : list (list WeightRef)) (st : WeightStore) : WeightStore :=
  match ws with
  | [] => st
  | l_w :: rest =>
      initialize_loop opt shared rest (initialize_layer opt shared l_w 0 st)
  end.

(** [Manager::initialize()]: the Manager itself is not changed, the
    weights it refers to are. *)
Definition initialize (m : t) (st : WeightStore) : WeightStore :=
  initialize_loop (enable_gradient_memory_opt m) (shared_grad m) (weights m) st.

(** [Manager::reset()] *)
Definition reset (m : t) : t :=
  Build [] [] 0 (max_derivative_size m) (enable_gradient_memory_opt m)
        (enable_derivative_memory_opt m).

(** The loop of [Manager::TrackLayerInOuts] over [input_dim]. *)
Fixpoint TrackLayerInOuts_loop (base_name : string) (trainable : bool)
    (input_dim : list TensorDim.t) (cnt : N) (in_out : list Var_Grad.t)
    (inout_derivative_size : N) : list Var_Grad.t * N :=
  match input_dim with
  | [] => (in_out, inout_derivative_size)
  | d :: rest =>
      let in_out :=
        in_out ++ [Var_Grad.make d trainable (base_name +:+ pretty cnt)] in
      let inout_derivative_size :=
        if trainable
        then size_t_wrap (inout_derivative_size + TensorDim.getDataLen d)
        else inout_derivative_size in
      TrackLayerInOuts_loop base_name trainable rest (cnt + 1) in_out
        inout_derivative_size
  end.

(** [Manager::TrackLayerInOuts(layer_name, input_dim, trainable)] *)
Definition TrackLayerInOuts (layer_name : string)
    (input_dim : list TensorDim.t) (trainable : bool) (m : t) : t :=
  let base_name := layer_name +:+ ":InOut" in
  let '(in_out, inout_derivative_size) :=
    TrackLayerInOuts_loop base_name trainable input_dim 0 [] 0 in
  Build (weights m) (in_outs m ++ [in_out]) (max_weight_size m)
        (N.max (max_derivative_size m) inout_derivative_size)
        (enable_gradient_memory_opt m) (enable_derivative_memory_opt m).

(** The loop of [Manager::untrackLayerInOuts]: [cnt] runs up to
    [in_outs.size()]; [fuel] is the number of iterations left. *)
Fixpoint untrackLayerInOuts_loop (var_name : string)
    (ios : list (list Var_Grad.t)) (cnt fuel : nat) : list (list Var_Grad.t) :=
  match fuel with
  | O => ios
  | S fuel' =>
      match ios !! cnt with
      | Some (vg0 :: _) =>
          if decide (Var_Grad.getName vg0 = var_name)
          then delete cnt ios
          else untrackLayerInOuts_loop var_name ios (S cnt) fuel'
      | _ => untrackLayerInOuts_loop var_name ios (S cnt) fuel'
      end
  end.

(** [Manager::untrackLayerInOuts(layer_name)] *)
Definition untrackLayerInOuts (layer_name : string) (m : t) : t :=
  let var_name := (layer_name +:+ ":InOut") +:+ pretty 0 in
  Build (weights m)
        (untrackLayerInOuts_loop var_name (in_outs m) 0 (length (in_outs m)))
        (max_weight_size m) (max_derivative_size m)
        (enable_gradient_memory_opt m) (enable_derivative_memory_opt m).

(** The local [shared_deriv] of [Manager::initializeInOuts]. *)
Definition shared_deriv (m : t) : Tensor.t :=
  if (0 <? max_derivative_size m) && enable_derivative_memory_opt m
  then Tensor.of_len (max_derivative_size m)
  else Tensor.empty.

(** The inner loop of [Manager::initializeInOuts] over the pairs of a
    layer; [trainable] multiplies the advance of the offset. *)
Fixpoint initializeInOuts_layer (opt : bool) (shared : Tensor.t)
    (trainable : bool) (l_io : list Var_Grad.t) (offset : N)
  : list Var_Grad.t :=
  match l_io with
  | [] => []
  | io :: rest =>
      if Var_Grad.getTrainable io && opt
      then
        let io' :=
          Var_Grad.initialize
            (Tensor.getSharedDataTensor shared (Var_Grad.getDim io) offset)
            trainable io in
        io' :: initializeInOuts_layer opt shared trainable rest
                 (size_t_wrap
                    (offset + TensorDim.getDataLen (Var_Grad.getDim io')
                              * (if trainable then 1 else 0)))
      else
        Var_Grad.initialize Tensor.empty trainable io
          :: initializeInOuts_layer opt shared trainable rest offset
  end.

(** [Manager::initializeInOuts(trainable)] *)
Definition initializeInOuts (trainable : bool) (m : t) : t :=
  let shared := shared_deriv m in
  Build (weights m)
        (map (fun l_io =>
                initializeInOuts_layer (enable_derivative_memory_opt m)
                  shared trainable l_io 0)
             (in_outs m))
        (max_weight_size m) (max_derivative_size m)
        (enable_gradient_memory_opt m) (enable_derivative_memory_opt m).

(** The first statement of [Manager::setBatchSize]: the rescaling of
    [max_derivative_size], guarded by the first pair of the first layer. *)
Definition setBatchSize_rescale (batch : N) (m : t) : option N :=
  match in_outs m with
  | (vg :: _) :: _ =>
      let old := TensorDim.batch (Var_Grad.getDim vg) in
      if old =? 0 then None
      else Some (size_t_wrap (max_derivative_size m / old * batch))
  | _ => Some (max_derivative_size m)
  end.

(** [Manager::setBatchSize(batch)] *)
Definition setBatchSize (batch : N) (m : t) : outcome unit t :=
  match setBatchSize_rescale batch m with
  | None => Undefined
  | Some mds =>
      outcome_map
        (fun ios =>
           Build (weights m) ios (max_weight_size m) mds
                 (enable_gradient_memory_opt m)
                 (enable_derivative_memory_opt m))
        (for_each (for_each (Var_Grad.setBatchSize batch)) (in_outs m))
  end.

(** The shapes of every tracked variable and gradient tensor. *)
Definition shapes (m : t) : list (list (TensorDim.t * TensorDim.t)) :=
  map (map Var_Grad.shapes) (in_outs m).

(** [Manager::getInputsLayer(layer_idx)]: [-1] stands for the layer tracked
    last; [None] is the undefined behaviour of [back()] on an empty vector
    and of an index out of range. *)
Definition getInputsLayer (layer_idx : Z) (m : t) : option (list Var_Grad.t) :=
  if decide (layer_idx = (-1)%Z) then last (in_outs m)
  else if decide (0 <= layer_idx)%Z then in_outs m !! Z.to_nat layer_idx
  else None.

End Manager.

(** ** Status codes *)

(** Modelled from the spec: nntrainer_error.h is missing.  Functions that
    report failure by value return [ML_ERROR_NONE] or a status different
    from it; [throw_status] raises a failure for such a status. *)
Definition ML_ERROR_NONE : Z := 0%Z.
Definition ML_ERROR_INVALID_PARAMETER : Z := (-22)%Z.

Definition throw_status {S : Type} (status : Z) (s : S) : outcome unit S :=
  if decide (status = ML_ERROR_NONE) then Normal tt s
  else Thrown (invalid_argument "status") s.

(** A call that reports failure by value or by a throw has failed. *)
Definition failed {S : Type} (o : outcome Z S) : Prop :=
  match o with
  | Normal status _ => status ≠ ML_ERROR_NONE
  | Thrown _ _ => True
  | Undefined => False
  end.

(** ** Layer nodes *)

Module LayerNode.

(** [LayerV1::PropertyType], as far as [LayerNode::setProperty] tells
    the values apart. *)
Module PropertyType.

Inductive t : Type :=
| input_shape
| name
| flatten
| distribute
| input_layers
| output_layers
| unknown (code : N).

End PropertyType.

(** [std::tuple<props::Name, props::Trainable>]; a name can be unset. *)
Record Props : Type := BuildProps {
  prop_name : option string;
  prop_trainable : bool
}.

(** The collaborators of [LayerNode::setProperty] whose code is not part
    of layer_node.cpp: the layer object behind [layerv1], the property
    loader and the string helpers of parse_util. *)
Class Collaborators : Type := {
  (** a [LayerV1] object with what it points to *)
  LayerV1 : Type;
  (** [l->setProperty(values)] *)
  layer_setProperty : list string -> LayerV1 -> outcome Z LayerV1;
  (** [l->setNumInputs(n)], [l->setNumOutputs(n)] *)
  layer_setNumInputs : nat -> LayerV1 -> LayerV1;
  layer_setNumOutputs : nat -> LayerV1 -> LayerV1;
  (** [ac.createObject<LayerV1>(TimeDistLayer::type)] *)
  createTimeDistLayer : LayerV1;
  (** [dlayer->setDistLayer(l)] and [dlayer->getDistLayer()] *)
  setDistLayer : LayerV1 -> LayerV1 -> LayerV1;
  getDistLayer : LayerV1 -> LayerV1;
  (** [loadProperties(properties, props)]: the strings left over *)
  loadProperties : list string -> Props -> outcome (list string) Props;
  (** [getKeyValue(input, key, value)]: status, key, value *)
  getKeyValue : string -> Z * string * string;
  (** [parseLayerProperty(key)] *)
  parseLayerProperty : string -> PropertyType.t;
  (** [setBoolean(val, str)]: status and the content of [val] *)
  setBoolean : bool -> string -> Z * bool;
  (** [dim.setTensorDim(str)]: it returns a status or throws, and leaves
      [dim] with the content given *)
  setTensorDim : string -> TensorDim.t -> outcome Z TensorDim.t;
  (** [split(value, reg)] with the regular expression [\,+] *)
  split : string -> list string;
  (** [getNumInputs()] of a node, from its inputs and its layer *)
  numInputs : list TensorDim.t -> list string -> LayerV1 -> nat
}.

Section Node.
Context `{C : Collaborators}.

Record t : Type := Build {
  layerv1 : LayerV1;
  index : nat;
  finalized : bool;
  flatten : bool;
  distribute : bool;
  props : Props;
  input_dim : list TensorDim.t;
  input_layers : list string;
  output_layers : list string
}.

Definition set_layerv1 (l : LayerV1) (n : t) : t :=
  Build l (index n) (finalized n) (flatten n) (distribute n) (props n)
        (input_dim n) (input_layers n) (output_layers n).
Definition set_flatten (b : bool) (n : t) : t :=
  Build (layerv1 n) (index n) (finalized n) b (distribute n) (props n)
        (input_dim n) (input_layers n) (output_layers n).
Definition set_distribute (b : bool) (n : t) : t :=
  Build (layerv1 n) (index n) (finalized n) (flatten n) b (props n)
        (input_dim n) (input_layers n) (output_layers n).
Definition set_props (p : Props) (n : t) : t :=
  Build (layerv1 n) (index n) (finalized n) (flatten n) (distribute n) p
        (input_dim n) (input_layers n) (output_layers n).
Definition set_input_dim (d : list TensorDim.t) (n : t) : t :=
  Build (layerv1 n) (index n) (finalized n) (flatten n) (distribute n)
        (props n) d (input_layers n) (output_layers n).
Definition set_input_layers (l : list string) (n : t) : t :=
  Build (layerv1 n) (index n) (finalized n) (flatten n) (distribute n)
        (props n) (input_dim n) l (output_layers n).
Definition set_output_layers (l : list string) (n : t) : t :=
  Build (layerv1 n) (index n) (finalized n) (flatten n) (distribute n)
        (props n) (input_dim n) (input_layers n) l.

(** [LayerNode::getNumInputs()] *)
Definition getNumInputs (n : t) : nat :=
  numInputs (input_dim n) (input_layers n) (layerv1 n).

(** [LayerNode::getName()] *)
Definition getName (n : t) : string :=
  match prop_name (props n) with None => "" | Some s => s end.

(** [LayerNode::getLayer()] *)
Definition getLayer (n : t) : LayerV1 :=
  if distribute n then getDistLayer (layerv1 n) else layerv1 n.

(** The object [getLayer()] refers to is replaced by [l]. *)
Definition set_getLayer (l : LayerV1) (n : t) : t :=
  if distribute n then set_layerv1 (setDistLayer l (layerv1 n)) n
  else set_layerv1 l n.

(** [input_dim.resize(1)] *)
Definition resize1 (d : list TensorDim.t) : list TensorDim.t :=
  match d with
  | [] => [TensorDim.empty]
  | d0 :: _ => [d0]
  end.

(** The [input_shape] case once [in_dim = input_dim[0]] is taken.  A
    failure thrown by [setTensorDim] leaves the function before
    [in_dim.batch(cache_batch_size)] is reached. *)
Definition setProperty_input_shape (value : string) (in_dim : TensorDim.t)
    (rest : list TensorDim.t) (n : t) : outcome unit t :=
  let after_value :=
    if decide (value = "") then Normal tt n
    else
      let cache_batch_size :=
        if TensorDim.batch in_dim =? 0 then 1 else TensorDim.batch in_dim in
      match (if TensorDim.batch in_dim =? 0 then Normal tt in_dim
             else TensorDim.set_batch 1 in_dim) with
      | Normal _ d1 =>
          match setTensorDim value d1 with
          | Normal status d2 =>
              match TensorDim.set_batch cache_batch_size d2 with
              | Normal _ d3 =>
                  throw_status status (set_input_dim (d3 :: rest) n)
              | Thrown e d3 => Thrown e (set_input_dim (d3 :: rest) n)
              | Undefined => Undefined
              end
          | Thrown e d2 => Thrown e (set_input_dim (d2 :: rest) n)
          | Undefined => Undefined
          end
      | Thrown e d1 => Thrown e (set_input_dim (d1 :: rest) n)
      | Undefined => Undefined
      end in
  match after_value with
  | Normal _ n' =>
      Thrown (invalid_argument "Setting input_dim for LayerV1 as well.") n'
  | other_outcome => other_outcome
  end.

(** [LayerNode::setProperty(type, value)] *)
Definition setProperty_typed (type : PropertyType.t) (value : string) (n : t)
  : outcome unit t :=
  match type with
  | PropertyType.input_shape =>
      if decide (1 < getNumInputs n)%nat
      then Thrown (invalid_argument "input_shape keyword is only for one input") n
      else
        let n1 :=
          if decide (getNumInputs n = 0%nat)
          then set_input_dim (resize1 (input_dim n)) n else n in
        match input_dim n1 with
        | in_dim :: rest => setProperty_input_shape value in_dim rest n1
        | [] => Undefined
        end
  | PropertyType.name =>
      if decide (value = "") then Normal tt n
      else Normal tt (set_props (BuildProps (Some value)
                                   (prop_trainable (props n))) n)
  | PropertyType.flatten =>
      if decide (value = "") then Normal tt n
      else
        let '(status, b) := setBoolean (flatten n) value in
        throw_status status (set_flatten b n)
  | PropertyType.distribute =>
      if decide (value = "") then Normal tt n
      else
        let '(status, b) := setBoolean (distribute n) value in
        match throw_status status (set_distribute b n) with
        | Normal _ n1 =>
            if distribute n1
            then
              let dlayer := setDistLayer (layerv1 n1) createTimeDistLayer in
              Normal tt (set_layerv1 dlayer n1)
            else Normal tt n1
        | other_outcome => other_outcome
        end
  | PropertyType.input_layers =>
      if decide (value = "") then Normal tt n
      else
        let split_layers := split value in
        let n1 :=
          set_layerv1 (layer_setNumInputs (length split_layers) (layerv1 n)) n in
        Normal tt (set_input_layers split_layers n1)
  | PropertyType.output_layers =>
      if decide (value = "") then Normal tt n
      else
        let split_layers := split value in
        let n1 :=
          set_layerv1 (layer_setNumOutputs (length split_layers) (layerv1 n)) n in
        Normal tt (set_output_layers split_layers n1)
  | PropertyType.unknown _ => Thrown (invalid_argument "Unknown property.") n
  end.

(** What one iteration of the loop of [setProperty] does: go on to the
    next property, return a status, or undefined behaviour. *)
Inductive iteration : Type :=
| Continue (n : t) (remainder : list string)
| Return (status : Z) (n : t)
| Crash.

Definition setProperty_iteration (property : string)
    (remainder : list string) (n : t) : iteration :=
  let '(status, key, value) := getKeyValue property in
  if decide (status = ML_ERROR_NONE) then
    let type := parseLayerProperty key in
    if decide (value = "") then Return ML_ERROR_INVALID_PARAMETER n
    else
      match setProperty_typed type value n with
      | Normal _ n' => Continue n' remainder
      | Thrown _ n' => Continue n' (remainder ++ [property])
      | Undefined => Crash
      end
  else Return status n.

(** The loop of [setProperty] and the call that follows it. *)
Fixpoint setProperty_loop (properties remainder : list string) (n : t)
  : outcome Z t :=
  match properties with
  | [] =>
      match layer_setProperty remainder (getLayer n) with
      | Normal status l => Normal status (set_getLayer l n)
      | Thrown e l => Thrown e (set_getLayer l n)
      | Undefined => Undefined
      end
  | property :: rest =>
      match setProperty_iteration property remainder n with
      | Continue n' remainder' => setProperty_loop rest remainder' n'
      | Return status n' => Normal status n'
      | Crash => Undefined
      end
  end.

(** [LayerNode::setProperty(properties)] *)
Definition setProperty (properties : list string) (n : t) : outcome Z t :=
  match loadProperties properties (props n) with
  | Normal properties' p => setProperty_loop properties' [] (set_props p n)
  | Thrown e p => Thrown e (set_props p n)
  | Undefined => Undefined
  end.

(** The node and the remainder reached when every property of a list
    has been gone through without a return. *)
Fixpoint applied (properties remainder : list string) (n : t)
  : option (t * list string) :=
  match properties with
  | [] => Some (n, remainder)
  | property :: rest =>
      match setProperty_iteration property remainder n with
      | Continue n' remainder' => applied rest remainder' n'
      | _ => None
      end
  end.

(** The loop of [LayerNode::updateInputLayers(from, to)]; [istrequal] is the
    comparison of two names of util_func. *)
Fixpoint updateInputLayers_loop (istrequal : string -> string -> bool)
    (from to : string) (layers : list string) : list string :=
  match layers with
  | [] => []
  | layer :: rest =>
      (if istrequal layer from then to else layer)
        :: updateInputLayers_loop istrequal from to rest
  end.

(** [LayerNode::updateInputLayers(from, to)] *)
Definition updateInputLayers (istrequal : string -> string -> bool)
    (from to : string) (n : t) : t :=
  set_input_layers
    (updateInputLayers_loop istrequal from to (input_layers n)) n.

(** [LayerNode::updateInputLayers(idx, to)] *)
Definition updateInputLayers_at (idx : nat) (to : string) (n : t)
  : outcome unit t :=
  if decide (length (input_layers n) <= idx)%nat
  then Thrown (out_of_range "Out of range for input_layers") n
  else Normal tt (set_input_layers (<[idx := to]> (input_layers n)) n).

End Node.

Arguments t {C}.

End LayerNode.

(** ** The input layer *)

Module InputLayer.

Record t : Type := Build {
  normalization : bool;
  standardization : bool;
  augmentation : bool;
  trainable : bool;
  input_dim : list TensorDim.t;
  output_dim : list TensorDim.t
}.

(** [InputLayer::calcDerivative()] *)
Definition calcDerivative (l : t) : outcome unit t :=
  Thrown (not_supported "calcDerivative for input layer is not supported") l.

(** [InputLayer::setTrainable(train)]; [Layer::setTrainable(false)] clears
    the flag. *)
Definition setTrainable (train : bool) (l : t) : outcome unit t :=
  if train
  then Thrown (not_supported "Input layer does not support training") l
  else Normal tt (Build (normalization l) (standardization l)
                        (augmentation l) false (input_dim l) (output_dim l)).

(** [disableAugmentation()] *)
Definition disableAugmentation (l : t) : t :=
  Build (normalization l) (standardization l) false (trainable l)
        (input_dim l) (output_dim l).

End InputLayer.

(** ** Specification-side notions *)

(** The sum of the element counts of the trainable weights of a node, as a
    mathematical number. *)
Definition trainable_len (st : WeightStore) (ws : list WeightRef) : N :=
  foldr (fun w acc =>
           (if Weight.getTrainable (st w)
            then TensorDim.getDataLen (Weight.getDim (st w)) else 0) + acc)
        0 ws.

Definition N_list_max (l : list N) : N := foldr N.max 0 l.

(** Registering the weights of the nodes in order, one [trackWeights] call
    per node. *)
Definition register_all (st : WeightStore) (nodes : list (list WeightRef))
    (m : Manager.t) : Manager.t :=
  foldl (fun m ws => Manager.trackWeights st ws m) m nodes.

(** The elements of the shared buffer that the gradient of the weight at
    [w] aliases. *)
Definition grad_region (st : WeightStore) (w : WeightRef) : option (N * N) :=
  Tensor.region (Weight.grad (st w)).

(** A tensor and a pair with the batch dimension rewritten and nothing else
    changed. *)
Definition tensor_with_batch (b : N) (x : Tensor.t) : Tensor.t :=
  Tensor.Build
    (TensorDim.Build b (TensorDim.channel (Tensor.dim x))
       (TensorDim.height (Tensor.dim x)) (TensorDim.width (Tensor.dim x)))
    (Tensor.data x).

Definition with_batch (b : N) (vg : Var_Grad.t) : Var_Grad.t :=
  Var_Grad.Build (tensor_with_batch b (Var_Grad.var vg))
                 (tensor_with_batch b (Var_Grad.grad vg))
                 (Var_Grad.trainable vg) (Var_Grad.name vg).

(** Two stores whose weights have the same shapes and flags. *)
Definition same_shapes (st1 st2 : WeightStore) : Prop :=
  forall w, Weight.getDim (st1 w) = Weight.getDim (st2 w)
            /\ Weight.getTrainable (st1 w) = Weight.getTrainable (st2 w).

(** ** Scenarios *)

(** Scenario A: four nodes, each with one trainable weight, of 100, 40, 250
    and 10 elements; the weight of node [i] lives at address [i]. *)
Definition scenarioA_store : WeightStore :=
  fun r => Weight.make (TensorDim.Build 1 1 1 (nth r [100; 40; 250; 10] 0))
                       true "weight".

Definition scenarioA_nodes : list (list WeightRef) :=
  [[0%nat]; [1%nat]; [2%nat]; [3%nat]].

(** Two nodes over the weights of scenario A: the first holds the weights
    at addresses 0 and 1, the second those at 2 and 3. *)
Definition two_node_weights : Manager.t :=
  register_all scenarioA_store [[0%nat; 1%nat]; [2%nat; 3%nat]] Manager.make.

(** One layer with a single trainable input of shape 4:1:1:8. *)
Definition one_layer_manager : Manager.t :=
  Manager.TrackLayerInOuts "fc" [TensorDim.Build 4 1 1 8] true Manager.make.

(** Scenario B: two nodes, the output of the first feeding the second, both
    trainable, each with one in/out of shape 4:1:1:8. *)
Definition scenarioB_dim : TensorDim.t := TensorDim.Build 4 1 1 8.

Definition scenarioB : Manager.t :=
  Manager.TrackLayerInOuts "node2" [scenarioB_dim] true
    (Manager.TrackLayerInOuts "node1" [scenarioB_dim] true Manager.make).

Definition scenarioB_initialized : Manager.t :=
  Manager.initializeInOuts true scenarioB.


(** Modelled from the spec: parse_util, the property loader and the layer
    classes are missing.  Property strings are key=value pairs resolved
    against the property schema of the node, and the keys the node does not
    handle are passed on to the layer.  The collaborators below read a
    string as the words between [=] signs, load the schema of the node (its
    name and its trainable flag) after every string has been read as a
    pair, know the keys of the node, read [true] and [false], read a shape
    as sizes separated by [:], and have a layer that takes the keys of its
    own schema and reports an invalid parameter for any other. *)
Fixpoint fields (is_sep : ascii -> bool) (s : string) : list string :=
  match s with
  | EmptyString => [EmptyString]
  | String c rest =>
      if is_sep c then EmptyString :: fields is_sep rest
      else
        match fields is_sep rest with
        | f :: fs => String c f :: fs
        | [] => [String c EmptyString]
        end
  end.

Definition nonempty (w : string) : option string :=
  match w with
  | EmptyString => None
  | _ => Some w
  end.

(** The maximal runs of characters that are no separators. *)
Definition words (is_sep : ascii -> bool) (s : string) : list string :=
  omap nonempty (fields is_sep s).

Fixpoint remove_spaces (s : string) : string :=
  match s with
  | EmptyString => EmptyString
  | String c rest =>
      if Ascii.eqb c " "%char then remove_spaces rest
      else String c (remove_spaces rest)
  end.

Definition is_space (c : ascii) : bool :=
  let n := N_of_ascii c in (n =? 32) || ((9 <=? n) && (n <=? 13)).

(** Modelled from the spec: [getKeyValue] of parse_util.  A property
    string is a pair when, its blanks removed, it holds two words: a key
    and a value. *)
Definition key_value (s : string) : option (string * string) :=
  match words (fun c => is_space c || Ascii.eqb c "="%char)
              (remove_spaces s) with
  | [k; v] => Some (k, v)
  | _ => None
  end.

(** The name of the schema takes every pair with the key [name]. *)
Fixpoint load_name (pairs : list (string * string)) (p : LayerNode.Props)
  : list (string * string) * LayerNode.Props :=
  match pairs with
  | [] => ([], p)
  | (k, v) :: rest =>
      if decide (k = "name")
      then load_name rest
             (LayerNode.BuildProps (Some v) (LayerNode.prop_trainable p))
      else
        let '(kept, p') := load_name rest p in ((k, v) :: kept, p')
  end.

(** The trainable flag of the schema takes every pair with the key
    [trainable]; a value that is no boolean is a failure. *)
Fixpoint load_trainable (pairs : list (string * string)) (p : LayerNode.Props)
  : outcome (list (string * string)) LayerNode.Props :=
  match pairs with
  | [] => Normal [] p
  | (k, v) :: rest =>
      if decide (k = "trainable")
      then
        if decide (v = "true")
        then load_trainable rest
               (LayerNode.BuildProps (LayerNode.prop_name p) true)
        else if decide (v = "false")
        then load_trainable rest
               (LayerNode.BuildProps (LayerNode.prop_name p) false)
        else Thrown (invalid_argument "trainable is no boolean") p
      else
        match load_trainable rest p with
        | Normal kept p' => Normal ((k, v) :: kept) p'
        | Thrown e p' => Thrown e p'
        | Undefined => Undefined
        end
  end.

(** Modelled from the spec: [loadProperties].  Every string is read as a
    pair before anything is loaded; one that is no pair is a failure that
    leaves the properties as they were.  The pairs the schema does not
    take are handed back as strings. *)
Definition plain_loadProperties (properties : list string)
    (p : LayerNode.Props) : outcome (list string) LayerNode.Props :=
  match mapM key_value properties with
  | None => Thrown (invalid_argument "parsing property failed") p
  | Some pairs =>
      let '(kept, p1) := load_name pairs p in
      match load_trainable kept p1 with
      | Normal kept' p2 =>
          Normal (map (fun kv => kv.1 +:+ "=" +:+ kv.2) kept') p2
      | Thrown e p2 => Thrown e p2
      | Undefined => Undefined
      end
  end.

(** The keys of the schema of the layer. *)
Definition plain_layer_keys : list string :=
  ["input_shape"; "unit"; "activation"].

(** Modelled from the spec: [setProperty(values)] of a layer.  The layer,
    which is the list of the strings it took, takes the strings in their
    order and returns an invalid parameter at the first whose key it does
    not know, or at once when a string is no pair. *)
Fixpoint plain_layer_loop (values : list string) (l : list string)
  : outcome Z (list string) :=
  match values with
  | [] => Normal ML_ERROR_NONE l
  | v :: rest =>
      match key_value v with
      | Some (k, _) =>
          if decide (k ∈ plain_layer_keys)
          then plain_layer_loop rest (l ++ [v])
          else Normal ML_ERROR_INVALID_PARAMETER l
      | None => Normal ML_ERROR_INVALID_PARAMETER l
      end
  end.

Definition plain_layer_setProperty (values : list string) (l : list string)
  : outcome Z (list string) :=
  match mapM key_value values with
  | None => Normal ML_ERROR_INVALID_PARAMETER l
  | Some _ => plain_layer_loop values l
  end.

(** The number a word starts with, when it starts with a digit. *)
Definition digit (c : ascii) : option N :=
  let n := N_of_ascii c in
  if (48 <=? n) && (n <=? 57) then Some (n - 48) else None.

Fixpoint leading_digits (s : string) (acc : option N) : option N :=
  match s with
  | EmptyString => acc
  | String c rest =>
      match digit c with
      | Some d => leading_digits rest (Some (10 * default 0 acc + d))
      | None => acc
      end
  end.

(** The sizes of a shape string are set one after the other from the
    dimension [idx] on; a word that is no number and a zero size are
    failures that leave the dimensions set before them. *)
Fixpoint plain_set_dims (idx : nat) (ws : list string) (d : TensorDim.t)
  : outcome Z TensorDim.t :=
  match ws with
  | [] => Normal ML_ERROR_NONE d
  | w :: rest =>
      match leading_digits w None with
      | None => Thrown (invalid_argument "no number") d
      | Some v =>
          match TensorDim.set_dim idx (uint_wrap v) d with
          | Normal _ d' => plain_set_dims (S idx) rest d'
          | Thrown e d' => Thrown e d'
          | Undefined => Undefined
          end
      end
  end.

Definition is_dim_separator (c : ascii) : bool :=
  is_space c
  || Ascii.eqb c "."%char || Ascii.eqb c ","%char || Ascii.eqb c ":"%char
  || Ascii.eqb c ";"%char || Ascii.eqb c "!"%char || Ascii.eqb c "?"%char.

(** Modelled from the spec: [dim.setTensorDim(str)] of tensor_dim.h.  A
    shape string holds one to four sizes, for the last dimensions; any
    other number of sizes is reported by the status. *)
Definition plain_setTensorDim (value : string) (d : TensorDim.t)
  : outcome Z TensorDim.t :=
  let ws := words is_dim_separator value in
  if decide (length ws = 0 \/ 4 < length ws)%nat
  then Normal ML_ERROR_INVALID_PARAMETER d
  else plain_set_dims (4 - length ws) ws d.

(** Modelled from the spec: [split(value, reg)] of parse_util.  The parts
    of a string between runs of commas; the part after the last run is left
    out when it is empty. *)
Definition plain_split (s : string) : list string :=
  match fields (fun c => Ascii.eqb c ","%char) s with
  | [] => []
  | f :: fs => f :: omap nonempty fs
  end.

Definition plain_collaborators : LayerNode.Collaborators :=
  {| LayerNode.LayerV1 := list string;
     LayerNode.layer_setProperty := plain_layer_setProperty;
     LayerNode.layer_setNumInputs := fun _ l => l;
     LayerNode.layer_setNumOutputs := fun _ l => l;
     LayerNode.createTimeDistLayer := [];
     LayerNode.setDistLayer := fun l _ => l;
     LayerNode.getDistLayer := fun l => l;
     LayerNode.loadProperties := plain_loadProperties;
     LayerNode.getKeyValue := fun s =>
       match key_value s with
       | Some (k, v) => (ML_ERROR_NONE, k, v)
       | None => (ML_ERROR_INVALID_PARAMETER, "", "")
       end;
     LayerNode.parseLayerProperty := fun key =>
       if decide (key = "input_shape") then LayerNode.PropertyType.input_shape
       else if decide (key = "name") then LayerNode.PropertyType.name
       else if decide (key = "flatten") then LayerNode.PropertyType.flatten
       else if decide (key = "distribute") then LayerNode.PropertyType.distribute
       else if decide (key = "input_layers") then LayerNode.PropertyType.input_layers
       else if decide (key = "output_layers") then LayerNode.PropertyType.output_layers
       else LayerNode.PropertyType.unknown 0;
     LayerNode.setBoolean := fun val s =>
       if decide (s = "true") then (ML_ERROR_NONE, true)
       else if decide (s = "false") then (ML_ERROR_NONE, false)
       else (ML_ERROR_INVALID_PARAMETER, val);
     LayerNode.setTensorDim := plain_setTensorDim;
     LayerNode.split := plain_split;
     LayerNode.numInputs := fun _ layers _ => length layers |}.

(** A node as its constructor leaves it. *)
Definition fresh_node : @LayerNode.t plain_collaborators :=
  @LayerNode.Build plain_collaborators ([] : list string) 0 false false false
    (LayerNode.BuildProps None true) [] [] [].

(** An input layer as its constructor leaves it. *)
Definition fresh_input_layer : InputLayer.t :=
  InputLayer.Build false false true false [] [].

(** ** Notions for the in/outs of layers *)

(** The sum of the element counts of a list of shapes. *)
Definition dims_len (dims : list TensorDim.t) : N :=
  foldr (fun d acc => TensorDim.getDataLen d + acc) 0 dims.

(** The sum of the element counts of the trainable pairs of a layer. *)
Definition io_trainable_len (l_io : list Var_Grad.t) : N :=
  foldr (fun io acc =>
           (if Var_Grad.getTrainable io
            then TensorDim.getDataLen (Var_Grad.getDim io) else 0) + acc)
        0 l_io.

(** The pairs of a layer with the inputs [dims]: the pair of input [i] is
    named ["<layer_name>:InOut<i>"]. *)
Definition tracked_pairs (layer_name : string) (dims : list TensorDim.t)
    (trainable : bool) : list Var_Grad.t :=
  imap (fun i d =>
          Var_Grad.make d trainable
            ((layer_name +:+ ":InOut") +:+ pretty (N.of_nat i)))
       dims.

(** Tracking the in/outs of the layers in order, one [TrackLayerInOuts] call
    per layer (name, input shapes, trainable). *)
Definition track_all (layers : list (string * list TensorDim.t * bool))
    (m : Manager.t) : Manager.t :=
  foldl (fun m l => Manager.TrackLayerInOuts l.1.1 l.1.2 l.2 m) m layers.

(** The trainable element count [TrackLayerInOuts] sums for a layer. *)
Definition layer_len (l : string * list TensorDim.t * bool) : N :=
  if l.2 then dims_len l.1.2 else 0.

(** No tracked entry has a first pair with the name [var_name]. *)
Definition no_first_pair_named (var_name : string)
    (ios : list (list Var_Grad.t)) : Prop :=
  forall io vg rest, io ∈ ios -> io = vg :: rest -> Var_Grad.getName vg ≠ var_name.

(** Every tracked pair has the batch [ob]. *)
Definition uniform_batch (ob : N) (m : Manager.t) : Prop :=
  forall l_io io, l_io ∈ Manager.in_outs m -> io ∈ l_io ->
    TensorDim.batch (Var_Grad.getDim io) = ob.

(** The element count of one sample of a shape, and the sum of these over
    the trainable pairs of a layer. *)
Definition feature_len (d : TensorDim.t) : N :=
  TensorDim.channel d * TensorDim.height d * TensorDim.width d.

Definition io_trainable_feature_len (l_io : list Var_Grad.t) : N :=
  foldr (fun io acc =>
           (if Var_Grad.getTrainable io
            then feature_len (Var_Grad.getDim io) else 0) + acc)
        0 l_io.

(** ** The data buffer *)

(** The object a call leaves behind when it returns or throws. *)
Definition state_after {A S : Type} (o : outcome A S) : option S :=
  match o with
  | Normal _ s => Some s
  | Thrown _ s => Some s
  | Undefined => None
  end.

Module DataBuffer_v2.

Inductive DataBufferType : Type :=
| DATA_BUFFER_GENERATOR
| DATA_BUFFER_FILE
| DATA_BUFFER_UNKNOWN.

Inductive ThreadStates : Type :=
| THREAD_NULL
| THREAD_READY
| THREAD_RUNNING
| THREAD_REQUEST_TO_STOP
| THREAD_STOPPED
| THREAD_EPOCH_FINISHED
| THREAD_ERROR.

(** The scalar members of [DataBuffer_v2] and its two size vectors; the
    buffers, the generator callback, the thread and its locks are neither
    read nor written by the functions below. *)
Record t : Type := Build {
  type : DataBufferType;
  label_size : list N;
  input_size : list N;
  buffer_len : N;
  avail_buffer_idx : N;
  total_data_entries : N;
  batch_size : N;
  num_threads : N;
  thread_state : ThreadStates
}.

(** [DataBuffer_v2::DataBuffer_v2()] *)
Definition make : t :=
  Build DATA_BUFFER_UNKNOWN [0] [0] 1 0 0 1 1 THREAD_NULL.

Definition set_label_size (l : list N) (d : t) : t :=
  Build (type d) l (input_size d) (buffer_len d) (avail_buffer_idx d)
        (total_data_entries d) (batch_size d) (num_threads d) (thread_state d).
Definition set_input_size (l : list N) (d : t) : t :=
  Build (type d) (label_size d) l (buffer_len d) (avail_buffer_idx d)
        (total_data_entries d) (batch_size d) (num_threads d) (thread_state d).
Definition set_buffer_len (n : N) (d : t) : t :=
  Build (type d) (label_size d) (input_size d) n (avail_buffer_idx d)
        (total_data_entries d) (batch_size d) (num_threads d) (thread_state d).
Definition set_batch_size (n : N) (d : t) : t :=
  Build (type d) (label_size d) (input_size d) (buffer_len d)
        (avail_buffer_idx d) (total_data_entries d) n (num_threads d)
        (thread_state d).

(** [v.resize(n)] and [v.resize(n, 0)] on a [std::vector<size_t>]: the first
    [n] elements are kept and the vector is filled up with zeros. *)
Definition resize (n : nat) (v : list N) : list N :=
  take n v ++ replicate (n - length v) 0.

(** [v[idx] = bytes]; writing past the end is undefined behaviour. *)
Definition assign (idx : N) (bytes : N) (v : list N) : option (list N) :=
  if decide (N.to_nat idx < length v)%nat
  then Some (<[N.to_nat idx := bytes]> v)
  else None.

(** [setNumInputs(num_inputs)] *)
Definition setNumInputs (num_inputs : N) (d : t) : outcome unit t :=
  if num_inputs =? 0
  then Thrown (invalid_argument "Number of inputs must be at least 1") d
  else if negb (num_inputs =? N.of_nat (length (input_size d)))
       then Normal tt (set_input_size
                         (resize (N.to_nat num_inputs) (input_size d)) d)
       else Normal tt d.

(** [setNumLabels(num_labels)] *)
Definition setNumLabels (num_labels : N) (d : t) : outcome unit t :=
  if num_labels =? 0
  then Thrown (invalid_argument "Number of labels must be at least 1") d
  else if negb (num_labels =? N.of_nat (length (label_size d)))
       then Normal tt (set_label_size
                         (resize (N.to_nat num_labels) (label_size d)) d)
       else Normal tt d.

(** [setLabelSize(bytes, idx)] *)
Definition setLabelSize (bytes idx : N) (d : t) : outcome unit t :=
  if bytes =? 0
  then Thrown (invalid_argument "Label size should be more than 0") d
  else if N.of_nat (length (label_size d)) <=? idx
  then
    if 1 <? N.of_nat (length (label_size d))
    then Thrown (invalid_argument
                   "Index exceeds the total size set for the label") d
    else
      let resized := resize (N.to_nat (uint_wrap (idx + 1))) (label_size d) in
      match assign idx bytes resized with
      | Some v => Normal tt (set_label_size v d)
      | None => Undefined
      end
  else
    match assign idx bytes (label_size d) with
    | Some v => Normal tt (set_label_size v d)
    | None => Undefined
    end.

(** [setBufferSize(n)] *)
Definition setBufferSize (n : N) (d : t) : outcome unit t :=
  if n =? 0
  then Thrown (invalid_argument "Buffer size should be more than 0") d
  else Normal tt (set_buffer_len n d).

(** [setInputSize(bytes, idx)]; whether the vector of input sizes may grow
    is decided on [label_size.size()]. *)
Definition setInputSize (bytes idx : N) (d : t) : outcome unit t :=
  if bytes =? 0
  then Thrown (invalid_argument "Input size should be more than 0") d
  else if N.of_nat (length (input_size d)) <=? idx
  then
    if 1 <? N.of_nat (length (label_size d))
    then Thrown (invalid_argument
                   "Index exceeds the total size set for the input") d
    else
      let resized := resize (N.to_nat (uint_wrap (idx + 1))) (input_size d) in
      match assign idx bytes resized with
      | Some v => Normal tt (set_input_size v d)
      | None => Undefined
      end
  else
    match assign idx bytes (input_size d) with
    | Some v => Normal tt (set_input_size v d)
    | None => Undefined
    end.

(** [setBatchSize(n)] *)
Definition setBatchSize (n : N) (d : t) : outcome unit t :=
  if n =? 0
  then Thrown (invalid_argument "Batch size should be more than 0") d
  else Normal tt (set_batch_size n d).

(** [getTotalNumBatches()]; dividing by a zero batch size is undefined
    behaviour. *)
Definition getTotalNumBatches (d : t) : outcome N t :=
  match type d with
  | DATA_BUFFER_FILE =>
      if total_data_entries d =? 0
      then Thrown (runtime_error
                     "Total number of batches in dataset is available after init") d
      else if batch_size d =? 0 then Undefined
      else Normal (total_data_entries d / batch_size d) d
  | _ =>
      Thrown (runtime_error
                "Getting total number of batches in the dataset is only supported for file based dataset") d
  end.

(** The calls that configure a buffer. *)
Inductive call : Type :=
| SetNumInputs (num_inputs : N)
| SetNumLabels (num_labels : N)
| SetLabelSize (bytes idx : N)
| SetBufferSize (n : N)
| SetInputSize (bytes idx : N)
| SetBatchSize (n : N).

Definition run_call (c : call) (d : t) : outcome unit t :=
  match c with
  | SetNumInputs n => setNumInputs n d
  | SetNumLabels n => setNumLabels n d
  | SetLabelSize bytes idx => setLabelSize bytes idx d
  | SetBufferSize n => setBufferSize n d
  | SetInputSize bytes idx => setInputSize bytes idx d
  | SetBatchSize n => setBatchSize n d
  end.

(** A sequence of calls on one buffer, the caller going on after a call
    that throws; [None] when a call has undefined behaviour. *)
Fixpoint run_calls (cs : list call) (d : t) : option t :=
  match cs with
  | [] => Some d
  | c :: cs' =>
      match state_after (run_call c d) with
      | Some d' => run_calls cs' d'
      | None => None
      end
  end.

(** What the setters keep: a batch size and a buffer length of at least 1
    and at least one input and one label. *)
Definition configured (d : t) : Prop :=
  1 <= batch_size d /\ 1 <= buffer_len d
  /\ label_size d ≠ [] /\ input_size d ≠ [].

(** The index of a call is not the last [unsigned int]: [idx + 1] does not
    wrap around to 0. *)
Definition index_fits (c : call) : Prop :=
  match c with
  | SetLabelSize _ idx => idx + 1 < uint_modulus
  | SetInputSize _ idx => idx + 1 < uint_modulus
  | _ => True
  end.

(** The members that the data source and the initialisation set, which the
    setters above leave alone. *)
Definition with_source (ty : DataBufferType) (entries : N) (d : t) : t :=
  Build ty (label_size d) (input_size d) (buffer_len d) (avail_buffer_idx d)
        entries (batch_size d) (num_threads d) (thread_state d).

End DataBuffer_v2.

(** ** The time distributed layer *)

(** Modelled from the spec: [m.reshape(d)] of tensor.h fails when the
    element count changes and otherwise only replaces the shape. *)
Definition Tensor_reshape (d : TensorDim.t) (m : Tensor.t)
  : outcome unit Tensor.t :=
  if TensorDim.getDataLen d =? TensorDim.getDataLen (Tensor.dim m)
  then Normal tt (Tensor.Build d (Tensor.data m))
  else Thrown (invalid_argument "reshape changes the element count") m.

Module TimeDistLayer.

(** The static [reshape(m)] of time_dist.cpp:
    [m.reshape({d[2], d[1], d[0], d[3]})].  The shape is built from the
    four sizes first, which fails when one of them is zero. *)
Definition reshape (m : Tensor.t) : outcome unit Tensor.t :=
  let d := Tensor.dim m in
  match TensorDim.of_sizes (TensorDim.height d) (TensorDim.channel d)
          (TensorDim.batch d) (TensorDim.width d) with
  | Some d' => Tensor_reshape d' m
  | None => Thrown (invalid_argument "zero-sized dimension") m
  end.

(** [i * dim.batch() * dim.width()], computed in [unsigned int]. *)
Definition iter_offset (i : N) (dim : TensorDim.t) : N :=
  uint_wrap (uint_wrap (i * TensorDim.batch dim) * TensorDim.width dim).

(** [i_dim] and [h_dim] of [forwarding]: the shape with [channel(1)] and
    [height(1)]. *)
Definition forwarding_iter_dim (dim : TensorDim.t) : TensorDim.t :=
  TensorDim.Build (TensorDim.batch dim) 1 1 (TensorDim.width dim).

(** [in_iter] and [out_iter] of iteration [i] of the loop of
    [TimeDistLayer::forwarding]; [in_dim] and [ho_dim] are the shapes of
    the input and of the hidden tensor, [in_] and [out] the transposed
    input and the output buffer. *)
Definition forwarding_in_iter (in_ : Tensor.t) (in_dim : TensorDim.t) (i : N)
  : Tensor.t :=
  Tensor.getSharedDataTensor in_ (forwarding_iter_dim in_dim)
    (iter_offset i in_dim).

Definition forwarding_out_iter (out : Tensor.t) (ho_dim : TensorDim.t) (i : N)
  : Tensor.t :=
  Tensor.getSharedDataTensor out (forwarding_iter_dim ho_dim)
    (iter_offset i ho_dim).

(** The pairs of windows the loop of [forwarding] goes through:
    [i = 0 .. in_dim.height() - 1]. *)
Definition forwarding_iters (in_ out : Tensor.t) (in_dim ho_dim : TensorDim.t)
  : list (Tensor.t * Tensor.t) :=
  map (fun k => (forwarding_in_iter in_ in_dim (N.of_nat k),
                 forwarding_out_iter out ho_dim (N.of_nat k)))
      (seq 0 (N.to_nat (TensorDim.height in_dim))).

(** [r_dim], [d_dim] and [i_dim] of [calcDerivative] and [calcGradient]:
    [{dim[2], 1, 1, dim[3]}]. *)
Definition backward_iter_dim (dim : TensorDim.t) : TensorDim.t :=
  TensorDim.Build (TensorDim.height dim) 1 1 (TensorDim.width dim).

(** [ret_iter], [in_iter], [d_iter] and [hval_iter] of iteration [i] of the
    loops of [calcDerivative] and [calcGradient]: the window of the tensor
    [x], whose shape in the time-major layout is [dim]. *)
Definition backward_iter (x : Tensor.t) (dim : TensorDim.t) (i : N) : Tensor.t :=
  Tensor.getSharedDataTensor x (backward_iter_dim dim)
    (iter_offset i (backward_iter_dim dim)).

(** The windows the loop goes through: [i = 0 .. der_dim[0] - 1]. *)
Definition backward_iters (x : Tensor.t) (dim der_dim : TensorDim.t)
  : list Tensor.t :=
  map (fun k => backward_iter x dim (N.of_nat k))
      (seq 0 (N.to_nat (TensorDim.batch der_dim))).

End TimeDistLayer.

(** Two aliasing tensors of one buffer cover disjoint regions. *)
Definition tensors_disjoint (x y : Tensor.t) : Prop :=
  exists r1 r2,
    Tensor.region x = Some r1 /\ Tensor.region y = Some r2
    /\ regions_disjoint r1 r2.

(** ** Dynamic training optimization *)

Module DynamicTrainingOptimization.

Inductive reduce_operation : Type :=
| reduceByMax
| reduceByNorm.

Inductive ratio_operation : Type :=
| ratioUsingDerivative
| ratioUsingGradient.

Section Optimization.
(** The type of [float] values, which are only stored here. *)
Context {float : Type}.
(** The names of the operations and of the modes, which are defined outside
    dynamic_training_optimization.h. *)
Variables (dft_opt_max dft_opt_norm : string).
Variables (dft_opt_mode_gradient dft_opt_mode_derivative : string).

(** The members of the class but for the random number generator. *)
Record t : Type := Build {
  threshold : float;
  enabled : bool;
  epsilon : float;
  skip_n_iterations : Z;
  calc_ratio_mode : string;
  reduce_op : reduce_operation;
  calc_ratio_op : ratio_operation
}.

(** The constructor, given the [float] values of the threshold and of
    [1e-7]. *)
Definition make (threshold_ epsilon_ : float) (skip_n_iter : Z) : t :=
  Build threshold_ false epsilon_ skip_n_iter "" reduceByNorm
        ratioUsingDerivative.

Definition setThreshold (threshold_ : float) (d : t) : t :=
  Build threshold_ (enabled d) (epsilon d) (skip_n_iterations d)
        (calc_ratio_mode d) (reduce_op d) (calc_ratio_op d).

Definition getThreshold (d : t) : float := threshold d.

Definition set_enabled (b : bool) (d : t) : t :=
  Build (threshold d) b (epsilon d) (skip_n_iterations d)
        (calc_ratio_mode d) (reduce_op d) (calc_ratio_op d).

Definition set_reduce_op (op : reduce_operation) (d : t) : t :=
  Build (threshold d) (enabled d) (epsilon d) (skip_n_iterations d)
        (calc_ratio_mode d) op (calc_ratio_op d).

(** [setOp(op)] *)
Definition setOp (op : string) (d : t) : t :=
  if decide (op = dft_opt_max) then set_reduce_op reduceByMax d
  else if decide (op = dft_opt_norm) then set_reduce_op reduceByNorm d
  else set_enabled false d.

Definition enable (d : t) : t := set_enabled true d.

Definition disable (d : t) : t := set_enabled false d.

(** [setMode(mode_)] *)
Definition setMode (mode_ : string) (d : t) : t :=
  let d1 :=
    Build (threshold d) (enabled d) (epsilon d) (skip_n_iterations d)
          mode_ (reduce_op d) (calc_ratio_op d) in
  if decide (mode_ = dft_opt_mode_derivative)
  then Build (threshold d1) (enabled d1) (epsilon d1) (skip_n_iterations d1)
             (calc_ratio_mode d1) (reduce_op d1) ratioUsingDerivative
  else if decide (mode_ = dft_opt_mode_gradient)
  then Build (threshold d1) (enabled d1) (epsilon d1) (skip_n_iterations d1)
             (calc_ratio_mode d1) (reduce_op d1) ratioUsingGradient
  else set_enabled false d1.

Definition isDerivativeMode (d : t) : bool :=
  if enabled d && bool_decide (calc_ratio_mode d = dft_opt_mode_derivative)
  then true else false.

Definition isGradientMode (d : t) : bool :=
  if enabled d && bool_decide (calc_ratio_mode d = dft_opt_mode_gradient)
  then true else false.

Definition setSkipIterations (skip_n_iter : Z) (d : t) : t :=
  Build (threshold d) (enabled d) (epsilon d) skip_n_iter
        (calc_ratio_mode d) (reduce_op d) (calc_ratio_op d).

(** The calls that configure the optimization. *)
Inductive call : Type :=
| SetThreshold (threshold_ : float)
| SetOp (op : string)
| Enable
| Disable
| SetMode (mode_ : string)
| SetSkipIterations (skip_n_iter : Z).

Definition run_call (c : call) (d : t) : t :=
  match c with
  | SetThreshold f => setThreshold f d
  | SetOp op => setOp op d
  | Enable => enable d
  | Disable => disable d
  | SetMode m => setMode m d
  | SetSkipIterations k => setSkipIterations k d
  end.

Definition run_calls (cs : list call) (d : t) : t :=
  foldl (fun d c => run_call c d) d cs.

End Optimization.

Arguments t : clear implicits.
Arguments call : clear implicits.

End DynamicTrainingOptimization.

(** * Properties *)

(** ** Registration of weights *)

Lemma size_t_wrap_small x : fits_size_t x -> size_t_wrap x = x.
Proof. intros H. apply N.mod_small, H. Qed.

Lemma trackWeights_loop_spec st ws : forall lw acc,
  fits_size_t (acc + trainable_len st ws) ->
  Manager.trackWeights_loop st ws lw acc = (lw ++ ws, acc + trainable_len st ws).
Proof.
  unfold fits_size_t.
  induction ws as [|w ws IH]; intros lw acc Hfit; simpl in *.
  - by rewrite app_nil_r, N.add_0_r.
  - destruct (Weight.getTrainable (st w)).
    + rewrite size_t_wrap_small by (unfold fits_size_t; lia).
      rewrite IH by lia. f_equal; [by rewrite <- app_assoc | lia].
    + rewrite IH by lia. f_equal. by rewrite <- app_assoc.
Qed.

Lemma trackWeights_max_weight_size st ws m :
  fits_size_t (trainable_len st ws) ->
  Manager.max_weight_size (Manager.trackWeights st ws m)
  = N.max (Manager.max_weight_size m) (trainable_len st ws).
Proof.
  intros Hfit. unfold Manager.trackWeights.
  rewrite trackWeights_loop_spec by (by rewrite N.add_0_l).
  by rewrite N.add_0_l.
Qed.

Lemma trackWeights_flags st ws m :
  Manager.enable_gradient_memory_opt (Manager.trackWeights st ws m)
  = Manager.enable_gradient_memory_opt m.
Proof.
  unfold Manager.trackWeights.
  by destruct (Manager.trackWeights_loop st ws [] 0).
Qed.

Lemma register_all_max_weight_size st nodes : forall m,
  Forall (fun ws => fits_size_t (trainable_len st ws)) nodes ->
  Manager.max_weight_size (register_all st nodes m)
  = N.max (Manager.max_weight_size m) (N_list_max (map (trainable_len st) nodes)).
Proof.
  induction nodes as [|ws nodes IH]; intros m Hfit; simpl.
  - lia.
  - inversion Hfit as [|? ? Hws Hnodes]; subst.
    unfold register_all in *. simpl. rewrite IH by done.
    rewrite trackWeights_max_weight_size by done. lia.
Qed.

Lemma register_all_flags st nodes : forall m,
  Manager.enable_gradient_memory_opt (register_all st nodes m)
  = Manager.enable_gradient_memory_opt m.
Proof.
  induction nodes as [|ws nodes IH]; intros m; [done|].
  unfold register_all in *. simpl. by rewrite IH, trackWeights_flags.
Qed.

Lemma N_list_max_ge l x : x ∈ l -> x <= N_list_max l.
Proof.
  unfold N_list_max.
  induction 1 as [x l|x y l _ IH]; cbn [foldr]; lia.
Qed.

Lemma shared_grad_buffer_len m :
  Manager.enable_gradient_memory_opt m = true ->
  Tensor.buffer_len (Manager.shared_grad m) = Manager.max_weight_size m.
Proof.
  intros Hopt. unfold Manager.shared_grad. rewrite Hopt, andb_true_r.
  destruct (0 <? Manager.max_weight_size m) eqn:Hpos; simpl; [done|].
  apply N.ltb_ge in Hpos. change (Tensor.buffer_len Tensor.empty) with 0. lia.
Qed.

(** C1.  Starting from a fresh Manager and registering the weights of any
    sequence of nodes with [trackWeights] (each node's trainable total
    fitting a [size_t]), [max_weight_size] is the maximum over the nodes of
    the node's trainable element count, no node's total exceeds it, and
    the shared gradient buffer of [initialize] has exactly that many
    elements. *)
Theorem max_weight_size_is_true_maximum
    (st : WeightStore) (nodes : list (list WeightRef)) :
  Forall (fun ws => fits_size_t (trainable_len st ws)) nodes ->
  let m := register_all st nodes Manager.make in
  Manager.max_weight_size m = N_list_max (map (trainable_len st) nodes)
  /\ (forall ws, ws ∈ nodes -> trainable_len st ws <= Manager.max_weight_size m)
  /\ Tensor.buffer_len (Manager.shared_grad m)
     = N_list_max (map (trainable_len st) nodes).
Proof.
  intros Hfit m.
  assert (Hmax : Manager.max_weight_size m
                 = N_list_max (map (trainable_len st) nodes)).
  { subst m. rewrite register_all_max_weight_size by done. simpl. lia. }
  split; [done|]. split.
  - intros ws Hin. rewrite Hmax. apply N_list_max_ge.
    by apply list_elem_of_fmap_2.
  - rewrite shared_grad_buffer_len; [done|].
    subst m. by rewrite register_all_flags.
Qed.

(** Scenario A: sizes [100, 40, 250, 10] give [max_weight_size = 250] and a
    shared buffer of 250 elements. *)
Lemma scenarioA_max_weight_size :
  Manager.max_weight_size (register_all scenarioA_store scenarioA_nodes Manager.make) = 250
  /\ Tensor.buffer_len
       (Manager.shared_grad (register_all scenarioA_store scenarioA_nodes Manager.make))
     = 250.
Proof.
  assert (Hfit : Forall (fun ws => fits_size_t (trainable_len scenarioA_store ws))
                        scenarioA_nodes).
  { repeat constructor. }
  destruct (max_weight_size_is_true_maximum scenarioA_store scenarioA_nodes Hfit)
    as (Hmax & _ & Hbuf).
  split; [exact Hmax | exact Hbuf].
Defined.

(** C10.  The single-weight entry point [trackWeight] appends a one-weight
    node and leaves [max_weight_size], hence the shared gradient buffer of
    [initialize], as they were, whatever the weight; registering the same
    weight through [trackWeights] does update the running maximum. *)
Theorem trackWeight_keeps_max_weight_size
    (st : WeightStore) (w : WeightRef) (m : Manager.t) :
  Manager.weights (Manager.trackWeight w m) = Manager.weights m ++ [[w]]
  /\ Manager.max_weight_size (Manager.trackWeight w m) = Manager.max_weight_size m
  /\ Manager.shared_grad (Manager.trackWeight w m) = Manager.shared_grad m
  /\ Manager.max_weight_size (Manager.trackWeights st [w] m)
     = N.max (Manager.max_weight_size m)
         (if Weight.getTrainable (st w)
          then size_t_wrap (TensorDim.getDataLen (Weight.getDim (st w)))
          else 0).
Proof.
  split; [done|]. split; [done|]. split; [done|].
  unfold Manager.trackWeights. simpl.
  by destruct (Weight.getTrainable (st w)).
Qed.

(** A trainable weight of 250 elements registered with [trackWeight] alone:
    no shared buffer is allocated, yet [initialize] binds its gradient as
    an alias of 250 elements at offset 0. *)
Example trackWeight_unaccounted :
  let m := Manager.trackWeight 2%nat Manager.make in
  Manager.max_weight_size m = 0
  /\ Manager.shared_grad m = Tensor.empty
  /\ Tensor.region (Weight.grad (Manager.initialize m scenarioA_store 2%nat))
     = Some (0, 250).
Proof. by vm_compute. Qed.

(** ** Reset *)

(** C6.  [reset()] clears the tracked weights and in/outs and zeroes
    [max_weight_size], and leaves [max_derivative_size] as it was: after a
    layer with a trainable input of 32 elements was tracked it is still 32
    after the reset. *)
Theorem reset_keeps_max_derivative_size :
  (forall m : Manager.t,
      Manager.weights (Manager.reset m) = []
      /\ Manager.in_outs (Manager.reset m) = []
      /\ Manager.max_weight_size (Manager.reset m) = 0
      /\ Manager.max_derivative_size (Manager.reset m)
         = Manager.max_derivative_size m)
  /\ Manager.max_derivative_size (Manager.reset one_layer_manager) = 32.
Proof. split; [by intros m|by vm_compute]. Qed.

(** ** Untracking *)

Lemma string_app_assoc (s1 s2 s3 : string) :
  s1 +:+ (s2 +:+ s3) = (s1 +:+ s2) +:+ s3.
Proof.
  induction s1 as [|a s1 IH]; [reflexivity|].
  change (String a (s1 +:+ (s2 +:+ s3)) = String a ((s1 +:+ s2) +:+ s3)).
  by rewrite IH.
Qed.

Lemma untrackLayerInOuts_loop_no_match var_name ios :
  (forall io vg rest, io ∈ ios -> io = vg :: rest -> Var_Grad.getName vg ≠ var_name) ->
  forall fuel cnt, Manager.untrackLayerInOuts_loop var_name ios cnt fuel = ios.
Proof.
  intros Hno. induction fuel as [|fuel IH]; intros cnt; simpl; [done|].
  destruct (ios !! cnt) as [[|vg0 rest]|] eqn:Hlk; [done| |done].
  destruct (decide (Var_Grad.getName vg0 = var_name)) as [Heq|Hne]; [|done].
  exfalso. eapply Hno; [|reflexivity|exact Heq].
  by eapply list_elem_of_lookup_2.
Qed.

(** The first pair that [TrackLayerInOuts] creates for a layer is named
    ["<name>:InOut0"]. *)
Lemma TrackLayerInOuts_first_name layer_name d ds trainable m :
  exists rest,
    Manager.in_outs (Manager.TrackLayerInOuts layer_name (d :: ds) trainable m)
    = Manager.in_outs m
      ++ [Var_Grad.make d trainable (layer_name +:+ ":InOut0") :: rest].
Proof.
  unfold Manager.TrackLayerInOuts. simpl.
  assert (Hloop : forall ds cnt acc sz,
             exists rest',
               (Manager.TrackLayerInOuts_loop (layer_name +:+ ":InOut")
                  trainable ds cnt acc sz).1 = acc ++ rest').
  { clear. induction ds as [|d' ds IH]; intros cnt acc sz; simpl.
    - exists []. by rewrite app_nil_r.
    - edestruct IH as [rest' ->]. eexists. by rewrite <- app_assoc. }
  match goal with
  | |- context [Manager.TrackLayerInOuts_loop ?b ?t ?l ?c ?a ?s] =>
      destruct (Hloop l c a s) as [rest Hrest];
      destruct (Manager.TrackLayerInOuts_loop b t l c a s) as [io sz]
  end.
  simpl in Hrest. subst io. exists rest. simpl. do 3 f_equal.
  unfold Var_Grad.make. f_equal.
  symmetry. exact (string_app_assoc layer_name ":InOut" "0").
Qed.

(** C7.  When no tracked entry has a first pair named ["<name>:InOut0"],
    [untrackLayerInOuts(name)] returns normally and leaves the Manager as
    it was. *)
Theorem untrackLayerInOuts_never_tracked (layer_name : string) (m : Manager.t) :
  (forall io vg rest,
      io ∈ Manager.in_outs m -> io = vg :: rest ->
      Var_Grad.getName vg ≠ layer_name +:+ ":InOut0") ->
  Manager.untrackLayerInOuts layer_name m = m.
Proof.
  intros Hno. unfold Manager.untrackLayerInOuts.
  rewrite untrackLayerInOuts_loop_no_match; [by destruct m|].
  intros io vg rest Hin Hio Hname. eapply Hno; [exact Hin|exact Hio|].
  rewrite Hname. symmetry. exact (string_app_assoc layer_name ":InOut" "0").
Qed.

Lemma untrackLayerInOuts_never_tracked_witness :
  Manager.untrackLayerInOuts "conv" one_layer_manager = one_layer_manager.
Proof.
  apply untrackLayerInOuts_never_tracked.
  intros io vg rest Hin Hio.
  apply list_elem_of_singleton in Hin. subst io.
  injection Hio as <- _. by vm_compute.
Defined.

(** A tracked layer is removed by its name. *)
Example untrackLayerInOuts_tracked :
  Manager.in_outs (Manager.untrackLayerInOuts "fc" one_layer_manager) = [].
Proof. by vm_compute. Qed.

(** ** Allocation of the gradients *)

Lemma trainable_len_app st l1 l2 :
  trainable_len st (l1 ++ l2) = trainable_len st l1 + trainable_len st l2.
Proof.
  unfold trainable_len. induction l1 as [|w l1 IH]; simpl; [done|].
  rewrite IH. lia.
Qed.

Lemma trainable_len_singleton st w :
  trainable_len st [w]
  = if Weight.getTrainable (st w)
    then TensorDim.getDataLen (Weight.getDim (st w)) else 0.
Proof. unfold trainable_len. simpl. lia. Qed.

Lemma trainable_len_take_le st l i :
  trainable_len st (take i l) <= trainable_len st l.
Proof.
  rewrite <- (take_drop i l) at 2. rewrite trainable_len_app. lia.
Qed.

Lemma same_shapes_trainable_len st1 st2 l :
  same_shapes st1 st2 -> trainable_len st1 l = trainable_len st2 l.
Proof.
  intros Hs. unfold trainable_len.
  induction l as [|w l IH]; simpl; [done|].
  destruct (Hs w) as [-> ->]. by rewrite IH.
Qed.

Lemma same_shapes_store_set st w x :
  Weight.getDim x = Weight.getDim (st w) ->
  Weight.getTrainable x = Weight.getTrainable (st w) ->
  same_shapes (store_set w x st) st.
Proof.
  intros Hd Ht w'. unfold store_set. by destruct (decide (w' = w)) as [->|].
Qed.

Lemma same_shapes_trans st1 st2 st3 :
  same_shapes st1 st2 -> same_shapes st2 st3 -> same_shapes st1 st3.
Proof.
  intros H12 H23 w. destruct (H12 w) as [-> ->]. apply H23.
Qed.

Lemma initialize_layer_same_shapes opt sh l_w : forall off st,
  same_shapes (Manager.initialize_layer opt sh l_w off st) st.
Proof.
  induction l_w as [|w l_w IH]; intros off st; simpl; [by intros w|].
  destruct (Weight.getTrainable (st w) && opt);
    (eapply same_shapes_trans; [apply IH|by apply same_shapes_store_set]).
Qed.

Lemma initialize_layer_frame opt sh l_w : forall off st w,
  w ∉ l_w -> Manager.initialize_layer opt sh l_w off st w = st w.
Proof.
  induction l_w as [|w0 l_w IH]; intros off st w Hw; simpl; [done|].
  apply not_elem_of_cons in Hw as [Hne Hw].
  destruct (Weight.getTrainable (st w0) && opt); rewrite IH by done;
    unfold store_set; by destruct (decide (w = w0)).
Qed.

Lemma initialize_layer_bound sh l_w : forall off st i w,
  NoDup l_w ->
  l_w !! i = Some w ->
  Weight.getTrainable (st w) = true ->
  fits_size_t (off + trainable_len st (take i l_w)) ->
  Weight.grad (Manager.initialize_layer true sh l_w off st w)
  = Tensor.getSharedDataTensor sh (Weight.getDim (st w))
      (off + trainable_len st (take i l_w)).
Proof.
  induction l_w as [|w0 l_w IH]; intros off st i w Hnd Hi Htr Hfit; [done|].
  apply NoDup_cons in Hnd as [Hw0 Hnd].
  destruct i as [|i]; simpl in Hi.
  - injection Hi as ->. simpl. rewrite Htr. simpl.
    rewrite initialize_layer_frame by done.
    unfold store_set. rewrite decide_True by done.
    unfold Weight.initialize. simpl. unfold Weight.getTrainable in Htr.
    rewrite Htr. f_equal. unfold trainable_len. simpl. lia.
  - assert (Hne : w ≠ w0).
    { intros ->. apply Hw0. by eapply list_elem_of_lookup_2. }
    cbn [take] in Hfit |- *.
    change (w0 :: take i l_w) with ([w0] ++ take i l_w) in Hfit |- *.
    rewrite trainable_len_app in Hfit |- *.
    unfold fits_size_t in Hfit.
    cbn [Manager.initialize_layer].
    rewrite trainable_len_singleton in Hfit |- *.
    destruct (Weight.getTrainable (st w0)) eqn:Htr0; simpl;
      change (Weight.dim (st w0)) with (Weight.getDim (st w0)).
    + set (st1 := store_set w0 _ st).
      assert (Hs : same_shapes st1 st) by (by apply same_shapes_store_set).
      rewrite size_t_wrap_small by (unfold fits_size_t; lia).
      rewrite (IH _ st1 i w Hnd Hi).
      * destruct (Hs w) as [-> _].
        rewrite (same_shapes_trainable_len st1 st) by done.
        f_equal. lia.
      * destruct (Hs w) as [_ ->]. done.
      * rewrite (same_shapes_trainable_len st1 st) by done.
        unfold fits_size_t. lia.
    + set (st1 := store_set w0 _ st).
      assert (Hs : same_shapes st1 st) by (by apply same_shapes_store_set).
      rewrite (IH _ st1 i w Hnd Hi).
      * destruct (Hs w) as [-> _].
        rewrite (same_shapes_trainable_len st1 st) by done.
        f_equal.
      * destruct (Hs w) as [_ ->]. done.
      * rewrite (same_shapes_trainable_len st1 st) by done.
        unfold fits_size_t. lia.
Qed.

Lemma initialize_loop_same_shapes opt sh ws : forall st,
  same_shapes (Manager.initialize_loop opt sh ws st) st.
Proof.
  induction ws as [|l_w ws IH]; intros st; simpl; [by intros w|].
  eapply same_shapes_trans; [apply IH|apply initialize_layer_same_shapes].
Qed.

Lemma initialize_loop_frame opt sh ws : forall st w,
  w ∉ concat ws -> Manager.initialize_loop opt sh ws st w = st w.
Proof.
  induction ws as [|l_w ws IH]; intros st w Hw; simpl in *; [done|].
  apply not_elem_of_app in Hw as [Hl Hws].
  rewrite IH by done. by apply initialize_layer_frame.
Qed.

Lemma initialize_loop_bound sh ws : forall st k l_w i w,
  NoDup (concat ws) ->
  ws !! k = Some l_w ->
  l_w !! i = Some w ->
  Weight.getTrainable (st w) = true ->
  fits_size_t (trainable_len st (take i l_w)) ->
  Weight.grad (Manager.initialize_loop true sh ws st w)
  = Tensor.getSharedDataTensor sh (Weight.getDim (st w))
      (trainable_len st (take i l_w)).
Proof.
  induction ws as [|l0 ws IH]; intros st k l_w i w Hnd Hk Hi Htr Hfit; [done|].
  simpl in Hnd. apply NoDup_app in Hnd as (Hnd0 & Hsep & Hnd).
  destruct k as [|k]; simpl in Hk |- *.
  - injection Hk as ->.
    assert (Hin : w ∈ l_w) by (by eapply list_elem_of_lookup_2).
    rewrite initialize_loop_frame by (by apply Hsep).
    rewrite (initialize_layer_bound sh l_w 0 st i w) by
      (try done; by rewrite N.add_0_l).
    by rewrite N.add_0_l.
  - set (st1 := Manager.initialize_layer true sh l0 0 st).
    assert (Hs : same_shapes st1 st) by apply initialize_layer_same_shapes.
    rewrite (IH st1 k l_w i w Hnd Hk Hi).
    + destruct (Hs w) as [-> _].
      by rewrite (same_shapes_trainable_len st1 st).
    + destruct (Hs w) as [_ ->]. done.
    + by rewrite (same_shapes_trainable_len st1 st).
Qed.

Lemma trainable_len_prefix st l i j w :
  (i < j)%nat -> l !! i = Some w ->
  trainable_len st (take i l)
  + (if Weight.getTrainable (st w)
     then TensorDim.getDataLen (Weight.getDim (st w)) else 0)
  <= trainable_len st (take j l).
Proof.
  intros Hij Hi.
  assert (Hsplit : take j l = take (S i) l ++ drop (S i) (take j l)).
  { rewrite <- (take_drop (S i) (take j l)) at 1.
    f_equal. rewrite take_take. f_equal. lia. }
  rewrite Hsplit, trainable_len_app.
  rewrite (take_S_r l i w Hi), trainable_len_app.
  rewrite trainable_len_singleton. lia.
Qed.

(** C2.  With gradient memory optimization enabled and every weight
    registered once, after [initialize()] the gradient of the trainable
    weight at position [i] of a node aliases the shared buffer at the sum
    of the element counts of the trainable weights before it in that node
    (zero for the first one: the offset restarts for each node); the
    regions of two distinct trainable weights of one node are disjoint; and
    the first weights of two different nodes, both trainable and not empty,
    alias regions that share element 0. *)
Theorem initialize_gradient_regions
    (m : Manager.t) (st : WeightStore) (k : nat) (l_w : list WeightRef) :
  Manager.enable_gradient_memory_opt m = true ->
  NoDup (concat (Manager.weights m)) ->
  Manager.weights m !! k = Some l_w ->
  fits_size_t (trainable_len st l_w) ->
  let st' := Manager.initialize m st in
  (forall i w,
      l_w !! i = Some w -> Weight.getTrainable (st w) = true ->
      Weight.grad (st' w)
      = Tensor.getSharedDataTensor (Manager.shared_grad m)
          (Weight.getDim (st w)) (trainable_len st (take i l_w)))
  /\ (forall i j w1 w2,
         i ≠ j -> l_w !! i = Some w1 -> l_w !! j = Some w2 ->
         Weight.getTrainable (st w1) = true ->
         Weight.getTrainable (st w2) = true ->
         exists r1 r2,
           grad_region st' w1 = Some r1 /\ grad_region st' w2 = Some r2
           /\ regions_disjoint r1 r2)
  /\ (forall k' l' w w',
         k' ≠ k -> Manager.weights m !! k' = Some l' ->
         l_w !! 0%nat = Some w -> l' !! 0%nat = Some w' ->
         Weight.getTrainable (st w) = true ->
         Weight.getTrainable (st w') = true ->
         0 < TensorDim.getDataLen (Weight.getDim (st w)) ->
         0 < TensorDim.getDataLen (Weight.getDim (st w')) ->
         exists r1 r2,
           grad_region st' w = Some r1 /\ grad_region st' w' = Some r2
           /\ regions_share 0 r1 r2).
Proof.
  intros Hopt Hnd Hk Hfit st'.
  assert (Hbound : forall k0 l0 i w,
             Manager.weights m !! k0 = Some l0 ->
             fits_size_t (trainable_len st (take i l0)) ->
             l0 !! i = Some w -> Weight.getTrainable (st w) = true ->
             Weight.grad (st' w)
             = Tensor.getSharedDataTensor (Manager.shared_grad m)
                 (Weight.getDim (st w)) (trainable_len st (take i l0))).
  { intros k0 l0 i w Hk0 Hf Hi Htr. subst st'. unfold Manager.initialize.
    rewrite Hopt. by eapply initialize_loop_bound. }
  assert (Hpre : forall i, fits_size_t (trainable_len st (take i l_w))).
  { intros i. unfold fits_size_t in *.
    pose proof (trainable_len_take_le st l_w i). lia. }
  split; [|split].
  - intros i w Hi Htr. by eapply Hbound.
  - assert (Hlt : forall i j w1 w2,
               (i < j)%nat -> l_w !! i = Some w1 -> l_w !! j = Some w2 ->
               Weight.getTrainable (st w1) = true ->
               Weight.getTrainable (st w2) = true ->
               exists r1 r2,
                 grad_region st' w1 = Some r1 /\ grad_region st' w2 = Some r2
                 /\ r1.1 + r1.2 <= r2.1).
    { intros i j w1 w2 Hij Hi Hj Htr1 Htr2. unfold grad_region.
      rewrite (Hbound k l_w i w1), (Hbound k l_w j w2) by done.
      do 2 eexists. split; [reflexivity|]. split; [reflexivity|]. simpl.
      pose proof (trainable_len_prefix st l_w i j w1 Hij Hi) as Hle.
      by rewrite Htr1 in Hle. }
    intros i j w1 w2 Hij Hi Hj Htr1 Htr2.
    destruct (decide (i < j)%nat) as [Hlt'|Hge].
    + destruct (Hlt i j w1 w2) as (r1 & r2 & H1 & H2 & Hle); try done.
      exists r1, r2. split; [done|]. split; [done|]. by left.
    + destruct (Hlt j i w2 w1) as (r2 & r1 & H2 & H1 & Hle); try done; [lia|].
      exists r1, r2. split; [done|]. split; [done|]. by right.
  - intros k' l' w w' Hkk Hk' Hw Hw' Htr Htr' Hpos Hpos'. unfold grad_region.
    rewrite (Hbound k l_w 0%nat w), (Hbound k' l' 0%nat w') by
      (try done; unfold fits_size_t, size_t_modulus; simpl; lia).
    do 2 eexists. split; [reflexivity|]. split; [reflexivity|].
    unfold regions_share, trainable_len. simpl. lia.
Qed.

Lemma initialize_gradient_regions_witness :
  Weight.grad (Manager.initialize two_node_weights scenarioA_store 1%nat)
  = Tensor.getSharedDataTensor (Manager.shared_grad two_node_weights)
      (TensorDim.Build 1 1 1 40) 100
  /\ (exists r1 r2,
         grad_region (Manager.initialize two_node_weights scenarioA_store) 0%nat
         = Some r1
         /\ grad_region (Manager.initialize two_node_weights scenarioA_store) 1%nat
            = Some r2
         /\ regions_disjoint r1 r2)
  /\ (exists r1 r2,
         grad_region (Manager.initialize two_node_weights scenarioA_store) 0%nat
         = Some r1
         /\ grad_region (Manager.initialize two_node_weights scenarioA_store) 2%nat
            = Some r2
         /\ regions_share 0 r1 r2).
Proof.
  assert (Hopt : Manager.enable_gradient_memory_opt two_node_weights = true)
    by reflexivity.
  assert (Hnd : NoDup (concat (Manager.weights two_node_weights))).
  { apply (bool_decide_unpack _). by vm_compute. }
  assert (Hk : Manager.weights two_node_weights !! 0%nat = Some [0%nat; 1%nat])
    by reflexivity.
  assert (Hfit : fits_size_t (trainable_len scenarioA_store [0%nat; 1%nat]))
    by reflexivity.
  destruct (initialize_gradient_regions two_node_weights scenarioA_store
              0%nat [0%nat; 1%nat] Hopt Hnd Hk Hfit) as (Hb & Hd & Hs).
  split; [|split].
  - exact (Hb 1%nat 1%nat eq_refl eq_refl).
  - apply (Hd 0%nat 1%nat 0%nat 1%nat); [lia|reflexivity..].
  - apply (Hs 1%nat [2%nat; 3%nat] 0%nat 2%nat); [lia|reflexivity..].
Defined.

(** ** Allocation of the derivatives *)

(** With derivative sharing enabled, the first pair of every layer, when
    trainable, is bound at offset 0 of the shared buffer. *)
Lemma initializeInOuts_first_offset m trainable io rest :
  Manager.enable_derivative_memory_opt m = true ->
  Var_Grad.getTrainable io = true ->
  exists rest',
    Manager.initializeInOuts_layer true (Manager.shared_deriv m) trainable
      (io :: rest) 0
    = Var_Grad.initialize
        (Tensor.getSharedDataTensor (Manager.shared_deriv m)
           (Var_Grad.getDim io) 0)
        trainable io :: rest'.
Proof. intros _ Htr. simpl. rewrite Htr. simpl. by eexists. Qed.

(** C3.  Scenario B: after [initializeInOuts(true)] the shared derivative
    buffer has max(32, 32) = 32 elements, and the derivative of each of the
    two nodes is a valid alias of that buffer covering its 32 elements from
    offset 0. *)
Theorem scenarioB_derivatives_alias_one_arena :
  Manager.max_derivative_size scenarioB = N.max 32 32
  /\ Manager.shared_deriv scenarioB = Tensor.of_len 32
  /\ Tensor.buffer_len (Manager.shared_deriv scenarioB) = 32
  /\ exists vg1 vg2,
       Manager.in_outs scenarioB_initialized = [[vg1]; [vg2]]
       /\ Var_Grad.grad vg1
          = Tensor.getSharedDataTensor (Manager.shared_deriv scenarioB)
              scenarioB_dim 0
       /\ Var_Grad.grad vg2
          = Tensor.getSharedDataTensor (Manager.shared_deriv scenarioB)
              scenarioB_dim 0
       /\ Tensor.valid_alias (Var_Grad.grad vg1)
       /\ Tensor.valid_alias (Var_Grad.grad vg2)
       /\ Tensor.region (Var_Grad.grad vg1) = Some (0, 32)
       /\ Tensor.region (Var_Grad.grad vg2) = Some (0, 32).
Proof.
  split; [reflexivity|]. split; [reflexivity|]. split; [reflexivity|].
  do 2 eexists. split; [by vm_compute|].
  split; [reflexivity|]. split; [reflexivity|].
  split; [by vm_compute|]. split; [by vm_compute|].
  split; reflexivity.
Qed.

(** ** Batch size *)

Lemma Tensor_setBatchSize_pos b x :
  b ≠ 0 -> Tensor.setBatchSize b x = Normal tt (tensor_with_batch b x).
Proof.
  intros Hb. unfold Tensor.setBatchSize, TensorDim.set_batch.
  apply N.eqb_neq in Hb. by rewrite Hb.
Qed.

Lemma Var_Grad_setBatchSize_pos b vg :
  b ≠ 0 -> Var_Grad.setBatchSize b vg = Normal tt (with_batch b vg).
Proof.
  intros Hb. unfold Var_Grad.setBatchSize.
  by rewrite !Tensor_setBatchSize_pos.
Qed.

Lemma Var_Grad_setBatchSize_zero vg :
  Var_Grad.setBatchSize 0 vg
  = Thrown (invalid_argument "zero-sized dimension") vg.
Proof. reflexivity. Qed.

Lemma with_batch_idemp b vg : with_batch b (with_batch b vg) = with_batch b vg.
Proof. reflexivity. Qed.

Lemma for_each_normal {A} (f : A -> outcome unit A) (g : A -> A) l :
  (forall x, f x = Normal tt (g x)) -> for_each f l = Normal tt (map g l).
Proof.
  intros Hf. induction l as [|x l IH]; simpl; [done|].
  by rewrite Hf, IH.
Qed.

(** When the call on every element throws and leaves the element as it
    was, the nested loop either finds no element at all or throws at the
    first one, and nothing has changed. *)
Lemma for_each_nested_thrown {A} (f : A -> outcome unit A) e (ll : list (list A)) :
  (forall x, f x = Thrown e x) ->
  (for_each (for_each f) ll = Normal tt ll /\ Forall (fun l => l = []) ll)
  \/ for_each (for_each f) ll = Thrown e ll.
Proof.
  intros Hf. induction ll as [|l ll IH]; simpl; [by left|].
  destruct l as [|x l]; simpl.
  - destruct IH as [[-> Hall]| ->]; [left|right]; by repeat constructor.
  - right. by rewrite Hf.
Qed.

Lemma setBatchSize_pos b m mds :
  b ≠ 0 ->
  Manager.setBatchSize_rescale b m = Some mds ->
  Manager.setBatchSize b m
  = Normal tt
      (Manager.Build (Manager.weights m)
         (map (map (with_batch b)) (Manager.in_outs m))
         (Manager.max_weight_size m) mds
         (Manager.enable_gradient_memory_opt m)
         (Manager.enable_derivative_memory_opt m)).
Proof.
  intros Hb Hres. unfold Manager.setBatchSize. rewrite Hres.
  rewrite (for_each_normal _ (map (with_batch b))); [done|].
  intros l. apply for_each_normal. intros vg.
  by apply Var_Grad_setBatchSize_pos.
Qed.




(** A batch of 0: the rescaling is done, then the first pair refuses the
    zero-sized dimension and the shapes stay as they were. *)
Example setBatchSize_zero_scenarioB :
  exists e m',
    Manager.setBatchSize 0 scenarioB_initialized = Thrown e m'
    /\ Manager.max_derivative_size m' = 0
    /\ Manager.in_outs m' = Manager.in_outs scenarioB_initialized.
Proof. do 2 eexists. split; [by vm_compute|]. split; reflexivity. Qed.

(** C5.  For every batch size and every Manager, two calls of
    [setBatchSize(b)] in succession end as one call does (returning, or
    failing the same way) with the same shapes of every tracked variable
    and gradient tensor. *)
Theorem setBatchSize_twice_same_shapes (b : N) (m : Manager.t) :
  outcome_map Manager.shapes
    (and_then (Manager.setBatchSize b m) (Manager.setBatchSize b))
  = outcome_map Manager.shapes (Manager.setBatchSize b m).
Proof.
  destruct (Manager.setBatchSize_rescale b m) as [mds|] eqn:Hres;
    [|by unfold Manager.setBatchSize; rewrite Hres].
  destruct (decide (b = 0)) as [->|Hb].
  - unfold Manager.setBatchSize at 1 3. rewrite Hres.
    destruct (for_each_nested_thrown (Var_Grad.setBatchSize 0) _
                (Manager.in_outs m) Var_Grad_setBatchSize_zero)
      as [[Hrun Hall]|Hrun]; rewrite Hrun; simpl; [|done].
    unfold Manager.setBatchSize, Manager.setBatchSize_rescale. simpl.
    rewrite Hrun.
    by destruct Hall as [|? ? ->].
  - rewrite (setBatchSize_pos b m mds Hb Hres). simpl.
    set (m1 := Manager.Build _ _ _ _ _ _).
    assert (Hres1 : exists mds1, Manager.setBatchSize_rescale b m1 = Some mds1).
    { unfold Manager.setBatchSize_rescale. subst m1. simpl.
      destruct (Manager.in_outs m) as [|[|vg rest0] rest]; simpl; eauto.
      apply N.eqb_neq in Hb. rewrite Hb. eauto. }
    destruct Hres1 as [mds1 Hres1].
    rewrite (setBatchSize_pos b m1 mds1 Hb Hres1). simpl.
    unfold Manager.shapes. simpl. f_equal.
    rewrite <- !list_fmap_compose. apply list_fmap_ext.
    intros _ l _. simpl.
    rewrite <- !list_fmap_compose. by apply list_fmap_ext.
Qed.

(** ** Properties of a layer node *)

Section SetProperty.
Context `{C : LayerNode.Collaborators}.

Lemma setProperty_iteration_return property remainder (n : LayerNode.t) status n' :
  LayerNode.setProperty_iteration property remainder n = LayerNode.Return status n' ->
  status ≠ ML_ERROR_NONE /\ n' = n.
Proof.
  unfold LayerNode.setProperty_iteration.
  destruct (LayerNode.getKeyValue property) as [[st key] value].
  destruct (decide (st = ML_ERROR_NONE)) as [->|Hst].
  - destruct (decide (value = "")) as [->|Hv].
    + intros [= <- <-]. by split.
    + by destruct (LayerNode.setProperty_typed _ _ _).
  - intros [= <- <-]. by split.
Qed.

Lemma setProperty_loop_applied pre : forall remainder (n : LayerNode.t) n' remainder' rest,
  LayerNode.applied pre remainder n = Some (n', remainder') ->
  LayerNode.setProperty_loop (pre ++ rest) remainder n
  = LayerNode.setProperty_loop rest remainder' n'.
Proof.
  induction pre as [|p pre IH]; intros remainder n n' remainder' rest Happ;
    simpl in *.
  - by injection Happ as <- <-.
  - destruct (LayerNode.setProperty_iteration p remainder n); [|done..].
    by apply IH.
Qed.

Lemma setProperty_iteration_continue property remainder (n : LayerNode.t)
    n' remainder' :
  LayerNode.setProperty_iteration property remainder n
  = LayerNode.Continue n' remainder' ->
  remainder' = remainder \/ remainder' = remainder ++ [property].
Proof.
  unfold LayerNode.setProperty_iteration.
  destruct (LayerNode.getKeyValue property) as [[st key] value].
  destruct (decide (st = ML_ERROR_NONE)); [|done].
  destruct (decide (value = "")); [done|].
  destruct (LayerNode.setProperty_typed _ _ _); intros [= <- <-]; auto.
Qed.

Lemma applied_remainder properties :
  forall remainder (n : LayerNode.t) n' remainder',
  LayerNode.applied properties remainder n = Some (n', remainder') ->
  exists forwarded,
    remainder' = remainder ++ forwarded /\ forwarded `sublist_of` properties.
Proof.
  induction properties as [|p properties IH];
    intros remainder n n' remainder' Happ; simpl in Happ.
  - injection Happ as <- <-. exists []. by rewrite app_nil_r.
  - destruct (LayerNode.setProperty_iteration p remainder n)
      as [n1 r1| |] eqn:Hit; [|done..].
    destruct (IH _ _ _ _ Happ) as (fwd & -> & Hsub).
    destruct (setProperty_iteration_continue _ _ _ _ _ Hit) as [->| ->].
    + exists fwd. split; [done|]. by apply sublist_cons.
    + exists (p :: fwd). split; [by rewrite <- app_assoc|].
      by apply sublist_skip.
Qed.

(** A failed run of the loop: either an iteration returned a status, after
    the properties before it were gone through, or all the properties were
    gone through and the call of the layer failed. *)
Lemma setProperty_loop_failed properties :
  forall remainder (n : LayerNode.t),
  failed (LayerNode.setProperty_loop properties remainder n) ->
  (exists pre bad post n' remainder' status,
     properties = pre ++ bad :: post
     /\ LayerNode.applied pre remainder n = Some (n', remainder')
     /\ LayerNode.setProperty_iteration bad remainder' n'
        = LayerNode.Return status n'
     /\ status ≠ ML_ERROR_NONE
     /\ LayerNode.setProperty_loop properties remainder n = Normal status n')
  \/ (exists n' remainder',
        LayerNode.applied properties remainder n = Some (n', remainder')
        /\ failed (LayerNode.layer_setProperty remainder'
                     (LayerNode.getLayer n'))
        /\ LayerNode.setProperty_loop properties remainder n
           = match LayerNode.layer_setProperty remainder'
                     (LayerNode.getLayer n') with
             | Normal status l => Normal status (LayerNode.set_getLayer l n')
             | Thrown e l => Thrown e (LayerNode.set_getLayer l n')
             | Undefined => Undefined
             end).
Proof.
  induction properties as [|property rest IH]; intros remainder n Hfail.
  - right. exists n, remainder. split; [done|]. split; [|done].
    simpl in Hfail.
    by destruct (LayerNode.layer_setProperty remainder (LayerNode.getLayer n)).
  - simpl in Hfail. simpl.
    destruct (LayerNode.setProperty_iteration property remainder n)
      as [n1 r1|status n1|] eqn:Hit; [| |done].
    + destruct (IH r1 n1 Hfail)
        as [(pre & bad & post & n' & r' & status & -> & Happ & Hbad & Hst & Hrun)
           |(n' & r' & Happ & Hlayer & Hrun)].
      * left. exists (property :: pre), bad, post, n', r', status.
        split; [done|]. split; [by simpl; rewrite Hit|]. done.
      * right. by exists n', r'.
    + destruct (setProperty_iteration_return _ _ _ _ _ Hit) as [Hst ->].
      left. exists [], property, rest, n, remainder, status. done.
Qed.

End SetProperty.

(** C8 (as the code has it).  A failed [setProperty] does not put the node
    back: the node is left as the properties gone through before the
    failure made it.  There are three ways to fail.  [loadProperties]
    throws: the node has the properties [loadProperties] left.  An
    iteration of the loop returns a status at the string [bad] (its key and
    value cannot be told apart, or its value is empty): the properties
    before [bad] stay applied and those after it are not looked at.  The
    layer refuses the strings passed on to it: every property of the list
    that the node handles stays applied. *)
Theorem setProperty_failure_keeps_prefix
    (C : LayerNode.Collaborators) (n : LayerNode.t)
    (properties : list string) :
  failed (LayerNode.setProperty properties n) ->
  (exists e p,
     LayerNode.loadProperties properties (LayerNode.props n) = Thrown e p
     /\ LayerNode.setProperty properties n
        = Thrown e (LayerNode.set_props p n))
  \/ (exists pre bad post p n' remainder status,
        LayerNode.loadProperties properties (LayerNode.props n)
        = Normal (pre ++ bad :: post) p
        /\ LayerNode.applied pre [] (LayerNode.set_props p n)
           = Some (n', remainder)
        /\ LayerNode.setProperty_iteration bad remainder n'
           = LayerNode.Return status n'
        /\ status ≠ ML_ERROR_NONE
        /\ LayerNode.setProperty properties n = Normal status n')
  \/ (exists properties' p n' remainder,
        LayerNode.loadProperties properties (LayerNode.props n)
        = Normal properties' p
        /\ LayerNode.applied properties' [] (LayerNode.set_props p n)
           = Some (n', remainder)
        /\ remainder `sublist_of` properties'
        /\ failed (LayerNode.layer_setProperty remainder
                     (LayerNode.getLayer n'))
        /\ LayerNode.setProperty properties n
           = match LayerNode.layer_setProperty remainder
                     (LayerNode.getLayer n') with
             | Normal status l => Normal status (LayerNode.set_getLayer l n')
             | Thrown e l => Thrown e (LayerNode.set_getLayer l n')
             | Undefined => Undefined
             end).
Proof.
  unfold LayerNode.setProperty.
  destruct (LayerNode.loadProperties properties (LayerNode.props n))
    as [properties' p|e p|] eqn:Hload; [| |done].
  - intros Hfail. right.
    destruct (setProperty_loop_failed _ _ _ Hfail)
      as [(pre & bad & post & n' & r' & status & -> & Happ & Hbad & Hst & Hrun)
         |(n' & r' & Happ & Hlayer & Hrun)].
    + left. by exists pre, bad, post, p, n', r', status.
    + right. exists properties', p, n', r'.
      split; [done|]. split; [done|]. split; [|done].
      destruct (applied_remainder _ _ _ _ _ Happ) as (fwd & -> & Hsub). done.
  - intros _. left. by exists e, p.
Qed.

(** The layer refuses [bogus=1] after the node has taken [flatten=true]. *)
Lemma setProperty_failure_keeps_prefix_witness :
  failed (LayerNode.setProperty ["flatten=true"; "bogus=1"] fresh_node)
  /\ exists n' remainder,
       LayerNode.applied ["flatten=true"; "bogus=1"] [] fresh_node
       = Some (n', remainder)
       /\ LayerNode.flatten n' = true
       /\ remainder = ["bogus=1"]
       /\ LayerNode.setProperty ["flatten=true"; "bogus=1"] fresh_node
          = Normal ML_ERROR_INVALID_PARAMETER n'.
Proof.
  assert (Hfail : failed (LayerNode.setProperty ["flatten=true"; "bogus=1"]
                            fresh_node)).
  { vm_compute. intros Heq. discriminate Heq. }
  assert (Hloaded :
            @LayerNode.loadProperties plain_collaborators
              ["flatten=true"; "bogus=1"] (LayerNode.props fresh_node)
            = Normal ["flatten=true"; "bogus=1"] (LayerNode.props fresh_node))
    by reflexivity.
  split; [exact Hfail|].
  destruct (setProperty_failure_keeps_prefix plain_collaborators fresh_node
              ["flatten=true"; "bogus=1"] Hfail)
    as [(e & p & Hload & _)
       |[(pre & bad & post & p & n' & r & status & Hload & Happ & Hbad & _)
        |(properties' & p & n' & r & Hload & Happ & _ & _ & Hrun)]].
  - rewrite Hloaded in Hload. discriminate Hload.
  - rewrite Hloaded in Hload. injection Hload as Hsplit <-.
    destruct pre as [|p0 [|p1 pre]]; simpl in Hsplit.
    + injection Hsplit as <- <-. simpl in Happ. injection Happ as <- <-.
      discriminate Hbad.
    + injection Hsplit as <- <- <-. injection Happ as <- <-.
      discriminate Hbad.
    + injection Hsplit as _ _ Hnil. by destruct pre.
  - rewrite Hloaded in Hload. injection Hload as <- <-.
    exists n', r.
    assert (Happlied :
              Some (n', r)
              = Some (LayerNode.set_flatten true fresh_node, ["bogus=1"]))
      by (rewrite <- Happ; reflexivity).
    injection Happlied as -> ->.
    split; [reflexivity|]. split; [reflexivity|]. split; [reflexivity|].
    rewrite Hrun. reflexivity.
Defined.

(** C8 (as stated) fails: on a fresh node, [setProperty] with a valid
    [flatten=true] followed by a pair whose key neither the node nor the
    layer knows returns an error status, and the node has [flatten] set. *)
Lemma setProperty_not_all_or_nothing :
  LayerNode.flatten fresh_node = false
  /\ exists status n',
       LayerNode.setProperty ["flatten=true"; "bogus=1"] fresh_node
       = Normal status n'
       /\ status ≠ ML_ERROR_NONE
       /\ LayerNode.flatten n' = true
       /\ n' ≠ fresh_node.
Proof.
  split; [reflexivity|].
  exists ML_ERROR_INVALID_PARAMETER, (LayerNode.set_flatten true fresh_node).
  split; [by vm_compute|]. split; [done|]. split; [reflexivity|].
  intros Heq. by apply (f_equal LayerNode.flatten) in Heq.
Qed.

(** ** The input layer *)

(** C9.  For every state of an input layer, [calcDerivative()] raises the
    not-supported failure, never returns normally, and leaves the layer as
    it was. *)
Theorem input_calcDerivative_not_supported (l : InputLayer.t) :
  InputLayer.calcDerivative l
  = Thrown (not_supported "calcDerivative for input layer is not supported") l
  /\ (forall a l', InputLayer.calcDerivative l ≠ Normal a l')
  /\ InputLayer.calcDerivative l ≠ Undefined.
Proof. by repeat split. Qed.

(** Training cannot be switched on for an input layer either; switching it
    off returns normally. *)
Lemma input_setTrainable (l : InputLayer.t) :
  InputLayer.setTrainable true l
  = Thrown (not_supported "Input layer does not support training") l
  /\ exists l', InputLayer.setTrainable false l = Normal tt l'
                /\ InputLayer.trainable l' = false.
Proof. split; [done|]. by eexists. Qed.

(** * Further properties of the Manager *)

(** ** Tracking the in/outs of layers *)

Lemma TrackLayerInOuts_loop_spec base (trainable : bool) dims : forall cnt acc sz,
  fits_size_t (sz + (if trainable then dims_len dims else 0)) ->
  Manager.TrackLayerInOuts_loop base trainable dims cnt acc sz
  = (acc ++ imap (fun i d => Var_Grad.make d trainable
                               (base +:+ pretty (cnt + N.of_nat i))) dims,
     sz + (if trainable then dims_len dims else 0)).
Proof.
  unfold fits_size_t.
  induction dims as [|d dims IH]; intros cnt acc sz Hfit; simpl.
  - f_equal; [by rewrite app_nil_r|destruct trainable; lia].
  - change (dims_len (d :: dims)) with (TensorDim.getDataLen d + dims_len dims) in *.
    rewrite IH.
    + rewrite <- app_assoc. simpl. rewrite N.add_0_r. f_equal.
      * do 2 f_equal. apply imap_ext. intros i d' _. simpl.
        do 3 f_equal. lia.
      * destruct trainable; [|done].
        rewrite size_t_wrap_small by (unfold fits_size_t; lia). lia.
    + destruct trainable; [|done].
      rewrite size_t_wrap_small by (unfold fits_size_t; lia). lia.
Qed.

Lemma TrackLayerInOuts_spec layer_name dims (trainable : bool) m :
  fits_size_t (dims_len dims) ->
  Manager.TrackLayerInOuts layer_name dims trainable m
  = Manager.Build (Manager.weights m)
      (Manager.in_outs m ++ [tracked_pairs layer_name dims trainable])
      (Manager.max_weight_size m)
      (N.max (Manager.max_derivative_size m)
             (if trainable then dims_len dims else 0))
      (Manager.enable_gradient_memory_opt m)
      (Manager.enable_derivative_memory_opt m).
Proof.
  intros Hfit. unfold Manager.TrackLayerInOuts.
  rewrite TrackLayerInOuts_loop_spec.
  - simpl. unfold tracked_pairs. do 4 f_equal.
  - rewrite N.add_0_l. destruct trainable; [done|].
    unfold fits_size_t, size_t_modulus. simpl. lia.
Qed.

Lemma io_trainable_len_imap (g : nat -> string) (trainable : bool) dims :
  io_trainable_len (imap (fun i d => Var_Grad.make d trainable (g i)) dims)
  = if trainable then dims_len dims else 0.
Proof.
  revert g. induction dims as [|d dims IH]; intros g; simpl.
  - by destruct trainable.
  - unfold io_trainable_len in *. simpl.
    specialize (IH (g ∘ S)). unfold compose in IH.
    erewrite (imap_ext _ (fun i d => Var_Grad.make d trainable (g (S i))))
      by done.
    rewrite IH. unfold Var_Grad.getTrainable, Var_Grad.getDim. simpl.
    destruct trainable; simpl; [|done].
    unfold dims_len. simpl. lia.
Qed.

Lemma io_trainable_len_tracked_pairs layer_name dims (trainable : bool) :
  io_trainable_len (tracked_pairs layer_name dims trainable)
  = if trainable then dims_len dims else 0.
Proof. apply io_trainable_len_imap. Qed.

Lemma N_list_max_app l1 l2 :
  N_list_max (l1 ++ l2) = N.max (N_list_max l1) (N_list_max l2).
Proof.
  unfold N_list_max. induction l1 as [|x l1 IH]; simpl; [lia|].
  rewrite IH. lia.
Qed.

Lemma track_all_spec layers : forall m,
  Forall (fun l => fits_size_t (dims_len l.1.2)) layers ->
  Manager.in_outs (track_all layers m)
  = Manager.in_outs m
    ++ map (fun l => tracked_pairs l.1.1 l.1.2 l.2) layers
  /\ Manager.max_derivative_size (track_all layers m)
     = N.max (Manager.max_derivative_size m) (N_list_max (map layer_len layers))
  /\ Manager.weights (track_all layers m) = Manager.weights m
  /\ Manager.max_weight_size (track_all layers m) = Manager.max_weight_size m
  /\ Manager.enable_gradient_memory_opt (track_all layers m)
     = Manager.enable_gradient_memory_opt m
  /\ Manager.enable_derivative_memory_opt (track_all layers m)
     = Manager.enable_derivative_memory_opt m.
Proof.
  induction layers as [|l layers IH]; intros m Hfit.
  - simpl. rewrite app_nil_r. repeat split. unfold N_list_max. simpl. lia.
  - inversion Hfit as [|? ? Hl Hrest]; subst.
    unfold track_all in *. cbn [foldl].
    destruct (IH (Manager.TrackLayerInOuts l.1.1 l.1.2 l.2 m) Hrest)
      as (Hio & Hmax & Hw & Hmw & Hg & Hd).
    rewrite Hio, Hmax, Hw, Hmw, Hg, Hd.
    rewrite TrackLayerInOuts_spec by done. simpl.
    rewrite <- app_assoc. repeat split.
    unfold N_list_max, layer_len. simpl. lia.
Qed.

(** X1.  Starting from a fresh Manager and tracking the in/outs of any
    sequence of layers (the element counts of each layer's inputs summing
    to less than 2^64), the tracked entries are the pairs of the layers in
    order and [max_derivative_size] is the maximum over the tracked entries
    of the element count of their trainable pairs. *)
Theorem max_derivative_size_is_true_maximum
    (layers : list (string * list TensorDim.t * bool)) :
  Forall (fun l => fits_size_t (dims_len l.1.2)) layers ->
  let m := track_all layers Manager.make in
  Manager.in_outs m = map (fun l => tracked_pairs l.1.1 l.1.2 l.2) layers
  /\ Manager.max_derivative_size m
     = N_list_max (map io_trainable_len (Manager.in_outs m))
  /\ (forall l_io, l_io ∈ Manager.in_outs m ->
        io_trainable_len l_io <= Manager.max_derivative_size m).
Proof.
  intros Hfit m.
  destruct (track_all_spec layers Manager.make Hfit) as (Hio & Hmax & _).
  simpl in Hio, Hmax. fold m in Hio, Hmax.
  assert (Heq : Manager.max_derivative_size m
                = N_list_max (map io_trainable_len (Manager.in_outs m))).
  { rewrite Hmax, Hio, N.max_0_l, <- list_fmap_compose. f_equal.
    apply list_fmap_ext. intros _ l _. simpl.
    by rewrite io_trainable_len_tracked_pairs. }
  split; [done|]. split; [done|].
  intros l_io Hin. rewrite Heq. apply N_list_max_ge.
  by apply list_elem_of_fmap_2.
Qed.

Lemma max_derivative_size_is_true_maximum_witness :
  Manager.max_derivative_size
    (track_all [("a", [TensorDim.Build 4 1 1 8; TensorDim.Build 4 1 2 8], true);
                ("b", [TensorDim.Build 4 3 5 8], false);
                ("c", [TensorDim.Build 2 1 1 8], true)] Manager.make)
  = 96.
Proof.
  assert (Hfit : Forall (fun l => fits_size_t (dims_len l.1.2))
            [("a", [TensorDim.Build 4 1 1 8; TensorDim.Build 4 1 2 8], true);
             ("b", [TensorDim.Build 4 3 5 8], false);
             ("c", [TensorDim.Build 2 1 1 8], true)]).
  { repeat constructor. }
  destruct (max_derivative_size_is_true_maximum _ Hfit) as (_ & Hmax & _).
  exact Hmax.
Defined.

Lemma TrackLayerInOuts_loop_in_out base (trainable : bool) dims : forall cnt acc sz,
  (Manager.TrackLayerInOuts_loop base trainable dims cnt acc sz).1
  = acc ++ imap (fun i d => Var_Grad.make d trainable
                              (base +:+ pretty (cnt + N.of_nat i))) dims.
Proof.
  induction dims as [|d dims IH]; intros cnt acc sz; simpl.
  - by rewrite app_nil_r.
  - rewrite IH, <- app_assoc. simpl. rewrite N.add_0_r. do 2 f_equal.
    apply imap_ext. intros i d' _. simpl. do 3 f_equal. lia.
Qed.

Lemma TrackLayerInOuts_in_outs layer_name dims (trainable : bool) m :
  Manager.in_outs (Manager.TrackLayerInOuts layer_name dims trainable m)
  = Manager.in_outs m ++ [tracked_pairs layer_name dims trainable].
Proof.
  unfold Manager.TrackLayerInOuts.
  pose proof (TrackLayerInOuts_loop_in_out (layer_name +:+ ":InOut")
                trainable dims 0 [] 0) as Hloop.
  destruct (Manager.TrackLayerInOuts_loop _ _ _ _ _ _) as [in_out sz].
  simpl in *. by rewrite Hloop.
Qed.

Lemma TrackLayerInOuts_max_derivative_size layer_name dims (trainable : bool) m :
  Manager.max_derivative_size m
  <= Manager.max_derivative_size
       (Manager.TrackLayerInOuts layer_name dims trainable m).
Proof.
  unfold Manager.TrackLayerInOuts.
  destruct (Manager.TrackLayerInOuts_loop _ _ _ _ _ _) as [in_out sz].
  simpl. lia.
Qed.

(** X2.  After [TrackLayerInOuts(name, dims, trainable)], the layer tracked
    last, which is also the layer at the index equal to the number of
    layers tracked before, has one pair per input shape: the pair of input
    [i] has that shape, the trainable flag and the name ["<name>:InOut<i>"];
    the layers tracked before keep their indices. *)
Theorem TrackLayerInOuts_getInputsLayer
    (layer_name : string) (dims : list TensorDim.t) (trainable : bool)
    (m : Manager.t) :
  let m' := Manager.TrackLayerInOuts layer_name dims trainable m in
  exists pairs,
    Manager.getInputsLayer (-1) m' = Some pairs
    /\ Manager.getInputsLayer (Z.of_nat (length (Manager.in_outs m))) m'
       = Some pairs
    /\ length pairs = length dims
    /\ (forall i d, dims !! i = Some d ->
          pairs !! i
          = Some (Var_Grad.make d trainable
                    ((layer_name +:+ ":InOut") +:+ pretty (N.of_nat i))))
    /\ (forall k, (k < length (Manager.in_outs m))%nat ->
          Manager.getInputsLayer (Z.of_nat k) m'
          = Manager.getInputsLayer (Z.of_nat k) m).
Proof.
  intros m'. exists (tracked_pairs layer_name dims trainable).
  unfold Manager.getInputsLayer. subst m'.
  rewrite TrackLayerInOuts_in_outs.
  split; [by rewrite decide_True, last_snoc by done|].
  split.
  { rewrite decide_False, decide_True, Nat2Z.id by lia.
    by rewrite lookup_app_r, Nat.sub_diag by lia. }
  split; [by apply length_imap|].
  split.
  { intros i d Hd. unfold tracked_pairs. by rewrite list_lookup_imap, Hd. }
  intros k Hk. repeat case_decide; try lia.
  rewrite Nat2Z.id. by rewrite lookup_app_l by lia.
Qed.

(** ** Untracking a layer *)

Lemma untrackLayerInOuts_loop_first_match var_name pre vg rest post :
  Var_Grad.getName vg = var_name ->
  no_first_pair_named var_name pre ->
  forall k, (k <= length pre)%nat ->
  Manager.untrackLayerInOuts_loop var_name (pre ++ (vg :: rest) :: post)
    (length pre - k) (k + 1 + length post)
  = pre ++ post.
Proof.
  intros Hname Hpre. induction k as [|k IH]; intros Hk.
  - rewrite Nat.sub_0_r. simpl.
    rewrite list_lookup_middle by done.
    rewrite decide_True by done. by rewrite delete_middle.
  - change (S k + 1 + length post)%nat with (S (k + 1 + length post)).
    cbn [Manager.untrackLayerInOuts_loop].
    assert (Hlt : (length pre - S k < length pre)%nat) by lia.
    destruct (lookup_lt_is_Some_2 pre _ Hlt) as [io Hio].
    rewrite lookup_app_l, Hio by done.
    replace (S (length pre - S k)) with (length pre - k)%nat by lia.
    destruct io as [|vg0 rest0]; [apply IH; lia|].
    rewrite decide_False; [apply IH; lia|].
    eapply Hpre; [|reflexivity]. by eapply list_elem_of_lookup_2.
Qed.

Lemma untrackLayerInOuts_first_match layer_name m pre vg rest post :
  Manager.in_outs m = pre ++ (vg :: rest) :: post ->
  Var_Grad.getName vg = layer_name +:+ ":InOut0" ->
  no_first_pair_named (layer_name +:+ ":InOut0") pre ->
  Manager.untrackLayerInOuts layer_name m
  = Manager.Build (Manager.weights m) (pre ++ post)
      (Manager.max_weight_size m) (Manager.max_derivative_size m)
      (Manager.enable_gradient_memory_opt m)
      (Manager.enable_derivative_memory_opt m).
Proof.
  intros Hio Hname Hpre. unfold Manager.untrackLayerInOuts. f_equal.
  rewrite Hio.
  assert (Hvar : (layer_name +:+ ":InOut") +:+ pretty 0
                 = layer_name +:+ ":InOut0")
    by (symmetry; exact (string_app_assoc layer_name ":InOut" "0")).
  rewrite Hvar.
  replace (length (pre ++ (vg :: rest) :: post))
    with (length pre + 1 + length post)%nat
    by (rewrite length_app; simpl; lia).
  replace 0%nat with (length pre - length pre)%nat at 1 by lia.
  by apply untrackLayerInOuts_loop_first_match.
Qed.

(** X3.  [untrackLayerInOuts(name)] erases the first tracked entry whose
    first pair is named ["<name>:InOut0"] and only that entry: the entries
    before and after it stay in their order, and the weights, both running
    maxima and the flags are left as they were; in particular
    [max_derivative_size] is not lowered. *)
Theorem untrackLayerInOuts_removes_first_match
    (layer_name : string) (m : Manager.t)
    (pre post : list (list Var_Grad.t)) (vg : Var_Grad.t)
    (rest : list Var_Grad.t) :
  Manager.in_outs m = pre ++ (vg :: rest) :: post ->
  Var_Grad.getName vg = layer_name +:+ ":InOut0" ->
  no_first_pair_named (layer_name +:+ ":InOut0") pre ->
  let m' := Manager.untrackLayerInOuts layer_name m in
  Manager.in_outs m' = pre ++ post
  /\ Manager.max_derivative_size m' = Manager.max_derivative_size m
  /\ Manager.max_weight_size m' = Manager.max_weight_size m
  /\ Manager.weights m' = Manager.weights m
  /\ Manager.enable_gradient_memory_opt m' = Manager.enable_gradient_memory_opt m
  /\ Manager.enable_derivative_memory_opt m'
     = Manager.enable_derivative_memory_opt m.
Proof.
  intros Hio Hname Hpre m'. subst m'.
  by rewrite (untrackLayerInOuts_first_match _ _ _ _ _ _ Hio Hname Hpre).
Qed.

Lemma untrackLayerInOuts_removes_first_match_witness :
  Manager.in_outs (Manager.untrackLayerInOuts "node1" scenarioB)
  = [tracked_pairs "node2" [scenarioB_dim] true]
  /\ Manager.max_derivative_size (Manager.untrackLayerInOuts "node1" scenarioB)
     = 32.
Proof.
  assert (Hio : Manager.in_outs scenarioB
                = [] ++ (Var_Grad.make scenarioB_dim true "node1:InOut0" :: [])
                     :: [tracked_pairs "node2" [scenarioB_dim] true])
    by reflexivity.
  assert (Hpre : no_first_pair_named ("node1" +:+ ":InOut0") []).
  { intros io vg rest Hin. by apply elem_of_nil in Hin. }
  destruct (untrackLayerInOuts_removes_first_match "node1" scenarioB _ _ _ _
              Hio eq_refl Hpre) as (Hin & Hmax & _).
  split; [exact Hin|exact Hmax].
Defined.

(** X4.  Tracking a layer with at least one input under a name that no
    tracked entry carries and untracking it again gives back the tracked
    entries as they were, while [max_derivative_size] keeps the value the
    tracking raised it to. *)
Theorem track_untrack_round_trip
    (layer_name : string) (d : TensorDim.t) (dims : list TensorDim.t)
    (trainable : bool) (m : Manager.t) :
  no_first_pair_named (layer_name +:+ ":InOut0") (Manager.in_outs m) ->
  let tracked := Manager.TrackLayerInOuts layer_name (d :: dims) trainable m in
  let m' := Manager.untrackLayerInOuts layer_name tracked in
  Manager.in_outs m' = Manager.in_outs m
  /\ Manager.max_derivative_size m' = Manager.max_derivative_size tracked
  /\ Manager.max_derivative_size m <= Manager.max_derivative_size m'.
Proof.
  intros Hno tracked m'.
  destruct (TrackLayerInOuts_first_name layer_name d dims trainable m)
    as [rest Hio]. fold tracked in Hio.
  subst m'.
  rewrite (untrackLayerInOuts_first_match layer_name tracked
             (Manager.in_outs m) _ rest [] Hio eq_refl Hno).
  simpl. rewrite app_nil_r. split; [done|]. split; [done|].
  apply TrackLayerInOuts_max_derivative_size.
Qed.

Lemma track_untrack_round_trip_witness :
  Manager.in_outs
    (Manager.untrackLayerInOuts "fc"
       (Manager.TrackLayerInOuts "fc" [scenarioB_dim] true Manager.make))
  = []
  /\ Manager.max_derivative_size
       (Manager.untrackLayerInOuts "fc"
          (Manager.TrackLayerInOuts "fc" [scenarioB_dim] true Manager.make))
     = 32
  /\ Manager.max_derivative_size Manager.make = 0.
Proof.
  assert (Hno : no_first_pair_named ("fc" +:+ ":InOut0")
                  (Manager.in_outs Manager.make)).
  { intros io vg rest Hin. by apply elem_of_nil in Hin. }
  destruct (track_untrack_round_trip "fc" scenarioB_dim [] true Manager.make Hno)
    as (Hin & Hmax & _).
  split; [exact Hin|]. split; [exact Hmax|reflexivity].
Defined.

(** X5.  A layer tracked with no input cannot be untracked: its entry has
    no first pair to compare, so when no other entry carries the name,
    [untrackLayerInOuts] leaves the Manager, with the empty entry, as it
    was. *)
Theorem untrack_layer_without_inputs
    (layer_name : string) (trainable : bool) (m : Manager.t) :
  no_first_pair_named (layer_name +:+ ":InOut0") (Manager.in_outs m) ->
  let tracked := Manager.TrackLayerInOuts layer_name [] trainable m in
  Manager.in_outs tracked = Manager.in_outs m ++ [[]]
  /\ Manager.untrackLayerInOuts layer_name tracked = tracked.
Proof.
  intros Hno tracked.
  assert (Hio : Manager.in_outs tracked = Manager.in_outs m ++ [[]]) by done.
  split; [done|].
  unfold Manager.untrackLayerInOuts.
  rewrite untrackLayerInOuts_loop_no_match; [by destruct tracked|].
  rewrite Hio. intros io vg rest Hin Heq Hname.
  apply elem_of_app in Hin as [Hin|Hin].
  - eapply Hno; [exact Hin|exact Heq|]. rewrite Hname.
    symmetry. exact (string_app_assoc layer_name ":InOut" "0").
  - apply list_elem_of_singleton in Hin. by subst io.
Qed.

Lemma untrack_layer_without_inputs_witness :
  Manager.in_outs
    (Manager.untrackLayerInOuts "source"
       (Manager.TrackLayerInOuts "source" [] true one_layer_manager))
  = Manager.in_outs one_layer_manager ++ [[]].
Proof.
  assert (Hno : no_first_pair_named ("source" +:+ ":InOut0")
                  (Manager.in_outs one_layer_manager)).
  { intros io vg rest Hin Heq.
    apply list_elem_of_singleton in Hin. subst io.
    injection Heq as <- _. by vm_compute. }
  destruct (untrack_layer_without_inputs "source" true one_layer_manager Hno)
    as [Hio Hun].
  rewrite Hun. exact Hio.
Defined.

(** ** Allocation of the derivatives, in general *)

Lemma io_trainable_len_app l1 l2 :
  io_trainable_len (l1 ++ l2) = io_trainable_len l1 + io_trainable_len l2.
Proof.
  unfold io_trainable_len. induction l1 as [|io l1 IH]; simpl; [done|].
  rewrite IH. lia.
Qed.

Lemma io_trainable_len_singleton io :
  io_trainable_len [io]
  = if Var_Grad.getTrainable io
    then TensorDim.getDataLen (Var_Grad.getDim io) else 0.
Proof. unfold io_trainable_len. simpl. lia. Qed.

Lemma io_trainable_len_prefix l i j io :
  (i < j)%nat -> l !! i = Some io ->
  io_trainable_len (take i l)
  + (if Var_Grad.getTrainable io
     then TensorDim.getDataLen (Var_Grad.getDim io) else 0)
  <= io_trainable_len (take j l).
Proof.
  intros Hij Hi.
  assert (Hsplit : take j l = take (S i) l ++ drop (S i) (take j l)).
  { rewrite <- (take_drop (S i) (take j l)) at 1.
    f_equal. rewrite take_take. f_equal. lia. }
  rewrite Hsplit, io_trainable_len_app.
  rewrite (take_S_r l i io Hi), io_trainable_len_app.
  rewrite io_trainable_len_singleton. lia.
Qed.

Lemma io_trainable_len_prefix_total l i io :
  l !! i = Some io ->
  io_trainable_len (take i l)
  + (if Var_Grad.getTrainable io
     then TensorDim.getDataLen (Var_Grad.getDim io) else 0)
  <= io_trainable_len l.
Proof.
  intros Hi.
  pose proof (io_trainable_len_prefix l i (length l) io) as Hle.
  rewrite firstn_all in Hle. apply Hle; [|done].
  by eapply lookup_lt_Some.
Qed.

Lemma Var_Grad_getDim_initialize grad_shared gtrain vg :
  Var_Grad.getDim (Var_Grad.initialize grad_shared gtrain vg)
  = Var_Grad.getDim vg.
Proof. reflexivity. Qed.

Lemma initializeInOuts_layer_lookup sh l_io : forall off i io,
  l_io !! i = Some io ->
  fits_size_t (off + io_trainable_len (take i l_io)) ->
  Manager.initializeInOuts_layer true sh true l_io off !! i
  = Some (if Var_Grad.getTrainable io
          then Var_Grad.initialize
                 (Tensor.getSharedDataTensor sh (Var_Grad.getDim io)
                    (off + io_trainable_len (take i l_io)))
                 true io
          else Var_Grad.initialize Tensor.empty true io).
Proof.
  unfold fits_size_t.
  induction l_io as [|io0 l_io IH]; intros off i io Hi Hfit; [done|].
  destruct i as [|i]; simpl in Hi.
  - injection Hi as ->. simpl.
    destruct (Var_Grad.getTrainable io); simpl; [|done].
    do 3 f_equal. unfold io_trainable_len. simpl. lia.
  - cbn [take] in Hfit |- *.
    change (io0 :: take i l_io) with ([io0] ++ take i l_io) in Hfit |- *.
    rewrite io_trainable_len_app in Hfit |- *.
    rewrite io_trainable_len_singleton in Hfit |- *.
    cbn [Manager.initializeInOuts_layer].
    destruct (Var_Grad.getTrainable io0); simpl.
    + rewrite Var_Grad_getDim_initialize, N.mul_1_r.
      rewrite size_t_wrap_small by (unfold fits_size_t; lia).
      rewrite (IH _ i io Hi) by lia.
      destruct (Var_Grad.getTrainable io); [|done].
      do 3 f_equal. lia.
    + rewrite (IH _ i io Hi) by lia.
      destruct (Var_Grad.getTrainable io); [|done].
      do 3 f_equal.
Qed.

Lemma initializeInOuts_lookup m k l_io :
  Manager.in_outs m !! k = Some l_io ->
  Manager.in_outs (Manager.initializeInOuts true m) !! k
  = Some (Manager.initializeInOuts_layer
            (Manager.enable_derivative_memory_opt m) (Manager.shared_deriv m)
            true l_io 0).
Proof.
  intros Hk. unfold Manager.initializeInOuts. simpl.
  by rewrite list_lookup_fmap, Hk.
Qed.

Lemma shared_deriv_buffer_len m :
  Manager.enable_derivative_memory_opt m = true ->
  Tensor.buffer_len (Manager.shared_deriv m) = Manager.max_derivative_size m.
Proof.
  intros Hopt. unfold Manager.shared_deriv. rewrite Hopt, andb_true_r.
  destruct (0 <? Manager.max_derivative_size m) eqn:Hpos; simpl; [done|].
  apply N.ltb_ge in Hpos. change (Tensor.buffer_len Tensor.empty) with 0. lia.
Qed.

Lemma initializeInOuts_pair_bound m k l_io i io :
  Manager.enable_derivative_memory_opt m = true ->
  Manager.in_outs m !! k = Some l_io ->
  l_io !! i = Some io ->
  Var_Grad.getTrainable io = true ->
  fits_size_t (io_trainable_len l_io) ->
  exists l_io' io',
    Manager.in_outs (Manager.initializeInOuts true m) !! k = Some l_io'
    /\ l_io' !! i = Some io'
    /\ Var_Grad.grad io'
       = Tensor.getSharedDataTensor (Manager.shared_deriv m)
           (Var_Grad.getDim io) (io_trainable_len (take i l_io)).
Proof.
  intros Hopt Hk Hi Htr Hfit.
  pose proof (io_trainable_len_prefix_total l_io i io Hi) as Hle.
  do 2 eexists. split; [by apply initializeInOuts_lookup|].
  rewrite Hopt. split.
  - rewrite (initializeInOuts_layer_lookup _ _ 0 i io Hi);
      [by rewrite Htr|].
    unfold fits_size_t in *. lia.
  - rewrite N.add_0_l. unfold Var_Grad.initialize.
    unfold Var_Grad.getTrainable in Htr. by rewrite Htr.
Qed.

(** X6.  With derivative sharing enabled, after [initializeInOuts(true)] on
    a Manager built by tracking layers from a fresh one (each layer's input
    element counts summing to less than 2^64), the gradient of every
    trainable pair is an alias of the shared buffer that starts at the sum
    of the element counts of the trainable pairs before it in its layer and
    lies inside the buffer, whose length is [max_derivative_size]. *)
Theorem initializeInOuts_aliases_inside_buffer
    (layers : list (string * list TensorDim.t * bool))
    (k i : nat) (l_io : list Var_Grad.t) (io : Var_Grad.t) :
  Forall (fun l => fits_size_t (dims_len l.1.2)) layers ->
  let m := track_all layers Manager.make in
  Manager.in_outs m !! k = Some l_io ->
  l_io !! i = Some io ->
  Var_Grad.getTrainable io = true ->
  exists l_io' io',
    Manager.in_outs (Manager.initializeInOuts true m) !! k = Some l_io'
    /\ l_io' !! i = Some io'
    /\ Var_Grad.grad io'
       = Tensor.getSharedDataTensor (Manager.shared_deriv m)
           (Var_Grad.getDim io) (io_trainable_len (take i l_io))
    /\ Tensor.valid_alias (Var_Grad.grad io')
    /\ Tensor.buffer_len (Manager.shared_deriv m)
       = Manager.max_derivative_size m.
Proof.
  intros Hfit m Hk Hi Htr.
  destruct (track_all_spec layers Manager.make Hfit)
    as (Hio & Hmax & _ & _ & _ & Hopt).
  fold m in Hio, Hmax, Hopt. simpl in Hio, Hmax, Hopt.
  assert (Hlen : io_trainable_len l_io <= Manager.max_derivative_size m).
  { rewrite Hmax, N.max_0_l.
    rewrite Hio, list_lookup_fmap in Hk.
    destruct (layers !! k) as [l|] eqn:Hl; [|done].
    injection Hk as <-. rewrite io_trainable_len_tracked_pairs.
    apply N_list_max_ge. apply list_elem_of_fmap. exists l.
    split; [done|]. by eapply list_elem_of_lookup_2. }
  assert (Hfit' : fits_size_t (io_trainable_len l_io)).
  { rewrite Hio, list_lookup_fmap in Hk.
    destruct (layers !! k) as [l|] eqn:Hl; [|done].
    injection Hk as <-. rewrite io_trainable_len_tracked_pairs.
    apply list_elem_of_lookup_2 in Hl.
    rewrite Forall_forall in Hfit. specialize (Hfit l Hl).
    destruct l.2; [done|]. unfold fits_size_t, size_t_modulus. simpl. lia. }
  destruct (initializeInOuts_pair_bound m k l_io i io Hopt Hk Hi Htr Hfit')
    as (l_io' & io' & Hk' & Hi' & Hgrad).
  exists l_io', io'. split; [done|]. split; [done|]. split; [done|].
  pose proof (shared_deriv_buffer_len m Hopt) as Hbuf.
  split; [|done].
  rewrite Hgrad. unfold Tensor.valid_alias. simpl. rewrite Hbuf.
  pose proof (io_trainable_len_prefix_total l_io i io Hi) as Hle.
  rewrite Htr in Hle. lia.
Qed.

Lemma initializeInOuts_aliases_inside_buffer_witness :
  exists l_io' io',
    Manager.in_outs
      (Manager.initializeInOuts true
         (track_all [("node1", [scenarioB_dim; scenarioB_dim], true);
                     ("node2", [scenarioB_dim], true)] Manager.make))
    !! 0%nat = Some l_io'
    /\ l_io' !! 1%nat = Some io'
    /\ Tensor.region (Var_Grad.grad io') = Some (32, 32)
    /\ Tensor.valid_alias (Var_Grad.grad io').
Proof.
  assert (Hfit : Forall (fun l => fits_size_t (dims_len l.1.2))
                   [("node1", [scenarioB_dim; scenarioB_dim], true);
                    ("node2", [scenarioB_dim], true)]).
  { repeat constructor. }
  destruct (initializeInOuts_aliases_inside_buffer _ 0%nat 1%nat
              (tracked_pairs "node1" [scenarioB_dim; scenarioB_dim] true)
              (Var_Grad.make scenarioB_dim true "node1:InOut1")
              Hfit eq_refl eq_refl eq_refl)
    as (l_io' & io' & Hk & Hi & Hgrad & Hvalid & _).
  exists l_io', io'. split; [exact Hk|]. split; [exact Hi|].
  split; [by rewrite Hgrad|exact Hvalid].
Defined.

(** X7.  With derivative sharing enabled, after [initializeInOuts(true)]
    the gradients of two distinct trainable pairs of one layer (whose
    trainable element counts sum to less than 2^64) alias disjoint regions
    of the shared buffer. *)
Theorem initializeInOuts_regions_disjoint
    (m : Manager.t) (k i j : nat) (l_io : list Var_Grad.t)
    (io1 io2 : Var_Grad.t) :
  Manager.enable_derivative_memory_opt m = true ->
  Manager.in_outs m !! k = Some l_io ->
  fits_size_t (io_trainable_len l_io) ->
  i ≠ j ->
  l_io !! i = Some io1 -> l_io !! j = Some io2 ->
  Var_Grad.getTrainable io1 = true -> Var_Grad.getTrainable io2 = true ->
  exists l_io' io1' io2' r1 r2,
    Manager.in_outs (Manager.initializeInOuts true m) !! k = Some l_io'
    /\ l_io' !! i = Some io1' /\ l_io' !! j = Some io2'
    /\ Tensor.region (Var_Grad.grad io1') = Some r1
    /\ Tensor.region (Var_Grad.grad io2') = Some r2
    /\ regions_disjoint r1 r2.
Proof.
  intros Hopt Hk Hfit Hij Hi Hj Htr1 Htr2.
  destruct (initializeInOuts_pair_bound m k l_io i io1 Hopt Hk Hi Htr1 Hfit)
    as (l1 & io1' & Hk1 & Hi1 & Hg1).
  destruct (initializeInOuts_pair_bound m k l_io j io2 Hopt Hk Hj Htr2 Hfit)
    as (l2 & io2' & Hk2 & Hi2 & Hg2).
  rewrite Hk1 in Hk2. injection Hk2 as <-.
  exists l1, io1', io2'. do 2 eexists.
  split; [done|]. split; [done|]. split; [done|].
  rewrite Hg1, Hg2. split; [reflexivity|]. split; [reflexivity|].
  unfold regions_disjoint. simpl.
  destruct (decide (i < j)%nat) as [Hlt|Hge].
  - left. pose proof (io_trainable_len_prefix l_io i j io1 Hlt Hi) as Hle.
    by rewrite Htr1 in Hle.
  - right. assert (Hlt : (j < i)%nat) by lia.
    pose proof (io_trainable_len_prefix l_io j i io2 Hlt Hj) as Hle.
    by rewrite Htr2 in Hle.
Qed.

Lemma initializeInOuts_regions_disjoint_witness :
  exists l_io' io1' io2' r1 r2,
    Manager.in_outs
      (Manager.initializeInOuts true
         (Manager.TrackLayerInOuts "concat"
            [scenarioB_dim; TensorDim.Build 4 1 2 8] true Manager.make))
    !! 0%nat = Some l_io'
    /\ l_io' !! 0%nat = Some io1' /\ l_io' !! 1%nat = Some io2'
    /\ Tensor.region (Var_Grad.grad io1') = Some r1
    /\ Tensor.region (Var_Grad.grad io2') = Some r2
    /\ regions_disjoint r1 r2.
Proof.
  apply (initializeInOuts_regions_disjoint
           (Manager.TrackLayerInOuts "concat"
              [scenarioB_dim; TensorDim.Build 4 1 2 8] true Manager.make)
           0%nat 0%nat 1%nat
           (tracked_pairs "concat" [scenarioB_dim; TensorDim.Build 4 1 2 8] true)
           (Var_Grad.make scenarioB_dim true "concat:InOut0")
           (Var_Grad.make (TensorDim.Build 4 1 2 8) true "concat:InOut1"));
    try reflexivity.
  lia.
Defined.

(** ** Allocation of the gradients, in general *)

Lemma trackWeights_loop_layer_weights st ws : forall lw acc,
  (Manager.trackWeights_loop st ws lw acc).1 = lw ++ ws.
Proof.
  induction ws as [|w ws IH]; intros lw acc; simpl.
  - by rewrite app_nil_r.
  - by rewrite IH, <- app_assoc.
Qed.

Lemma trackWeights_weights st ws m :
  Manager.weights (Manager.trackWeights st ws m) = Manager.weights m ++ [ws].
Proof.
  unfold Manager.trackWeights.
  pose proof (trackWeights_loop_layer_weights st ws [] 0) as Hlw.
  destruct (Manager.trackWeights_loop st ws [] 0) as [lw sz].
  simpl in *. by rewrite Hlw.
Qed.

Lemma register_all_weights st nodes : forall m,
  Manager.weights (register_all st nodes m) = Manager.weights m ++ nodes.
Proof.
  induction nodes as [|ws nodes IH]; intros m.
  - by rewrite app_nil_r.
  - unfold register_all in *. cbn [foldl].
    by rewrite IH, trackWeights_weights, <- app_assoc.
Qed.

Lemma trainable_len_prefix_total st l i w :
  l !! i = Some w ->
  trainable_len st (take i l)
  + (if Weight.getTrainable (st w)
     then TensorDim.getDataLen (Weight.getDim (st w)) else 0)
  <= trainable_len st l.
Proof.
  intros Hi.
  pose proof (trainable_len_prefix st l i (length l) w) as Hle.
  rewrite firstn_all in Hle. apply Hle; [|done].
  by eapply lookup_lt_Some.
Qed.

(** X8.  After registering the weights of any sequence of nodes with
    [trackWeights] on a fresh Manager (every weight registered once, each
    node's trainable total below 2^64), [initialize()] binds the gradient
    of every trainable weight to an alias that lies inside the shared
    gradient buffer. *)
Theorem initialize_aliases_inside_buffer
    (st : WeightStore) (nodes : list (list WeightRef))
    (k i : nat) (l_w : list WeightRef) (w : WeightRef) :
  Forall (fun ws => fits_size_t (trainable_len st ws)) nodes ->
  NoDup (concat nodes) ->
  nodes !! k = Some l_w ->
  l_w !! i = Some w ->
  Weight.getTrainable (st w) = true ->
  let m := register_all st nodes Manager.make in
  Weight.grad (Manager.initialize m st w)
  = Tensor.getSharedDataTensor (Manager.shared_grad m)
      (Weight.getDim (st w)) (trainable_len st (take i l_w))
  /\ Tensor.valid_alias (Weight.grad (Manager.initialize m st w))
  /\ Tensor.buffer_len (Manager.shared_grad m) = Manager.max_weight_size m.
Proof.
  intros Hfit Hnd Hk Hi Htr m.
  assert (Hw : Manager.weights m = nodes)
    by (subst m; by rewrite register_all_weights).
  assert (Hopt : Manager.enable_gradient_memory_opt m = true)
    by (subst m; by rewrite register_all_flags).
  assert (Hmax : Manager.max_weight_size m
                 = N_list_max (map (trainable_len st) nodes)).
  { subst m. rewrite register_all_max_weight_size by done. simpl. lia. }
  assert (Hfit_l : fits_size_t (trainable_len st l_w)).
  { rewrite Forall_forall in Hfit. apply Hfit.
    by eapply list_elem_of_lookup_2. }
  assert (Hle : trainable_len st l_w <= Manager.max_weight_size m).
  { rewrite Hmax. apply N_list_max_ge. apply list_elem_of_fmap_2.
    by eapply list_elem_of_lookup_2. }
  pose proof (trainable_len_prefix_total st l_w i w Hi) as Hpre.
  rewrite Htr in Hpre.
  assert (Hgrad : Weight.grad (Manager.initialize m st w)
                  = Tensor.getSharedDataTensor (Manager.shared_grad m)
                      (Weight.getDim (st w)) (trainable_len st (take i l_w))).
  { unfold Manager.initialize. rewrite Hopt, Hw.
    eapply initialize_loop_bound; try done.
    unfold fits_size_t in *. lia. }
  pose proof (shared_grad_buffer_len m Hopt) as Hbuf.
  split; [done|]. split; [|done].
  rewrite Hgrad. unfold Tensor.valid_alias. simpl. rewrite Hbuf. lia.
Qed.

Lemma initialize_aliases_inside_buffer_witness :
  Tensor.region (Weight.grad (Manager.initialize two_node_weights scenarioA_store 3%nat))
  = Some (250, 10)
  /\ Tensor.valid_alias
       (Weight.grad (Manager.initialize two_node_weights scenarioA_store 3%nat))
  /\ Manager.max_weight_size two_node_weights = 260.
Proof.
  assert (Hfit : Forall (fun ws => fits_size_t (trainable_len scenarioA_store ws))
                   [[0%nat; 1%nat]; [2%nat; 3%nat]]).
  { repeat constructor. }
  assert (Hnd : NoDup (concat [[0%nat; 1%nat]; [2%nat; 3%nat]])).
  { apply (bool_decide_unpack _). by vm_compute. }
  destruct (initialize_aliases_inside_buffer scenarioA_store
              [[0%nat; 1%nat]; [2%nat; 3%nat]] 1%nat 1%nat
              [2%nat; 3%nat] 3%nat Hfit Hnd eq_refl eq_refl eq_refl)
    as (Hgrad & Hvalid & _).
  split; [|split].
  - fold two_node_weights in Hgrad. by rewrite Hgrad.
  - exact Hvalid.
  - reflexivity.
Defined.

Lemma Weight_initialize_empty_twice w :
  Weight.initialize Tensor.empty (Weight.initialize Tensor.empty w)
  = Weight.initialize Tensor.empty w.
Proof. reflexivity. Qed.

Lemma initialize_layer_without_sharing sh (st : WeightStore) l_w :
  forall off (st0 : WeightStore) w,
  (forall r, st0 r = st r \/ st0 r = Weight.initialize Tensor.empty (st r)) ->
  Manager.initialize_layer false sh l_w off st0 w
  = if decide (w ∈ l_w) then Weight.initialize Tensor.empty (st w) else st0 w.
Proof.
  induction l_w as [|w0 l_w IH]; intros off st0 w Hinv;
    cbn [Manager.initialize_layer].
  - case_decide as Hin; [by apply elem_of_nil in Hin|done].
  - rewrite andb_false_r.
    assert (Hw0 : Weight.initialize Tensor.empty (st0 w0)
                  = Weight.initialize Tensor.empty (st w0)).
    { destruct (Hinv w0) as [->| ->]; [done|].
      apply Weight_initialize_empty_twice. }
    rewrite IH.
    + unfold store_set. rewrite Hw0.
      destruct (decide (w = w0)) as [->|Hne].
      * rewrite (decide_True (P := w0 ∈ w0 :: l_w)) by (apply elem_of_cons; by left).
        by destruct (decide (w0 ∈ l_w)).
      * destruct (decide (w ∈ l_w)) as [Hin|Hnin].
        -- rewrite decide_True; [done|]. apply elem_of_cons. by right.
        -- rewrite decide_False; [done|].
           intros Hin. apply elem_of_cons in Hin as [?|?]; done.
    + intros r. unfold store_set. rewrite Hw0.
      destruct (decide (r = w0)) as [->|_]; [by right|apply Hinv].
Qed.

Lemma initialize_loop_without_sharing sh (st : WeightStore) ws :
  forall (st0 : WeightStore) w,
  (forall r, st0 r = st r \/ st0 r = Weight.initialize Tensor.empty (st r)) ->
  Manager.initialize_loop false sh ws st0 w
  = if decide (w ∈ concat ws) then Weight.initialize Tensor.empty (st w)
    else st0 w.
Proof.
  induction ws as [|l_w ws IH]; intros st0 w Hinv;
    cbn [Manager.initialize_loop concat].
  - case_decide as Hin; [by apply elem_of_nil in Hin|done].
  - rewrite IH.
    + rewrite (initialize_layer_without_sharing sh st) by done.
      destruct (decide (w ∈ concat ws)) as [Hin|Hnin].
      * rewrite decide_True; [done|]. apply elem_of_app. by right.
      * destruct (decide (w ∈ l_w)) as [Hin|Hnin'].
        -- rewrite decide_True; [done|]. apply elem_of_app. by left.
        -- rewrite decide_False; [done|].
           intros Hin. apply elem_of_app in Hin as [?|?]; done.
    + intros r. rewrite (initialize_layer_without_sharing sh st) by done.
      destruct (decide (r ∈ l_w)); [by right|apply Hinv].
Qed.

(** X9.  With gradient sharing disabled no shared buffer is allocated, and
    [initialize()] gives every registered weight, however often it is
    registered, the buffers [initialize()] without a shared tensor gives
    it: no gradient aliases anything; the weights that are not registered
    are left as they were. *)
Theorem initialize_without_sharing
    (m : Manager.t) (st : WeightStore) (w : WeightRef) :
  let m' := Manager.setGradientMemoryOptimization false m in
  Manager.shared_grad m' = Tensor.empty
  /\ Manager.initialize m' st w
     = (if decide (w ∈ concat (Manager.weights m))
        then Weight.initialize Tensor.empty (st w) else st w)
  /\ grad_region (Manager.initialize m' st) w
     = (if decide (w ∈ concat (Manager.weights m))
        then None else grad_region st w).
Proof.
  intros m'.
  assert (Hinit : Manager.initialize m' st w
                  = if decide (w ∈ concat (Manager.weights m))
                    then Weight.initialize Tensor.empty (st w) else st w).
  { unfold Manager.initialize. simpl.
    apply initialize_loop_without_sharing. intros r. by left. }
  split.
  { unfold Manager.shared_grad. simpl. by rewrite andb_false_r. }
  split; [done|].
  unfold grad_region. rewrite Hinit.
  destruct (decide (w ∈ concat (Manager.weights m))); [|done].
  unfold Weight.initialize. simpl. by destruct (Weight.trainable (st w)).
Qed.

(** X10.  [initialize()] leaves a weight that is not registered as it was,
    and changes neither the shape nor the trainable flag of any weight. *)
Theorem initialize_touches_registered_only
    (m : Manager.t) (st : WeightStore) (w : WeightRef) :
  w ∉ concat (Manager.weights m) ->
  Manager.initialize m st w = st w
  /\ (forall r, Weight.getDim (Manager.initialize m st r) = Weight.getDim (st r)
                /\ Weight.getTrainable (Manager.initialize m st r)
                   = Weight.getTrainable (st r)).
Proof.
  intros Hw. unfold Manager.initialize. split.
  - by apply initialize_loop_frame.
  - apply initialize_loop_same_shapes.
Qed.

Lemma initialize_touches_registered_only_witness :
  Manager.initialize two_node_weights scenarioA_store 7%nat = scenarioA_store 7%nat
  /\ Weight.getDim (Manager.initialize two_node_weights scenarioA_store 2%nat)
     = TensorDim.Build 1 1 1 250.
Proof.
  assert (Hw : 7%nat ∉ concat (Manager.weights two_node_weights)).
  { apply (bool_decide_unpack _). by vm_compute. }
  destruct (initialize_touches_registered_only two_node_weights
              scenarioA_store 7%nat Hw) as [Hframe Hshape].
  split; [exact Hframe|]. destruct (Hshape 2%nat) as [Hdim _]. exact Hdim.
Defined.

(** ** Rescaling by the batch size *)

Lemma getDataLen_feature_len d :
  TensorDim.getDataLen d = TensorDim.batch d * feature_len d.
Proof. unfold TensorDim.getDataLen, feature_len. lia. Qed.

Lemma io_trainable_len_uniform ob l_io :
  (forall io, io ∈ l_io -> TensorDim.batch (Var_Grad.getDim io) = ob) ->
  io_trainable_len l_io = ob * io_trainable_feature_len l_io.
Proof.
  unfold io_trainable_len, io_trainable_feature_len.
  induction l_io as [|io l_io IH]; intros Hob; simpl; [lia|].
  rewrite IH by (intros io' Hin; apply Hob; by apply elem_of_cons; right).
  rewrite getDataLen_feature_len, (Hob io) by (apply elem_of_cons; by left).
  destruct (Var_Grad.getTrainable io); lia.
Qed.

Lemma N_list_max_scale c l : N_list_max (map (N.mul c) l) = c * N_list_max l.
Proof.
  unfold N_list_max. induction l as [|x l IH]; cbn [map foldr]; [lia|].
  rewrite IH. apply N.mul_max_distr_l.
Qed.

Lemma max_io_trainable_len_uniform ob ios :
  (forall l_io io, l_io ∈ ios -> io ∈ l_io ->
     TensorDim.batch (Var_Grad.getDim io) = ob) ->
  N_list_max (map io_trainable_len ios)
  = ob * N_list_max (map io_trainable_feature_len ios).
Proof.
  intros Hob. rewrite <- N_list_max_scale, <- list_fmap_compose. f_equal.
  apply list_fmap_ext. intros idx l_io Hin. simpl.
  apply io_trainable_len_uniform. intros io Hio.
  eapply Hob; [|exact Hio]. by eapply list_elem_of_lookup_2.
Qed.

Lemma io_trainable_feature_len_with_batch b l_io :
  io_trainable_feature_len (map (with_batch b) l_io)
  = io_trainable_feature_len l_io.
Proof.
  unfold io_trainable_feature_len.
  induction l_io as [|io l_io IH]; simpl; [done|]. by rewrite IH.
Qed.

Lemma uniform_batch_with_batch b ios l_io io :
  l_io ∈ map (map (with_batch b)) ios -> io ∈ l_io ->
  TensorDim.batch (Var_Grad.getDim io) = b.
Proof.
  intros Hl Hio.
  apply list_elem_of_fmap in Hl as (l0 & -> & _).
  by apply list_elem_of_fmap in Hio as (io0 & -> & _).
Qed.

(** X11.  When every tracked pair has the same non-zero batch, the first
    tracked layer has a pair and [max_derivative_size] is the maximum over
    the tracked layers of their trainable element count, [setBatchSize(b)]
    with [b > 0] keeps it so for the new shapes (as long as the new maximum
    is below 2^64): the rescaling gives what tracking the layers again with
    the new batch would give. *)
Theorem setBatchSize_rescaling_exact
    (ob b : N) (m : Manager.t) (vg : Var_Grad.t) (rest0 : list Var_Grad.t)
    (rest : list (list Var_Grad.t)) :
  ob ≠ 0 -> b ≠ 0 ->
  uniform_batch ob m ->
  Manager.in_outs m = (vg :: rest0) :: rest ->
  Manager.max_derivative_size m
  = N_list_max (map io_trainable_len (Manager.in_outs m)) ->
  fits_size_t (N_list_max (map io_trainable_len
                             (map (map (with_batch b)) (Manager.in_outs m)))) ->
  exists m',
    Manager.setBatchSize b m = Normal tt m'
    /\ uniform_batch b m'
    /\ Manager.max_derivative_size m'
       = N_list_max (map io_trainable_len (Manager.in_outs m')).
Proof.
  intros Hob Hb Huni Hio Hmax Hfit.
  set (F := N_list_max (map io_trainable_feature_len (Manager.in_outs m))).
  assert (Hold : Manager.max_derivative_size m = ob * F).
  { rewrite Hmax. by apply max_io_trainable_len_uniform. }
  assert (Hnew : N_list_max (map io_trainable_len
                               (map (map (with_batch b)) (Manager.in_outs m)))
                 = b * F).
  { rewrite (max_io_trainable_len_uniform b)
      by (intros ? ?; apply uniform_batch_with_batch).
    f_equal. unfold F. rewrite <- list_fmap_compose. f_equal.
    apply list_fmap_ext. intros _ l_io _. simpl.
    apply io_trainable_feature_len_with_batch. }
  assert (Hvg : TensorDim.batch (Var_Grad.getDim vg) = ob).
  { apply (Huni (vg :: rest0)); rewrite ?Hio; apply elem_of_cons; by left. }
  assert (Hres : Manager.setBatchSize_rescale b m = Some (b * F)).
  { unfold Manager.setBatchSize_rescale. rewrite Hio, Hvg.
    apply N.eqb_neq in Hob as Hob'. rewrite Hob'. f_equal.
    rewrite Hold, (N.mul_comm ob F), N.div_mul by done.
    rewrite size_t_wrap_small; [lia|].
    unfold fits_size_t in *. rewrite Hnew in Hfit. lia. }
  eexists. split; [by apply setBatchSize_pos|]. split.
  - intros l_io io. simpl. apply uniform_batch_with_batch.
  - simpl. by rewrite Hnew.
Qed.

Lemma setBatchSize_rescaling_exact_witness :
  exists m',
    Manager.setBatchSize 8 scenarioB_initialized = Normal tt m'
    /\ uniform_batch 8 m'
    /\ Manager.max_derivative_size m'
       = N_list_max (map io_trainable_len (Manager.in_outs m')).
Proof.
  assert (Huni : uniform_batch 4 scenarioB_initialized).
  { intros l_io io Hl Hio.
    change (Manager.in_outs scenarioB_initialized)
      with [[Var_Grad.initialize
               (Tensor.getSharedDataTensor (Manager.shared_deriv scenarioB)
                  scenarioB_dim 0) true
               (Var_Grad.make scenarioB_dim true "node1:InOut0")];
            [Var_Grad.initialize
               (Tensor.getSharedDataTensor (Manager.shared_deriv scenarioB)
                  scenarioB_dim 0) true
               (Var_Grad.make scenarioB_dim true "node2:InOut0")]] in Hl.
    repeat (apply elem_of_cons in Hl as [->|Hl]);
      [| |by apply elem_of_nil in Hl];
      apply list_elem_of_singleton in Hio; by subst io. }
  apply (setBatchSize_rescaling_exact 4 8 scenarioB_initialized _ _ _
           ltac:(done) ltac:(done) Huni eq_refl eq_refl).
  by vm_compute.
Defined.

(** * Properties of the data buffer *)

Lemma resize_length n v : length (DataBuffer_v2.resize n v) = n.
Proof.
  unfold DataBuffer_v2.resize.
  rewrite length_app, length_take, length_replicate. lia.
Qed.

Lemma resize_grow n v :
  (length v <= n)%nat ->
  DataBuffer_v2.resize n v = v ++ replicate (n - length v) 0.
Proof. intros Hle. unfold DataBuffer_v2.resize. by rewrite take_ge. Qed.

Lemma resize_nonempty n v : n ≠ 0%nat -> DataBuffer_v2.resize n v ≠ [].
Proof.
  intros Hn Hnil. apply (f_equal length) in Hnil.
  rewrite resize_length in Hnil. simpl in Hnil. lia.
Qed.

Lemma assign_nonempty idx bytes v v' :
  DataBuffer_v2.assign idx bytes v = Some v' -> v' ≠ [].
Proof.
  unfold DataBuffer_v2.assign. case_decide as Hlt; [|done].
  intros [= <-] Hnil. apply (f_equal length) in Hnil.
  rewrite length_insert in Hnil. simpl in Hnil. lia.
Qed.

Lemma run_call_configured c d d' :
  DataBuffer_v2.configured d ->
  state_after (DataBuffer_v2.run_call c d) = Some d' ->
  DataBuffer_v2.configured d'.
Proof.
  unfold DataBuffer_v2.configured.
  intros (Hb & Hl & Hls & His).
  destruct c as [n|n|bytes idx|n|bytes idx|n]; simpl.
  - unfold DataBuffer_v2.setNumInputs.
    destruct (n =? 0) eqn:Hn; [by intros [= <-]|].
    apply N.eqb_neq in Hn.
    destruct (negb _); intros [= <-]; simpl; [|done].
    repeat split; try done. apply resize_nonempty. lia.
  - unfold DataBuffer_v2.setNumLabels.
    destruct (n =? 0) eqn:Hn; [by intros [= <-]|].
    apply N.eqb_neq in Hn.
    destruct (negb _); intros [= <-]; simpl; [|done].
    repeat split; try done. apply resize_nonempty. lia.
  - unfold DataBuffer_v2.setLabelSize.
    destruct (bytes =? 0); [by intros [= <-]|].
    destruct (_ <=? idx).
    + destruct (1 <? _); [by intros [= <-]|].
      destruct (DataBuffer_v2.assign _ _ _) as [v|] eqn:Hv; [|done].
      intros [= <-]; simpl. repeat split; try done.
      by eapply assign_nonempty.
    + destruct (DataBuffer_v2.assign _ _ _) as [v|] eqn:Hv; [|done].
      intros [= <-]; simpl. repeat split; try done.
      by eapply assign_nonempty.
  - unfold DataBuffer_v2.setBufferSize.
    destruct (n =? 0) eqn:Hn; [by intros [= <-]|].
    apply N.eqb_neq in Hn. intros [= <-]; simpl. repeat split; try done. lia.
  - unfold DataBuffer_v2.setInputSize.
    destruct (bytes =? 0); [by intros [= <-]|].
    destruct (_ <=? idx).
    + destruct (1 <? _); [by intros [= <-]|].
      destruct (DataBuffer_v2.assign _ _ _) as [v|] eqn:Hv; [|done].
      intros [= <-]; simpl. repeat split; try done.
      by eapply assign_nonempty.
    + destruct (DataBuffer_v2.assign _ _ _) as [v|] eqn:Hv; [|done].
      intros [= <-]; simpl. repeat split; try done.
      by eapply assign_nonempty.
  - unfold DataBuffer_v2.setBatchSize.
    destruct (n =? 0) eqn:Hn; [by intros [= <-]|].
    apply N.eqb_neq in Hn. intros [= <-]; simpl. repeat split; try done. lia.
Qed.

Lemma assign_resized (idx bytes : N) (v : list N) :
  idx + 1 < uint_modulus ->
  exists v',
    DataBuffer_v2.assign idx bytes
      (DataBuffer_v2.resize (N.to_nat (uint_wrap (idx + 1))) v) = Some v'.
Proof.
  intros Hfit. unfold DataBuffer_v2.assign, uint_wrap.
  rewrite N.mod_small by done. rewrite resize_length.
  rewrite decide_True by lia. by eexists.
Qed.

Lemma run_call_defined c d :
  DataBuffer_v2.index_fits c ->
  exists d', state_after (DataBuffer_v2.run_call c d) = Some d'.
Proof.
  intros Hfit.
  destruct c as [n|n|bytes idx|n|bytes idx|n]; simpl in *.
  - unfold DataBuffer_v2.setNumInputs.
    destruct (n =? 0); [by eexists|]. destruct (negb _); by eexists.
  - unfold DataBuffer_v2.setNumLabels.
    destruct (n =? 0); [by eexists|]. destruct (negb _); by eexists.
  - unfold DataBuffer_v2.setLabelSize.
    destruct (bytes =? 0); [by eexists|].
    destruct (_ <=? idx) eqn:Hle.
    + destruct (1 <? _); [by eexists|].
      destruct (assign_resized idx bytes (DataBuffer_v2.label_size d) Hfit)
        as [v ->]. by eexists.
    + apply N.leb_gt in Hle. unfold DataBuffer_v2.assign.
      rewrite decide_True by lia. by eexists.
  - unfold DataBuffer_v2.setBufferSize. destruct (n =? 0); by eexists.
  - unfold DataBuffer_v2.setInputSize.
    destruct (bytes =? 0); [by eexists|].
    destruct (_ <=? idx) eqn:Hle.
    + destruct (1 <? _); [by eexists|].
      destruct (assign_resized idx bytes (DataBuffer_v2.input_size d) Hfit)
        as [v ->]. by eexists.
    + apply N.leb_gt in Hle. unfold DataBuffer_v2.assign.
      rewrite decide_True by lia. by eexists.
  - unfold DataBuffer_v2.setBatchSize. destruct (n =? 0); by eexists.
Qed.

Lemma run_calls_configured cs : forall d,
  Forall DataBuffer_v2.index_fits cs ->
  DataBuffer_v2.configured d ->
  exists d',
    DataBuffer_v2.run_calls cs d = Some d' /\ DataBuffer_v2.configured d'.
Proof.
  induction cs as [|c cs IH]; intros d Hfit Hd; simpl.
  - by exists d.
  - apply Forall_cons in Hfit as [Hc Hcs].
    destruct (run_call_defined c d Hc) as [d1 Hd1]. rewrite Hd1.
    apply IH; [done|]. by eapply run_call_configured.
Qed.

(** With the last [unsigned int] as index, [idx + 1] is 0: the vector is
    emptied and the write that follows is out of range. *)
Lemma setLabelSize_wrapped_index :
  DataBuffer_v2.setLabelSize 10 (uint_modulus - 1) DataBuffer_v2.make
  = Undefined.
Proof. reflexivity. Qed.

(** X12.  Through every sequence of the configuring calls on a new data
    buffer ([setNumInputs], [setNumLabels], [setLabelSize], [setBufferSize],
    [setInputSize], [setBatchSize]) in which no index is the last
    [unsigned int], 2^32 - 1 (there [idx + 1] wraps around to 0 and the
    write is out of range), whether the calls return or throw, no call has
    undefined behaviour, the batch size and the buffer length stay at
    least 1 and the vectors of input and label sizes stay non-empty; so,
    whatever data source and number of entries the buffer is given,
    [getTotalNumBatches] does not divide by zero. *)
Theorem DataBuffer_setters_keep_configured (cs : list DataBuffer_v2.call) :
  Forall DataBuffer_v2.index_fits cs ->
  exists d,
    DataBuffer_v2.run_calls cs DataBuffer_v2.make = Some d
    /\ DataBuffer_v2.configured d
    /\ forall ty entries,
         DataBuffer_v2.getTotalNumBatches
           (DataBuffer_v2.with_source ty entries d) ≠ Undefined.
Proof.
  intros Hfit.
  destruct (run_calls_configured cs DataBuffer_v2.make Hfit) as (d & Hrun & Hconf).
  { unfold DataBuffer_v2.configured. simpl. repeat split; done. }
  exists d. split; [done|]. split; [done|].
  intros ty entries. destruct Hconf as (Hb & _).
  unfold DataBuffer_v2.getTotalNumBatches. simpl.
  destruct ty; try done.
  destruct (entries =? 0); [done|].
  destruct (DataBuffer_v2.batch_size d =? 0) eqn:Hz; [|done].
  apply N.eqb_eq in Hz. lia.
Qed.

Lemma DataBuffer_setters_keep_configured_witness :
  exists d,
    DataBuffer_v2.run_calls
      [DataBuffer_v2.SetBatchSize 0; DataBuffer_v2.SetNumInputs 2;
       DataBuffer_v2.SetInputSize 12 1; DataBuffer_v2.SetLabelSize 0 0;
       DataBuffer_v2.SetBatchSize 16] DataBuffer_v2.make = Some d
    /\ DataBuffer_v2.batch_size d = 16
    /\ DataBuffer_v2.input_size d = [0; 12]
    /\ DataBuffer_v2.configured d
    /\ DataBuffer_v2.getTotalNumBatches
         (DataBuffer_v2.with_source DataBuffer_v2.DATA_BUFFER_FILE 100 d)
       ≠ Undefined.
Proof.
  destruct (DataBuffer_setters_keep_configured
              [DataBuffer_v2.SetBatchSize 0; DataBuffer_v2.SetNumInputs 2;
               DataBuffer_v2.SetInputSize 12 1; DataBuffer_v2.SetLabelSize 0 0;
               DataBuffer_v2.SetBatchSize 16])
    as (d & Hrun & Hconf & Hbatches).
  { repeat constructor; simpl; reflexivity. }
  exists d. split; [exact Hrun|].
  simpl in Hrun. injection Hrun as <-.
  split; [reflexivity|]. split; [reflexivity|]. split; [exact Hconf|].
  apply Hbatches.
Defined.

Lemma assign_padded (idx bytes : N) (v : list N) :
  idx + 1 < uint_modulus ->
  (length v <= N.to_nat idx)%nat ->
  DataBuffer_v2.assign idx bytes
    (DataBuffer_v2.resize (N.to_nat (uint_wrap (idx + 1))) v)
  = Some (v ++ replicate (N.to_nat idx - length v) 0 ++ [bytes]).
Proof.
  intros Hidx Hlen. unfold uint_wrap. rewrite N.mod_small by done.
  unfold DataBuffer_v2.assign.
  rewrite decide_True by (rewrite resize_length; lia).
  f_equal. rewrite resize_grow by lia.
  replace (N.to_nat (idx + 1) - length v)%nat
    with (S (N.to_nat idx - length v)) by lia.
  rewrite replicate_S_end.
  rewrite app_assoc.
  set (padded := v ++ replicate (N.to_nat idx - length v) 0).
  replace (N.to_nat idx) with (length padded + 0)%nat at 1
    by (subst padded; rewrite length_app, length_replicate; lia).
  rewrite insert_app_r. subst padded. simpl. by rewrite <- app_assoc.
Qed.

(** X13.  [setLabelSize(bytes, idx)] with [idx + 1] below 2^32: it throws
    and leaves the buffer as it was when [bytes] is 0, or when [idx] is
    past the end while more than one label is set; otherwise it returns
    with [bytes] stored at [idx], after the vector was filled with zeros up
    to [idx] when [idx] was past the end, and with no other member
    changed. *)
Theorem setLabelSize_outcome (bytes idx : N) (d : DataBuffer_v2.t) :
  idx + 1 < uint_modulus ->
  let len := length (DataBuffer_v2.label_size d) in
  (bytes = 0 \/ ((len <= N.to_nat idx)%nat /\ (1 < len)%nat) ->
   exists e, DataBuffer_v2.setLabelSize bytes idx d = Thrown e d)
  /\ (bytes ≠ 0 -> (N.to_nat idx < len)%nat ->
      DataBuffer_v2.setLabelSize bytes idx d
      = Normal tt (DataBuffer_v2.set_label_size
                     (<[N.to_nat idx := bytes]> (DataBuffer_v2.label_size d)) d))
  /\ (bytes ≠ 0 -> (len <= N.to_nat idx)%nat -> (len <= 1)%nat ->
      DataBuffer_v2.setLabelSize bytes idx d
      = Normal tt (DataBuffer_v2.set_label_size
                     (DataBuffer_v2.label_size d
                      ++ replicate (N.to_nat idx - len) 0 ++ [bytes]) d)).
Proof.
  intros Hidx len. unfold DataBuffer_v2.setLabelSize. fold len.
  split; [|split].
  - intros [->|[Hle Hgt]]; [by eexists|].
    destruct (bytes =? 0); [by eexists|].
    rewrite (proj2 (N.leb_le _ _)) by lia.
    rewrite (proj2 (N.ltb_lt _ _)) by lia. by eexists.
  - intros Hb Hlt. apply N.eqb_neq in Hb. rewrite Hb.
    rewrite (proj2 (N.leb_gt _ _)) by lia.
    unfold DataBuffer_v2.assign. by rewrite decide_True.
  - intros Hb Hle Hone. apply N.eqb_neq in Hb. rewrite Hb.
    rewrite (proj2 (N.leb_le _ _)) by lia.
    rewrite (proj2 (N.ltb_ge _ _)) by lia.
    by rewrite assign_padded.
Qed.

Lemma setLabelSize_outcome_witness :
  DataBuffer_v2.setLabelSize 10 3 DataBuffer_v2.make
  = Normal tt (DataBuffer_v2.set_label_size [0; 0; 0; 10] DataBuffer_v2.make)
  /\ exists e,
       DataBuffer_v2.setLabelSize 10 5
         (DataBuffer_v2.set_label_size [4; 4] DataBuffer_v2.make)
       = Thrown e (DataBuffer_v2.set_label_size [4; 4] DataBuffer_v2.make).
Proof.
  split.
  - assert (Hidx : 3 + 1 < uint_modulus) by reflexivity.
    destruct (setLabelSize_outcome 10 3 DataBuffer_v2.make Hidx) as (_ & _ & H).
    apply H; [done|simpl; lia|simpl; lia].
  - assert (Hidx : 5 + 1 < uint_modulus) by reflexivity.
    destruct (setLabelSize_outcome 10 5
                (DataBuffer_v2.set_label_size [4; 4] DataBuffer_v2.make) Hidx)
      as (H & _).
    apply H. right. simpl. lia.
Defined.

(** X14.  [setInputSize(bytes, idx)] with [idx] past the end of the input
    sizes ([bytes] non-zero, [idx + 1] below 2^32) is decided by the number
    of labels, whatever the number of inputs: with more than one label it
    throws and leaves the buffer as it was; with at most one label it
    returns, the input sizes filled with zeros up to [idx] and [bytes]
    stored at [idx]. *)
Theorem setInputSize_growth_decided_by_labels
    (bytes idx : N) (d : DataBuffer_v2.t) :
  bytes ≠ 0 ->
  idx + 1 < uint_modulus ->
  (length (DataBuffer_v2.input_size d) <= N.to_nat idx)%nat ->
  ((1 < length (DataBuffer_v2.label_size d))%nat ->
   exists e, DataBuffer_v2.setInputSize bytes idx d = Thrown e d)
  /\ ((length (DataBuffer_v2.label_size d) <= 1)%nat ->
      DataBuffer_v2.setInputSize bytes idx d
      = Normal tt (DataBuffer_v2.set_input_size
                     (DataBuffer_v2.input_size d
                      ++ replicate (N.to_nat idx
                                    - length (DataBuffer_v2.input_size d)) 0
                      ++ [bytes]) d)).
Proof.
  intros Hb Hidx Hle. unfold DataBuffer_v2.setInputSize.
  apply N.eqb_neq in Hb. rewrite Hb.
  rewrite (proj2 (N.leb_le _ _)) by lia.
  split.
  - intros Hgt. rewrite (proj2 (N.ltb_lt _ _)) by lia. by eexists.
  - intros Hone. rewrite (proj2 (N.ltb_ge _ _)) by lia.
    by rewrite assign_padded.
Qed.

Lemma setInputSize_growth_decided_by_labels_witness :
  (exists e,
      DataBuffer_v2.setInputSize 8 1
        (DataBuffer_v2.set_label_size [4; 4] DataBuffer_v2.make)
      = Thrown e (DataBuffer_v2.set_label_size [4; 4] DataBuffer_v2.make))
  /\ DataBuffer_v2.setInputSize 8 5
       (DataBuffer_v2.set_input_size [1; 2; 3] DataBuffer_v2.make)
     = Normal tt (DataBuffer_v2.set_input_size [1; 2; 3; 0; 0; 8]
                    DataBuffer_v2.make).
Proof.
  split.
  - apply (setInputSize_growth_decided_by_labels 8 1
             (DataBuffer_v2.set_label_size [4; 4] DataBuffer_v2.make));
      [done|reflexivity|simpl; lia|simpl; lia].
  - apply (setInputSize_growth_decided_by_labels 8 5
             (DataBuffer_v2.set_input_size [1; 2; 3] DataBuffer_v2.make));
      [done|reflexivity|simpl; lia|simpl; lia].
Defined.

(** X15.  [getTotalNumBatches()] returns only for a file based buffer whose
    number of entries is known, without changing it, and what it returns
    is the number of whole batches: [n * batch_size] entries are there and
    [(n + 1) * batch_size] are not, so it is 0 when there are fewer entries
    than one batch. *)
Theorem getTotalNumBatches_whole_batches
    (d d' : DataBuffer_v2.t) (n : N) :
  DataBuffer_v2.getTotalNumBatches d = Normal n d' ->
  d' = d
  /\ DataBuffer_v2.type d = DataBuffer_v2.DATA_BUFFER_FILE
  /\ DataBuffer_v2.total_data_entries d ≠ 0
  /\ n * DataBuffer_v2.batch_size d <= DataBuffer_v2.total_data_entries d
  /\ DataBuffer_v2.total_data_entries d < (n + 1) * DataBuffer_v2.batch_size d
  /\ (n = 0 <-> DataBuffer_v2.total_data_entries d < DataBuffer_v2.batch_size d).
Proof.
  unfold DataBuffer_v2.getTotalNumBatches.
  destruct (DataBuffer_v2.type d) eqn:Htype; try done.
  destruct (DataBuffer_v2.total_data_entries d =? 0) eqn:Htot; [done|].
  destruct (DataBuffer_v2.batch_size d =? 0) eqn:Hb; [done|].
  apply N.eqb_neq in Htot, Hb. intros [= <- <-].
  split; [done|]. split; [done|]. split; [done|].
  pose proof (N.Div0.mul_div_le (DataBuffer_v2.total_data_entries d)
                (DataBuffer_v2.batch_size d)) as Hle.
  pose proof (N.mul_succ_div_gt (DataBuffer_v2.total_data_entries d)
                (DataBuffer_v2.batch_size d) Hb) as Hgt.
  split; [lia|]. split; [lia|].
  split.
  - intros Hz. rewrite Hz in Hgt. lia.
  - intros Hlt. by apply N.div_small.
Qed.

Lemma getTotalNumBatches_whole_batches_witness :
  DataBuffer_v2.getTotalNumBatches
    (DataBuffer_v2.Build DataBuffer_v2.DATA_BUFFER_FILE [4] [12] 1 0 100 32 1
       DataBuffer_v2.THREAD_READY)
  = Normal 3
      (DataBuffer_v2.Build DataBuffer_v2.DATA_BUFFER_FILE [4] [12] 1 0 100 32 1
         DataBuffer_v2.THREAD_READY)
  /\ 3 * 32 <= 100 < (3 + 1) * 32.
Proof.
  assert (Hrun : DataBuffer_v2.getTotalNumBatches
            (DataBuffer_v2.Build DataBuffer_v2.DATA_BUFFER_FILE [4] [12] 1 0
               100 32 1 DataBuffer_v2.THREAD_READY)
          = Normal 3
              (DataBuffer_v2.Build DataBuffer_v2.DATA_BUFFER_FILE [4] [12] 1 0
                 100 32 1 DataBuffer_v2.THREAD_READY)) by reflexivity.
  destruct (getTotalNumBatches_whole_batches _ _ _ Hrun)
    as (_ & _ & _ & Hle & Hlt & _).
  split; [exact Hrun|]. split; [exact Hle|exact Hlt].
Defined.

Lemma resize_lookup_lt n v i :
  (i < n)%nat ->
  DataBuffer_v2.resize n v !! i
  = Some (match v !! i with Some x => x | None => 0 end).
Proof.
  intros Hi. unfold DataBuffer_v2.resize.
  destruct (decide (i < length v)%nat) as [Hlt|Hge].
  - rewrite lookup_app_l by (rewrite length_take; lia).
    rewrite lookup_take_lt by done.
    destruct (lookup_lt_is_Some_2 v i Hlt) as [x Hx]. by rewrite Hx.
  - rewrite lookup_app_r by (rewrite length_take; lia).
    rewrite (lookup_ge_None_2 v i) by lia.
    rewrite lookup_replicate_2; [done|]. rewrite length_take. lia.
Qed.

(** X16.  After [setNumInputs(n)] with [n > 0] there are exactly [n] input
    sizes, the ones below [n] kept and the new ones 0; then
    [setInputSize(bytes, idx)] with [bytes > 0] and [idx < n] returns,
    whatever the number of labels, with [bytes] at [idx], the other input
    sizes and their number unchanged. *)
Theorem setNumInputs_then_setInputSize
    (n bytes idx : N) (d : DataBuffer_v2.t) :
  n ≠ 0 -> bytes ≠ 0 -> idx < n ->
  exists d1 d2,
    DataBuffer_v2.setNumInputs n d = Normal tt d1
    /\ length (DataBuffer_v2.input_size d1) = N.to_nat n
    /\ (forall i, (i < N.to_nat n)%nat ->
          DataBuffer_v2.input_size d1 !! i
          = Some (match DataBuffer_v2.input_size d !! i with
                  | Some x => x
                  | None => 0
                  end))
    /\ DataBuffer_v2.label_size d1 = DataBuffer_v2.label_size d
    /\ DataBuffer_v2.setInputSize bytes idx d1 = Normal tt d2
    /\ DataBuffer_v2.input_size d2
       = <[N.to_nat idx := bytes]> (DataBuffer_v2.input_size d1)
    /\ DataBuffer_v2.input_size d2 !! N.to_nat idx = Some bytes
    /\ length (DataBuffer_v2.input_size d2) = N.to_nat n.
Proof.
  intros Hn Hb Hidx.
  assert (Hstep1 : exists d1,
             DataBuffer_v2.setNumInputs n d = Normal tt d1
             /\ DataBuffer_v2.input_size d1
                = DataBuffer_v2.resize (N.to_nat n) (DataBuffer_v2.input_size d)
             /\ DataBuffer_v2.label_size d1 = DataBuffer_v2.label_size d).
  { unfold DataBuffer_v2.setNumInputs.
    apply N.eqb_neq in Hn as Hn'. rewrite Hn'.
    destruct (n =? N.of_nat (length (DataBuffer_v2.input_size d))) eqn:Heq;
      simpl; eexists; (split; [reflexivity|]); (split; [|done]); [|done].
    apply N.eqb_eq in Heq. rewrite Heq, Nat2N.id.
    unfold DataBuffer_v2.resize.
    by rewrite take_ge, Nat.sub_diag, app_nil_r by lia. }
  destruct Hstep1 as (d1 & Hrun1 & Hin1 & Hlab1).
  assert (Hlen1 : length (DataBuffer_v2.input_size d1) = N.to_nat n)
    by (rewrite Hin1; apply resize_length).
  exists d1. eexists. split; [exact Hrun1|]. split; [exact Hlen1|].
  split.
  { intros i Hi. rewrite Hin1. by apply resize_lookup_lt. }
  split; [exact Hlab1|].
  unfold DataBuffer_v2.setInputSize.
  apply N.eqb_neq in Hb as Hb'. rewrite Hb'.
  rewrite (proj2 (N.leb_gt _ _)) by lia.
  unfold DataBuffer_v2.assign. rewrite decide_True by lia.
  split; [reflexivity|]. simpl. split; [reflexivity|].
  split.
  - apply list_lookup_insert_eq. lia.
  - by rewrite length_insert.
Qed.

Lemma setNumInputs_then_setInputSize_witness :
  exists d1 d2,
    DataBuffer_v2.setNumInputs 3
      (DataBuffer_v2.set_label_size [4; 4] DataBuffer_v2.make) = Normal tt d1
    /\ DataBuffer_v2.setInputSize 9 2 d1 = Normal tt d2
    /\ DataBuffer_v2.input_size d2 = [0; 0; 9].
Proof.
  destruct (setNumInputs_then_setInputSize 3 9 2
              (DataBuffer_v2.set_label_size [4; 4] DataBuffer_v2.make)
              ltac:(done) ltac:(done) ltac:(reflexivity))
    as (d1 & d2 & Hrun1 & _ & _ & _ & Hrun2 & Hin2 & _).
  exists d1, d2. split; [exact Hrun1|]. split; [exact Hrun2|].
  rewrite Hin2.
  assert (Hd1 : d1 = DataBuffer_v2.set_input_size [0; 0; 0]
                       (DataBuffer_v2.set_label_size [4; 4] DataBuffer_v2.make)).
  { cbv in Hrun1. by injection Hrun1 as <-. }
  by rewrite Hd1.
Defined.

(** * Further properties of a layer node *)

Section NodeProperties.
Context `{C : LayerNode.Collaborators}.

Lemma updateInputLayers_loop_length istrequal from to layers :
  length (LayerNode.updateInputLayers_loop istrequal from to layers)
  = length layers.
Proof. induction layers as [|l layers IH]; simpl; [done|]. by rewrite IH. Qed.

Lemma updateInputLayers_loop_lookup istrequal from to layers i :
  LayerNode.updateInputLayers_loop istrequal from to layers !! i
  = (fun layer => if istrequal layer from then to else layer) <$> layers !! i.
Proof.
  revert i. induction layers as [|l layers IH]; intros [|i]; simpl; done.
Qed.

End NodeProperties.

(** X17.  When the loop of [setProperty] goes through all the properties
    that [loadProperties] left, what [setProperty] does next is one call
    of the layer's [setProperty], and the strings it passes are taken from
    those properties, in their order; the status or the failure of that
    call is the result. *)
Theorem setProperty_forwards_in_order
    (C : LayerNode.Collaborators) (n n' : LayerNode.t)
    (properties properties' remainder : list string) (p : LayerNode.Props) :
  LayerNode.loadProperties properties (LayerNode.props n)
  = Normal properties' p ->
  LayerNode.applied properties' [] (LayerNode.set_props p n)
  = Some (n', remainder) ->
  remainder `sublist_of` properties'
  /\ LayerNode.setProperty properties n
     = match LayerNode.layer_setProperty remainder (LayerNode.getLayer n') with
       | Normal status l => Normal status (LayerNode.set_getLayer l n')
       | Thrown e l => Thrown e (LayerNode.set_getLayer l n')
       | Undefined => Undefined
       end.
Proof.
  intros Hload Happ. split.
  - destruct (applied_remainder _ _ _ _ _ Happ) as (fwd & -> & Hsub). done.
  - unfold LayerNode.setProperty. rewrite Hload.
    rewrite <- (app_nil_r properties') at 1.
    by rewrite (setProperty_loop_applied properties' [] _ n' remainder [] Happ).
Qed.

Lemma setProperty_forwards_in_order_witness :
  LayerNode.setProperty ["unit=4"; "flatten=true"; "input_shape=1:1:8"]
    fresh_node
  = Normal ML_ERROR_NONE
      (@LayerNode.set_layerv1 plain_collaborators
         ["unit=4"; "input_shape=1:1:8"]
         (LayerNode.set_input_dim [TensorDim.Build 1 1 1 8]
            (LayerNode.set_flatten true fresh_node)))
  /\ ["unit=4"; "input_shape=1:1:8"]
       `sublist_of` ["unit=4"; "flatten=true"; "input_shape=1:1:8"].
Proof.
  destruct (setProperty_forwards_in_order plain_collaborators fresh_node
              (LayerNode.set_input_dim [TensorDim.Build 1 1 1 8]
                 (LayerNode.set_flatten true fresh_node))
              ["unit=4"; "flatten=true"; "input_shape=1:1:8"]
              ["unit=4"; "flatten=true"; "input_shape=1:1:8"]
              ["unit=4"; "input_shape=1:1:8"]
              (LayerNode.BuildProps None true) eq_refl eq_refl)
    as [Hsub Hrun].
  split; [exact Hrun|exact Hsub].
Defined.

(** X18.  For the [input_shape] property with a non-empty value, on a node
    whose [getNumInputs()] is 0, or is 1 with an input dimension present,
    [setProperty(type, value)] never returns: it ends by throwing, so that
    the string is passed on to the layer.  When [setTensorDim] returns, with
    whatever status, the batch of the first input dimension is the one it
    had before the call, or 1 when it had none, and the other sizes are
    those [setTensorDim] left.  When [setTensorDim] throws, its failure is
    the one thrown and the dimension stays as [setTensorDim] left it: the
    batch, set to 1 before the call of [setTensorDim], is not put back. *)
Theorem input_shape_batch_restored_on_return
    (C : LayerNode.Collaborators) (value : string) (n : LayerNode.t) :
  value ≠ "" ->
  LayerNode.getNumInputs n = 0%nat
  \/ (LayerNode.getNumInputs n = 1%nat /\ LayerNode.input_dim n ≠ []) ->
  let in_dim := hd TensorDim.empty (LayerNode.input_dim n) in
  let rest :=
    if decide (LayerNode.getNumInputs n = 0%nat) then []
    else tail (LayerNode.input_dim n) in
  let cache_batch_size :=
    if TensorDim.batch in_dim =? 0 then 1 else TensorDim.batch in_dim in
  let d1 :=
    if TensorDim.batch in_dim =? 0 then in_dim
    else TensorDim.Build 1 (TensorDim.channel in_dim)
           (TensorDim.height in_dim) (TensorDim.width in_dim) in
  (forall status d2,
     LayerNode.setTensorDim value d1 = Normal status d2 ->
     exists e,
       LayerNode.setProperty_typed LayerNode.PropertyType.input_shape value n
       = Thrown e
           (LayerNode.set_input_dim
              (TensorDim.Build cache_batch_size (TensorDim.channel d2)
                 (TensorDim.height d2) (TensorDim.width d2) :: rest) n))
  /\ (forall e d2,
        LayerNode.setTensorDim value d1 = Thrown e d2 ->
        LayerNode.setProperty_typed LayerNode.PropertyType.input_shape value n
        = Thrown e (LayerNode.set_input_dim (d2 :: rest) n))
  /\ (forall a n',
        LayerNode.setProperty_typed LayerNode.PropertyType.input_shape value n
        ≠ Normal a n').
Proof.
  intros Hvalue Hnum.
  assert (Hshape : forall in_dim rest n1,
    let cache_batch_size :=
      if TensorDim.batch in_dim =? 0 then 1 else TensorDim.batch in_dim in
    let d1 :=
      if TensorDim.batch in_dim =? 0 then in_dim
      else TensorDim.Build 1 (TensorDim.channel in_dim)
             (TensorDim.height in_dim) (TensorDim.width in_dim) in
    (forall status d2,
       LayerNode.setTensorDim value d1 = Normal status d2 ->
       exists e,
         LayerNode.setProperty_input_shape value in_dim rest n1
         = Thrown e
             (LayerNode.set_input_dim
                (TensorDim.Build cache_batch_size (TensorDim.channel d2)
                   (TensorDim.height d2) (TensorDim.width d2) :: rest) n1))
    /\ (forall e d2,
          LayerNode.setTensorDim value d1 = Thrown e d2 ->
          LayerNode.setProperty_input_shape value in_dim rest n1
          = Thrown e (LayerNode.set_input_dim (d2 :: rest) n1))
    /\ (forall a n',
          LayerNode.setProperty_input_shape value in_dim rest n1
          ≠ Normal a n')).
  { intros in_dim rest n1. unfold LayerNode.setProperty_input_shape.
    rewrite decide_False by done.
    destruct (TensorDim.batch in_dim =? 0) eqn:Hb; simpl.
    - split; [|split].
      + intros status d2 ->. simpl. unfold throw_status.
        destruct (decide (status = ML_ERROR_NONE)); by eexists.
      + by intros e d2 ->.
      + intros a n'.
        destruct (LayerNode.setTensorDim value in_dim) as [status d2|e d2|];
          [|done..].
        simpl. unfold throw_status.
        by destruct (decide (status = ML_ERROR_NONE)).
    - split; [|split].
      + intros status d2 ->. unfold TensorDim.set_batch. rewrite Hb.
        unfold throw_status.
        destruct (decide (status = ML_ERROR_NONE)); by eexists.
      + by intros e d2 ->.
      + intros a n'.
        destruct (LayerNode.setTensorDim value _) as [status d2|e d2|];
          [|done..].
        unfold TensorDim.set_batch. rewrite Hb. unfold throw_status.
        by destruct (decide (status = ML_ERROR_NONE)). }
  unfold LayerNode.setProperty_typed.
  destruct Hnum as [Hzero|[Hone Hdim]].
  - rewrite decide_False by lia. rewrite !decide_True by done.
    destruct (LayerNode.input_dim n) as [|in_dim rest0] eqn:Hin; simpl.
    + exact (Hshape TensorDim.empty []
               (LayerNode.set_input_dim [TensorDim.empty] n)).
    + exact (Hshape in_dim [] (LayerNode.set_input_dim [in_dim] n)).
  - rewrite !decide_False by lia.
    destruct (LayerNode.input_dim n) as [|in_dim rest0] eqn:Hin; [done|].
    simpl. exact (Hshape in_dim rest0 n).
Qed.

(** A node with a batch of 16: a well-formed shape leaves the batch at 16;
    a shape with a zero size makes [setTensorDim] throw, and the batch is
    left at 1. *)
Lemma input_shape_batch_restored_on_return_witness :
  (exists e,
     LayerNode.setProperty_typed LayerNode.PropertyType.input_shape "3:32:32"
       (LayerNode.set_input_dim [TensorDim.Build 16 1 1 1] fresh_node)
     = Thrown e
         (LayerNode.set_input_dim [TensorDim.Build 16 3 32 32] fresh_node))
  /\ LayerNode.setProperty_typed LayerNode.PropertyType.input_shape "3:0:32"
       (LayerNode.set_input_dim [TensorDim.Build 16 1 1 1] fresh_node)
     = Thrown (invalid_argument "zero-sized dimension")
         (LayerNode.set_input_dim [TensorDim.Build 1 3 1 1] fresh_node).
Proof.
  split.
  - destruct (input_shape_batch_restored_on_return plain_collaborators
                "3:32:32"
                (LayerNode.set_input_dim [TensorDim.Build 16 1 1 1] fresh_node)
                ltac:(done) ltac:(by left))
      as (Hreturn & _ & _).
    exact (Hreturn ML_ERROR_NONE (TensorDim.Build 1 3 32 32) eq_refl).
  - destruct (input_shape_batch_restored_on_return plain_collaborators
                "3:0:32"
                (LayerNode.set_input_dim [TensorDim.Build 16 1 1 1] fresh_node)
                ltac:(done) ltac:(by left))
      as (_ & Hthrow & _).
    exact (Hthrow (invalid_argument "zero-sized dimension")
             (TensorDim.Build 1 3 1 1) eq_refl).
Defined.

(** X19.  When the value of a [distribute] property is read as a boolean,
    [setProperty(type, value)] returns with the flag set to it; for [true]
    the layer of the node is wrapped once more in a new time distributed
    layer, for [false] it is left as it is, wrapped or not: in both cases
    [getLayer()] afterwards is the layer [layerv1] was before the call
    (given that [getDistLayer] returns what [setDistLayer] stored). *)
Theorem distribute_wraps_current_layer
    (C : LayerNode.Collaborators) (value : string) (n : LayerNode.t) (b : bool) :
  (forall l d, LayerNode.getDistLayer (LayerNode.setDistLayer l d) = l) ->
  value ≠ "" ->
  LayerNode.setBoolean (LayerNode.distribute n) value = (ML_ERROR_NONE, b) ->
  exists n',
    LayerNode.setProperty_typed LayerNode.PropertyType.distribute value n
    = Normal tt n'
    /\ LayerNode.distribute n' = b
    /\ LayerNode.layerv1 n'
       = (if b
          then LayerNode.setDistLayer (LayerNode.layerv1 n)
                 LayerNode.createTimeDistLayer
          else LayerNode.layerv1 n)
    /\ LayerNode.getLayer n' = LayerNode.layerv1 n.
Proof.
  intros Hlaw Hvalue Hbool. unfold LayerNode.setProperty_typed.
  rewrite decide_False by done. rewrite Hbool.
  unfold throw_status. rewrite decide_True by done. simpl.
  destruct b; eexists; (split; [reflexivity|]); simpl;
    (split; [done|]); (split; [done|]); unfold LayerNode.getLayer; simpl;
    [apply Hlaw|done].
Qed.

Lemma distribute_wraps_current_layer_witness :
  exists n',
    LayerNode.setProperty_typed LayerNode.PropertyType.distribute "true"
      fresh_node = Normal tt n'
    /\ LayerNode.distribute n' = true
    /\ LayerNode.getLayer n' = LayerNode.layerv1 fresh_node.
Proof.
  destruct (distribute_wraps_current_layer plain_collaborators "true"
              fresh_node true ltac:(done) ltac:(done) eq_refl)
    as (n' & Hrun & Hflag & _ & Hlayer).
  exists n'. split; [exact Hrun|]. split; [exact Hflag|exact Hlayer].
Defined.

(** X20.  [updateInputLayers(from, to)] keeps the number of input layers,
    puts [to] in every place whose name compares equal to [from] and
    leaves the other places as they are; so afterwards a name that compares
    equal to [from] is left only if [to] itself does; no other member of
    the node changes. *)
Theorem updateInputLayers_renames
    (C : LayerNode.Collaborators) (istrequal : string -> string -> bool)
    (from to : string) (n : LayerNode.t) :
  let n' := LayerNode.updateInputLayers istrequal from to n in
  length (LayerNode.input_layers n') = length (LayerNode.input_layers n)
  /\ (forall i layer,
        LayerNode.input_layers n !! i = Some layer ->
        LayerNode.input_layers n' !! i
        = Some (if istrequal layer from then to else layer))
  /\ (istrequal to from = false ->
      forall layer, layer ∈ LayerNode.input_layers n' ->
                    istrequal layer from = false)
  /\ n' = LayerNode.set_input_layers (LayerNode.input_layers n') n.
Proof.
  intros n'. subst n'. unfold LayerNode.updateInputLayers. simpl.
  split; [apply updateInputLayers_loop_length|].
  split.
  { intros i layer Hi. by rewrite updateInputLayers_loop_lookup, Hi. }
  split; [|done].
  intros Hto layer Hin.
  apply list_elem_of_lookup in Hin as [i Hi].
  rewrite updateInputLayers_loop_lookup in Hi.
  destruct (LayerNode.input_layers n !! i) as [l0|]; [|done].
  simpl in Hi. injection Hi as <-.
  by destruct (istrequal l0 from) eqn:Heq.
Qed.

(** X21.  [updateInputLayers(idx, to)] throws the out-of-range failure and
    leaves the node as it was exactly when [idx] is not below the number
    of input layers; otherwise it returns with [to] at [idx], the other
    input layers and their number unchanged. *)
Theorem updateInputLayers_at_bounds
    (C : LayerNode.Collaborators) (idx : nat) (to : string) (n : LayerNode.t) :
  ((length (LayerNode.input_layers n) <= idx)%nat <->
   LayerNode.updateInputLayers_at idx to n
   = Thrown (out_of_range "Out of range for input_layers") n)
  /\ ((idx < length (LayerNode.input_layers n))%nat <->
      exists n',
        LayerNode.updateInputLayers_at idx to n = Normal tt n'
        /\ LayerNode.input_layers n' !! idx = Some to
        /\ length (LayerNode.input_layers n')
           = length (LayerNode.input_layers n)
        /\ (forall i, i ≠ idx ->
              LayerNode.input_layers n' !! i = LayerNode.input_layers n !! i)).
Proof.
  unfold LayerNode.updateInputLayers_at.
  destruct (decide (length (LayerNode.input_layers n) <= idx)%nat)
    as [Hle|Hgt].
  - split; [done|]. split; [lia|]. by intros (n' & Hrun & _).
  - split; [split; [lia|done]|]. split; [|lia]. intros Hlt.
    eexists. split; [reflexivity|]. simpl.
    split; [by apply list_lookup_insert_eq|].
    split; [by rewrite length_insert|].
    intros i Hi. by apply list_lookup_insert_ne.
Qed.

(** * Properties of the time distributed layer *)

Lemma iter_offset_small i dim :
  i * TensorDim.batch dim * TensorDim.width dim < uint_modulus ->
  TimeDistLayer.iter_offset i dim
  = i * (TensorDim.batch dim * TensorDim.width dim).
Proof.
  intros Hfit. unfold TimeDistLayer.iter_offset, uint_wrap.
  destruct (decide (TensorDim.width dim = 0)) as [Hw|Hw].
  - rewrite Hw, !N.mul_0_r. by rewrite N.Div0.mod_0_l.
  - assert (Hle : i * TensorDim.batch dim
                  <= i * TensorDim.batch dim * TensorDim.width dim) by nia.
    rewrite (N.mod_small (i * TensorDim.batch dim)) by lia.
    rewrite N.mod_small by done. lia.
Qed.

(** The windows [i * s .. (i + 1) * s) for [i < t] of a buffer of at least
    [t * s] elements. *)
Lemma window_inside (i t s len : N) :
  i < t -> t * s <= len -> i * s + s <= len.
Proof. intros Hi Hlen. nia. Qed.

Lemma window_disjoint (i j s : N) :
  i ≠ j -> regions_disjoint (i * s, s) (j * s, s).
Proof.
  intros Hij. unfold regions_disjoint. simpl.
  destruct (decide (i < j)) as [Hlt|Hge]; [left|right]; nia.
Qed.

Lemma forwarding_in_iter_region in_ in_dim i :
  TensorDim.height in_dim * TensorDim.batch in_dim * TensorDim.width in_dim
  < uint_modulus ->
  i < TensorDim.height in_dim ->
  Tensor.region (TimeDistLayer.forwarding_in_iter in_ in_dim i)
  = Some (i * (TensorDim.batch in_dim * TensorDim.width in_dim),
          TensorDim.batch in_dim * TensorDim.width in_dim).
Proof.
  intros Hfit Hi. unfold TimeDistLayer.forwarding_in_iter, Tensor.region. simpl.
  rewrite iter_offset_small by nia.
  unfold TensorDim.getDataLen. simpl. f_equal. f_equal. lia.
Qed.

(** Past the bound of [unsigned int] two time steps can get one offset:
    for a hidden tensor of batch 2^31 and width 1, steps 0 and 2. *)
Lemma iter_offset_wraps :
  TimeDistLayer.iter_offset 2 (TensorDim.Build 2147483648 1 4 1)
  = TimeDistLayer.iter_offset 0 (TensorDim.Build 2147483648 1 4 1).
Proof. reflexivity. Qed.

(** X22.  In the loop of [TimeDistLayer::forwarding], for an input of
    channel 1 with fewer than 2^32 elements, a transposed input with as
    many elements, and a hidden tensor of the same height whose
    height * batch * width is below 2^32 (the offsets are computed in
    [unsigned int]; above that bound the offsets of two time steps can
    coincide), the input windows of the time steps lie inside the
    transposed input, the output windows inside the output buffer of shape
    [{height, 1, batch, width}], and the windows of two different time
    steps are disjoint. *)
Theorem forwarding_windows
    (in_ : Tensor.t) (in_dim ho_dim : TensorDim.t) (i j : N) :
  TensorDim.channel in_dim = 1 ->
  TensorDim.getDataLen in_dim < uint_modulus ->
  Tensor.buffer_len in_ = TensorDim.getDataLen in_dim ->
  TensorDim.height ho_dim = TensorDim.height in_dim ->
  TensorDim.height ho_dim * TensorDim.batch ho_dim * TensorDim.width ho_dim
  < uint_modulus ->
  i < TensorDim.height in_dim -> j < TensorDim.height in_dim -> i ≠ j ->
  let out :=
    Tensor.of_dim (TensorDim.Build (TensorDim.height ho_dim) 1
                     (TensorDim.batch ho_dim) (TensorDim.width ho_dim)) in
  Tensor.valid_alias (TimeDistLayer.forwarding_in_iter in_ in_dim i)
  /\ Tensor.valid_alias (TimeDistLayer.forwarding_out_iter out ho_dim i)
  /\ tensors_disjoint (TimeDistLayer.forwarding_in_iter in_ in_dim i)
                      (TimeDistLayer.forwarding_in_iter in_ in_dim j)
  /\ tensors_disjoint (TimeDistLayer.forwarding_out_iter out ho_dim i)
                      (TimeDistLayer.forwarding_out_iter out ho_dim j).
Proof.
  intros Hch Hfit Hbuf Hheight Hfit_out Hi Hj Hij out.
  assert (Hfit_in : TensorDim.height in_dim * TensorDim.batch in_dim
                    * TensorDim.width in_dim < uint_modulus).
  { unfold TensorDim.getDataLen in Hfit. rewrite Hch in Hfit. lia. }
  assert (Hlen_in : TensorDim.getDataLen in_dim
                    = TensorDim.height in_dim
                      * (TensorDim.batch in_dim * TensorDim.width in_dim)).
  { unfold TensorDim.getDataLen. rewrite Hch. lia. }
  split; [|split; [|split]].
  - unfold Tensor.valid_alias, TimeDistLayer.forwarding_in_iter. simpl.
    rewrite iter_offset_small by nia.
    rewrite Hbuf, Hlen_in.
    unfold TensorDim.getDataLen. simpl.
    pose proof (window_inside i (TensorDim.height in_dim)
                  (TensorDim.batch in_dim * TensorDim.width in_dim)
                  _ Hi (N.le_refl _)). lia.
  - unfold Tensor.valid_alias, TimeDistLayer.forwarding_out_iter. simpl.
    rewrite iter_offset_small by nia.
    unfold TensorDim.getDataLen. simpl.
    assert (Hi' : i < TensorDim.height ho_dim) by lia.
    pose proof (window_inside i (TensorDim.height ho_dim)
                  (TensorDim.batch ho_dim * TensorDim.width ho_dim)
                  _ Hi' (N.le_refl _)).
    change (Tensor.buffer_len out)
      with (TensorDim.height ho_dim * 1 * TensorDim.batch ho_dim
            * TensorDim.width ho_dim).
    lia.
  - do 2 eexists.
    rewrite !forwarding_in_iter_region by done.
    split; [reflexivity|]. split; [reflexivity|]. by apply window_disjoint.
  - do 2 eexists.
    rewrite !(forwarding_in_iter_region out ho_dim) by lia.
    split; [reflexivity|]. split; [reflexivity|]. by apply window_disjoint.
Qed.

Lemma forwarding_windows_witness :
  Tensor.valid_alias
    (TimeDistLayer.forwarding_in_iter
       (Tensor.of_dim (TensorDim.Build 5 1 4 8)) (TensorDim.Build 4 1 5 8) 4)
  /\ tensors_disjoint
       (TimeDistLayer.forwarding_in_iter
          (Tensor.of_dim (TensorDim.Build 5 1 4 8)) (TensorDim.Build 4 1 5 8) 4)
       (TimeDistLayer.forwarding_in_iter
          (Tensor.of_dim (TensorDim.Build 5 1 4 8)) (TensorDim.Build 4 1 5 8) 3).
Proof.
  destruct (forwarding_windows (Tensor.of_dim (TensorDim.Build 5 1 4 8))
              (TensorDim.Build 4 1 5 8) (TensorDim.Build 4 1 5 3) 4 3)
    as (Hin & _ & Hdis & _); try reflexivity; [done|].
  split; [exact Hin|exact Hdis].
Defined.



(** X24.  The static [reshape] of time_dist.cpp, which exchanges the batch
    and the height of a tensor.  On a tensor with a zero-sized dimension,
    the empty tensor among them, it throws the invalid-argument failure and
    leaves the tensor as it was.  On any other tensor it returns, keeps the
    storage, the channel, the width and the element count, exchanges the
    batch and the height, and applied once more gives the tensor back. *)
Theorem reshape_exchanges_batch_and_height (m : Tensor.t) :
  (TensorDim.getDataLen (Tensor.dim m) = 0 ->
   TimeDistLayer.reshape m
   = Thrown (invalid_argument "zero-sized dimension") m)
  /\ (TensorDim.getDataLen (Tensor.dim m) ≠ 0 ->
      exists m1,
        TimeDistLayer.reshape m = Normal tt m1
        /\ Tensor.data m1 = Tensor.data m
        /\ TensorDim.batch (Tensor.dim m1) = TensorDim.height (Tensor.dim m)
        /\ TensorDim.height (Tensor.dim m1) = TensorDim.batch (Tensor.dim m)
        /\ TensorDim.channel (Tensor.dim m1) = TensorDim.channel (Tensor.dim m)
        /\ TensorDim.width (Tensor.dim m1) = TensorDim.width (Tensor.dim m)
        /\ TensorDim.getDataLen (Tensor.dim m1)
           = TensorDim.getDataLen (Tensor.dim m)
        /\ TimeDistLayer.reshape m1 = Normal tt m).
Proof.
  destruct m as [[b c h w] data].
  unfold TimeDistLayer.reshape, TensorDim.of_sizes, TensorDim.getDataLen.
  simpl. split.
  - intros Hzero.
    destruct (h =? 0) eqn:Hh; [done|]. destruct (c =? 0) eqn:Hc; [done|].
    destruct (b =? 0) eqn:Hb; [done|]. destruct (w =? 0) eqn:Hw; [done|].
    apply N.eqb_neq in Hh, Hc, Hb, Hw. nia.
  - intros Hlen.
    assert (Hh : (h =? 0) = false) by (apply N.eqb_neq; nia).
    assert (Hc : (c =? 0) = false) by (apply N.eqb_neq; nia).
    assert (Hb : (b =? 0) = false) by (apply N.eqb_neq; nia).
    assert (Hw : (w =? 0) = false) by (apply N.eqb_neq; nia).
    rewrite Hh, Hc, Hb, Hw. simpl.
    unfold Tensor_reshape, TensorDim.getDataLen. simpl.
    assert (Hsame : (h * c * b * w =? b * c * h * w) = true)
      by (apply N.eqb_eq; lia).
    rewrite Hsame. eexists. split; [reflexivity|]. simpl.
    do 6 (split; [first [done|lia]|]).
    rewrite Hb, Hc, Hh, Hw. simpl.
    assert (Hback : (b * c * h * w =? h * c * b * w) = true)
      by (apply N.eqb_eq; lia).
    by rewrite Hback.
Qed.

Lemma reshape_exchanges_batch_and_height_witness :
  TimeDistLayer.reshape Tensor.empty
  = Thrown (invalid_argument "zero-sized dimension") Tensor.empty
  /\ TimeDistLayer.reshape (Tensor.of_dim (TensorDim.Build 4 1 5 8))
     = Normal tt (Tensor.Build (TensorDim.Build 5 1 4 8) (Tensor.OwnsBuffer 160)).
Proof.
  split.
  - apply (reshape_exchanges_batch_and_height Tensor.empty). reflexivity.
  - destruct (reshape_exchanges_batch_and_height
                (Tensor.of_dim (TensorDim.Build 4 1 5 8)))
      as (_ & Hreturn).
    destruct Hreturn as (m1 & Hrun & _); [done|].
    rewrite Hrun. f_equal.
    simpl in Hrun. by injection Hrun as <-.
Defined.

(** * Properties of the dynamic training optimization *)

Lemma DTO_run_calls_snoc {float : Type} (mx nm gr de : string)
    (cs : list (DynamicTrainingOptimization.call float))
    (c : DynamicTrainingOptimization.call float)
    (d : DynamicTrainingOptimization.t float) :
  DynamicTrainingOptimization.run_calls mx nm gr de (cs ++ [c]) d
  = DynamicTrainingOptimization.run_call mx nm gr de c
      (DynamicTrainingOptimization.run_calls mx nm gr de cs d).
Proof. unfold DynamicTrainingOptimization.run_calls. by rewrite foldl_app. Qed.

Lemma DTO_mode_matches_operation {float : Type} (mx nm gr de : string)
    (cs : list (DynamicTrainingOptimization.call float))
    (threshold_ epsilon_ : float) (skip : Z) :
  gr ≠ de -> gr ≠ "" ->
  let d := DynamicTrainingOptimization.run_calls mx nm gr de cs
             (DynamicTrainingOptimization.make threshold_ epsilon_ skip) in
  (DynamicTrainingOptimization.calc_ratio_mode d = gr ->
   DynamicTrainingOptimization.calc_ratio_op d
   = DynamicTrainingOptimization.ratioUsingGradient)
  /\ (DynamicTrainingOptimization.calc_ratio_mode d = de ->
      DynamicTrainingOptimization.calc_ratio_op d
      = DynamicTrainingOptimization.ratioUsingDerivative).
Proof.
  intros Hdiff Hgr.
  induction cs as [|c cs IH] using rev_ind; simpl.
  - split; [by intros <-|done].
  - rewrite DTO_run_calls_snoc.
    destruct IH as [IHg IHd].
    destruct c as [f|op| | |m|k]; simpl; try done.
    + unfold DynamicTrainingOptimization.setOp.
      repeat case_decide; simpl; done.
    + unfold DynamicTrainingOptimization.setMode.
      repeat case_decide; simpl; split; intros; congruence.
Qed.

(** X25.  After any sequence of the configuring calls on a new object (the
    names of the two modes being different and the name of the gradient
    mode not empty), the mode reported and the operation used agree:
    when [isGradientMode()] holds the ratio is computed from the gradient,
    when [isDerivativeMode()] holds it is computed from the derivative, and
    the two never hold together. *)
Theorem DTO_reported_mode_is_used {float : Type} (mx nm gr de : string)
    (cs : list (DynamicTrainingOptimization.call float))
    (threshold_ epsilon_ : float) (skip : Z) :
  gr ≠ de -> gr ≠ "" ->
  let d := DynamicTrainingOptimization.run_calls mx nm gr de cs
             (DynamicTrainingOptimization.make threshold_ epsilon_ skip) in
  (DynamicTrainingOptimization.isGradientMode gr d = true ->
   DynamicTrainingOptimization.calc_ratio_op d
   = DynamicTrainingOptimization.ratioUsingGradient)
  /\ (DynamicTrainingOptimization.isDerivativeMode de d = true ->
      DynamicTrainingOptimization.calc_ratio_op d
      = DynamicTrainingOptimization.ratioUsingDerivative)
  /\ ~ (DynamicTrainingOptimization.isGradientMode gr d = true
        /\ DynamicTrainingOptimization.isDerivativeMode de d = true).
Proof.
  intros Hdiff Hgr d.
  destruct (DTO_mode_matches_operation mx nm gr de cs threshold_ epsilon_ skip
              Hdiff Hgr) as [Hg Hd].
  fold d in Hg, Hd.
  unfold DynamicTrainingOptimization.isGradientMode,
    DynamicTrainingOptimization.isDerivativeMode.
  destruct (DynamicTrainingOptimization.enabled d); simpl;
    [|by repeat split; try done; intros [? ?]].
  repeat case_bool_decide; simpl; repeat split; try done; auto.
  - intros _. congruence.
  - by intros [_ ?].
  - by intros [? _].
  - by intros [? _].
Qed.

Lemma DTO_reported_mode_is_used_witness :
  let d := DynamicTrainingOptimization.run_calls (float := Z)
             "max" "norm" "gradient" "derivative"
             [DynamicTrainingOptimization.SetMode "gradient";
              DynamicTrainingOptimization.Enable;
              DynamicTrainingOptimization.SetOp "max"]
             (DynamicTrainingOptimization.make 1%Z 0%Z 1%Z) in
  DynamicTrainingOptimization.isGradientMode "gradient" d = true
  /\ DynamicTrainingOptimization.calc_ratio_op d
     = DynamicTrainingOptimization.ratioUsingGradient.
Proof.
  intros d. split; [reflexivity|].
  destruct (DTO_reported_mode_is_used (float := Z)
              "max" "norm" "gradient" "derivative"
              [DynamicTrainingOptimization.SetMode "gradient";
               DynamicTrainingOptimization.Enable;
               DynamicTrainingOptimization.SetOp "max"]
              1%Z 0%Z 1%Z ltac:(done) ltac:(done)) as (Hg & _).
  apply Hg. reflexivity.
Defined.

(** X26.  [setOp] and [setMode] with a name they do not know switch the
    optimization off and keep the operations as they were, and neither of
    them ever switches it on; after [setMode] with an unknown name a
    following [enable()] switches it on with neither mode reported. *)
Theorem DTO_unknown_name_disables {float : Type} (mx nm gr de name : string)
    (d : DynamicTrainingOptimization.t float) :
  (name ≠ mx -> name ≠ nm ->
   DynamicTrainingOptimization.setOp mx nm name d
   = DynamicTrainingOptimization.set_enabled false d)
  /\ (name ≠ de -> name ≠ gr ->
      let d' := DynamicTrainingOptimization.setMode gr de name d in
      DynamicTrainingOptimization.enabled d' = false
      /\ DynamicTrainingOptimization.calc_ratio_op d'
         = DynamicTrainingOptimization.calc_ratio_op d
      /\ DynamicTrainingOptimization.reduce_op d'
         = DynamicTrainingOptimization.reduce_op d
      /\ DynamicTrainingOptimization.enabled
           (DynamicTrainingOptimization.enable d') = true
      /\ DynamicTrainingOptimization.isGradientMode gr
           (DynamicTrainingOptimization.enable d') = false
      /\ DynamicTrainingOptimization.isDerivativeMode de
           (DynamicTrainingOptimization.enable d') = false)
  /\ (DynamicTrainingOptimization.enabled
        (DynamicTrainingOptimization.setOp mx nm name d) = true ->
      DynamicTrainingOptimization.enabled d = true)
  /\ (DynamicTrainingOptimization.enabled
        (DynamicTrainingOptimization.setMode gr de name d) = true ->
      DynamicTrainingOptimization.enabled d = true).
Proof.
  split; [|split; [|split]].
  - intros Hmx Hnm. unfold DynamicTrainingOptimization.setOp.
    by rewrite !decide_False.
  - intros Hde Hgr d'. subst d'.
    unfold DynamicTrainingOptimization.setMode,
      DynamicTrainingOptimization.isGradientMode,
      DynamicTrainingOptimization.isDerivativeMode.
    rewrite !decide_False by done. simpl.
    rewrite !bool_decide_eq_false_2 by done. done.
  - unfold DynamicTrainingOptimization.setOp. by repeat case_decide.
  - unfold DynamicTrainingOptimization.setMode. by repeat case_decide.
Qed.

Lemma DTO_unknown_name_disables_witness :
  DynamicTrainingOptimization.isDerivativeMode "derivative"
    (DynamicTrainingOptimization.enable
       (DynamicTrainingOptimization.setMode (float := Z)
          "gradient" "derivative" "Derivative"
          (DynamicTrainingOptimization.enable
             (DynamicTrainingOptimization.make 1%Z 0%Z 1%Z))))
  = false.
Proof.
  destruct (DTO_unknown_name_disables (float := Z)
              "max" "norm" "gradient" "derivative" "Derivative"
              (DynamicTrainingOptimization.enable
                 (DynamicTrainingOptimization.make 1%Z 0%Z 1%Z)))
    as (_ & Hmode & _).
  destruct (Hmode ltac:(done) ltac:(done)) as (_ & _ & _ & _ & _ & Hder).
  exact Hder.
Defined.
